(** * Event canonicalization and motif mining: a shallow embedding

    The development follows two modules of the repository:
    - [research/rung_extractors/canonicalization.py]
      ([canonicalize_event], [extract_prompt_from_event], [event_sequence]);
    - [representations/encoders/motif_mining.py]
      (the [MotifRegistry] class, the four miners and [unify_motifs]).

    Python strings are modelled as byte strings ([string]): the model is
    that of ASCII text, on which [str.lower], [str.strip] and
    [str.encode] are the functions below; symbols and motifs are ASCII by
    construction, and the properties that depend on the text of an event
    state [isascii] for it.  Python integers are [Z]; their conversion to
    text is refused above [int_max_str_digits] digits, as by the
    interpreter.  The two class-level dictionaries of [MotifRegistry]
    are finite maps ([gmap string string]); a [Counter], whose iteration
    order is its insertion order, is an association list. *)

From Stdlib Require Import ZArith Ascii String List Bool Lia DecimalString.
From Stdlib Require Import DecimalZ.
From Stdlib Require Import Uint63 PrimFloat.
From stdpp Require Import base option gmap strings list.
Import ListNotations.

Local Open Scope string_scope.
Local Open Scope list_scope.

#[local] Set Warnings "-register-all,-inexact-float".

(** ** SHA-1 ([hashlib.sha1(...).hexdigest()]) *)

Module Sha1.

Definition mask32 : Z := 4294967295%Z.

Definition add32 (x y : Z) : Z := Z.land (x + y) mask32.

Definition rotl32 (n : Z) (x : Z) : Z :=
  Z.lor (Z.land (Z.shiftl x n) mask32) (Z.shiftr x (32 - n)).

Definition byte_of (c : ascii) : Z := Z.of_N (N_of_ascii c).

Fixpoint bytes_of_string (s : string) : list Z :=
  match s with
  | EmptyString => []
  | String c r => byte_of c :: bytes_of_string r
  end.

(** Big-endian encoding of [v] on [n] bytes. *)
Fixpoint be_bytes (n : nat) (v : Z) : list Z :=
  match n with
  | O => []
  | S k => Z.land (Z.shiftr v (8 * Z.of_nat k)) 255 :: be_bytes k v
  end.

(** Message padding: a 1 bit, zeros up to 56 mod 64, the bit length on 8 bytes. *)
Definition pad (msg : list Z) : list Z :=
  let len := Z.of_nat (List.length msg) in
  let zeros := Z.to_nat ((55 - len) mod 64) in
  msg ++ 128%Z :: List.repeat 0%Z zeros ++ be_bytes 8 (8 * len).

Fixpoint words_of_bytes (n : nat) (bs : list Z) : list Z :=
  match n with
  | O => []
  | S k =>
      match bs with
      | b0 :: b1 :: b2 :: b3 :: r =>
          (Z.shiftl b0 24 + Z.shiftl b1 16 + Z.shiftl b2 8 + b3)%Z
            :: words_of_bytes k r
      | _ => []
      end
  end.

(** The message schedule, kept newest first: [w] holds W[t-1], W[t-2], ... *)
Fixpoint extend_schedule (n : nat) (w : list Z) : list Z :=
  match n with
  | O => w
  | S k =>
      let x := Z.lxor (Z.lxor (List.nth 2 w 0%Z) (List.nth 7 w 0%Z))
                      (Z.lxor (List.nth 13 w 0%Z) (List.nth 15 w 0%Z)) in
      extend_schedule k (rotl32 1 x :: w)
  end.

Definition schedule (block : list Z) : list Z :=
  List.rev (extend_schedule 64 (List.rev (words_of_bytes 16 block))).

Definition state : Type := (Z * Z * Z * Z * Z)%type.

Definition round_fk (t : nat) (b c d : Z) : Z * Z :=
  if (t <? 20)%nat then
    (Z.lor (Z.land b c) (Z.land (Z.lxor b mask32) d), 1518500249%Z)
  else if (t <? 40)%nat then
    (Z.lxor (Z.lxor b c) d, 1859775393%Z)
  else if (t <? 60)%nat then
    (Z.lor (Z.lor (Z.land b c) (Z.land b d)) (Z.land c d), 2400959708%Z)
  else
    (Z.lxor (Z.lxor b c) d, 3395469782%Z).

Fixpoint rounds (t : nat) (ws : list Z) (st : state) : state :=
  match ws with
  | [] => st
  | w :: ws' =>
      let '(a, b, c, d, e) := st in
      let '(f, k) := round_fk t b c d in
      let tmp := add32 (add32 (add32 (add32 (rotl32 5 a) f) e) k) w in
      rounds (S t) ws' (tmp, a, rotl32 30 b, c, d)
  end.

Definition compress (st : state) (block : list Z) : state :=
  let '(h0, h1, h2, h3, h4) := st in
  let '(a, b, c, d, e) := rounds 0 (schedule block) st in
  (add32 h0 a, add32 h1 b, add32 h2 c, add32 h3 d, add32 h4 e).

Fixpoint blocks (n : nat) (bs : list Z) (st : state) : state :=
  match n with
  | O => st
  | S k => blocks k (List.skipn 64 bs) (compress st (List.firstn 64 bs))
  end.

Definition init : state :=
  (1732584193%Z, 4023233417%Z, 2562383102%Z, 271733878%Z, 3285377520%Z).

Definition digest (msg : list Z) : list Z :=
  let p := pad msg in
  let '(h0, h1, h2, h3, h4) := blocks (List.length p / 64) p init in
  be_bytes 4 h0 ++ be_bytes 4 h1 ++ be_bytes 4 h2 ++ be_bytes 4 h3
    ++ be_bytes 4 h4.

Definition hex_digit (v : Z) : ascii :=
  ascii_of_N (Z.to_N (if (v <? 10)%Z then 48 + v else 87 + v)%Z).

Fixpoint hex_of_bytes (bs : list Z) : string :=
  match bs with
  | [] => EmptyString
  | b :: r =>
      String (hex_digit (Z.shiftr b 4))
        (String (hex_digit (Z.land b 15)) (hex_of_bytes r))
  end.

(** [hashlib.sha1(s.encode()).hexdigest()] *)
Definition hexdigest (s : string) : string :=
  hex_of_bytes (digest (bytes_of_string s)).

End Sha1.

(** ** Python string operations used by the two modules *)

Module Py.

Definition code (c : ascii) : N := N_of_ascii c.

Definition in_range (lo hi : N) (c : ascii) : bool :=
  ((lo <=? code c) && (code c <=? hi))%N.

Definition is_upper : ascii -> bool := in_range 65 90.
Definition is_lower : ascii -> bool := in_range 97 122.
Definition is_alpha (c : ascii) : bool := is_upper c || is_lower c.
Definition is_digit : ascii -> bool := in_range 48 57.

(** [str.isspace] on ASCII: TAB..CR, FS..US and the space. *)
Definition is_space (c : ascii) : bool := in_range 9 13 c || in_range 28 32 c.

(** The whitespace [int()] accepts around a literal: TAB..CR and the space. *)
Definition is_c_space (c : ascii) : bool :=
  in_range 9 13 c || (code c =? 32)%N.

Definition lower_char (c : ascii) : ascii :=
  if is_upper c then ascii_of_N (code c + 32) else c.
Definition upper_char (c : ascii) : ascii :=
  if is_lower c then ascii_of_N (code c - 32) else c.

Fixpoint map_string (f : ascii -> ascii) (s : string) : string :=
  match s with
  | EmptyString => EmptyString
  | String c r => String (f c) (map_string f r)
  end.

(** [s.lower()] and [s.upper()] on ASCII text: the letters A-Z and a-z
    change case, one by one. *)
Definition lower : string -> string := map_string lower_char.
Definition upper : string -> string := map_string upper_char.

Fixpoint rev_append (s acc : string) : string :=
  match s with
  | EmptyString => acc
  | String c r => rev_append r (String c acc)
  end.
Definition reverse (s : string) : string := rev_append s EmptyString.

Fixpoint drop_while (p : ascii -> bool) (s : string) : string :=
  match s with
  | EmptyString => EmptyString
  | String c r => if p c then drop_while p r else s
  end.

Fixpoint take_while (p : ascii -> bool) (s : string) : string :=
  match s with
  | EmptyString => EmptyString
  | String c r => if p c then String c (take_while p r) else EmptyString
  end.

(** [s.strip()] on ASCII text *)
Definition strip (s : string) : string :=
  reverse (drop_while is_space (reverse (drop_while is_space s))).

(** [s.startswith(p)] *)
Fixpoint startswith (s p : string) {struct p} : bool :=
  match p with
  | EmptyString => true
  | String a p' =>
      match s with
      | EmptyString => false
      | String b s' => Ascii.eqb a b && startswith s' p'
      end
  end.

(** [sub in s] *)
Fixpoint contains (sub s : string) : bool :=
  startswith s sub ||
  match s with
  | EmptyString => false
  | String _ r => contains sub r
  end.

(** [s[n:]] for [n >= 0] *)
Fixpoint drop (n : nat) (s : string) : string :=
  match n, s with
  | O, _ => s
  | S k, EmptyString => EmptyString
  | S k, String _ r => drop k r
  end.

(** [s[a:b]] for [0 <= a <= b] *)
Definition slice (a b : nat) (s : string) : string :=
  String.substring a (b - a) s.

(** [s.split(sep)] for a one-character separator *)
Fixpoint split_char (sep : ascii) (s : string) : list string :=
  match s with
  | EmptyString => [EmptyString]
  | String c r =>
      if Ascii.eqb c sep then EmptyString :: split_char sep r
      else match split_char sep r with
           | h :: t => String c h :: t
           | [] => [String c EmptyString]
           end
  end.

(** [s.split(sep)] for a non-empty separator; [skip] counts the characters
    of a separator occurrence still to be passed over. *)
Fixpoint split_from (sep : string) (skip : nat) (s : string) : list string :=
  match s with
  | EmptyString => [EmptyString]
  | String c r =>
      match skip with
      | S k => split_from sep k r
      | O =>
          if startswith s sep
          then EmptyString :: split_from sep (String.length sep - 1) r
          else match split_from sep 0 r with
               | h :: t => String c h :: t
               | [] => [String c EmptyString]
               end
      end
  end.
Definition split (sep s : string) : list string := split_from sep 0 s.

(** [s.replace(old, new)] for a non-empty [old] *)
Fixpoint replace_from (old new : string) (skip : nat) (s : string) : string :=
  match s with
  | EmptyString => EmptyString
  | String c r =>
      match skip with
      | S k => replace_from old new k r
      | O =>
          if startswith s old
          then new ++ replace_from old new (String.length old - 1) r
          else String c (replace_from old new 0 r)
      end
  end.
Definition replace (old new s : string) : string := replace_from old new 0 s.

(** [s.title()]: a letter is upper-cased after a non-letter and lower-cased
    after a letter. *)
Fixpoint title_from (prev_cased : bool) (s : string) : string :=
  match s with
  | EmptyString => EmptyString
  | String c r =>
      String (if is_alpha c
              then if prev_cased then lower_char c else upper_char c
              else c)
             (title_from (is_alpha c) r)
  end.
Definition title : string -> string := title_from false.

(** [sep.join(l)] *)
Definition join (sep : string) (l : list string) : string :=
  String.concat sep l.

(** [str(n)] for an integer *)
Definition str_of_Z (n : Z) : string :=
  DecimalString.NilZero.string_of_int (Z.to_int n).

Definition hex_val (c : ascii) : option Z :=
  if is_digit c then Some (Z.of_N (code c) - 48)%Z
  else if in_range 97 102 c then Some (Z.of_N (code c) - 87)%Z
  else if in_range 65 70 c then Some (Z.of_N (code c) - 55)%Z
  else None.

(** The digits of [int(s, 16)]: hexadecimal digits with single underscores
    between them; returns the value and what follows the literal. *)
Fixpoint scan_hex (s : string) (prev_us : bool) (acc : Z) : option (Z * string) :=
  match s with
  | EmptyString => if prev_us then None else Some (acc, EmptyString)
  | String c r =>
      match hex_val c with
      | Some d => scan_hex r false (16 * acc + d)%Z
      | None =>
          if Ascii.eqb c "_"%char
          then if prev_us then None else scan_hex r true acc
          else if prev_us then None else Some (acc, s)
      end
  end.

(** [int(s, 16)]; [None] stands for [ValueError]. *)
Definition int16 (s : string) : option Z :=
  let s1 := drop_while is_c_space s in
  let '(neg, s2) :=
    match s1 with
    | String "+"%char r => (false, r)
    | String "-"%char r => (true, r)
    | _ => (false, s1)
    end in
  let s3 :=
    match s2 with
    | String "0"%char (String x r) =>
        if Ascii.eqb x "x"%char || Ascii.eqb x "X"%char
        then match r with String "_"%char r' => r' | _ => r end
        else s2
    | _ => s2
    end in
  match s3 with
  | EmptyString => None
  | String c _ =>
      match hex_val c with
      | None => None
      | Some _ =>
          match scan_hex s3 false 0%Z with
          | Some (v, rest) =>
              match drop_while is_c_space rest with
              | EmptyString => Some (if neg then (- v)%Z else v)
              | _ => None
              end
          | None => None
          end
      end
  end.

(** [re.search(r'(\d+)', s)]: the first maximal run of digits. *)
Definition first_digits (s : string) : option string :=
  match drop_while (fun c => negb (is_digit c)) s with
  | EmptyString => None
  | r => Some (take_while is_digit r)
  end.

(** [re.search(r'_(\d+)$', s)]: the digits that end the string (or that
    stand before its final newline), when an underscore precedes them. *)
Definition trailing_count (s : string) : option string :=
  let r := reverse s in
  let r := match r with
           | String c r' => if Ascii.eqb c "010"%char then r' else r
           | EmptyString => r
           end in
  let ds := take_while is_digit r in
  match ds, drop_while is_digit r with
  | String _ _, String "_"%char _ => Some (reverse ds)
  | _, _ => None
  end.

(** [re.split(r"[._/\\\-]+", s)] *)
Definition is_delim (c : ascii) : bool :=
  Ascii.eqb c "."%char || Ascii.eqb c "_"%char || Ascii.eqb c "/"%char
  || Ascii.eqb c "\"%char || Ascii.eqb c "-"%char.

Fixpoint split_delims_from (prev_delim : bool) (s : string) : list string :=
  match s with
  | EmptyString => [EmptyString]
  | String c r =>
      if is_delim c
      then if prev_delim then split_delims_from true r
           else EmptyString :: split_delims_from true r
      else match split_delims_from false r with
           | h :: t => String c h :: t
           | [] => [String c EmptyString]
           end
  end.
Definition split_delims : string -> list string := split_delims_from false.

(** [l[:n]] for any integer [n]: a negative bound counts from the end. *)
Definition slice_to {A : Type} (n : Z) (l : list A) : list A :=
  if (0 <=? n)%Z then List.firstn (Z.to_nat n) l
  else List.firstn (Z.to_nat (Z.of_nat (List.length l) + n)) l.

End Py.

(** ** Python values read from a trace

    A trace is JSON: [None], booleans, integers, strings, lists and
    dictionaries with string keys (numbers with a fractional part are
    left out).  A dictionary is the list of its items in insertion
    order. *)

Inductive pyval : Type :=
| PyNone
| PyBool (b : bool)
| PyInt (n : Z)
| PyStr (s : string)
| PyList (l : list pyval)
| PyDict (d : list (string * pyval)).

(** Exceptions that escape the functions below. *)
Inductive py_exn : Type :=
| AttributeError
| TypeError
| ValueError.

Inductive result (A : Type) : Type :=
| Ok (a : A)
| Raise (e : py_exn).
Arguments Ok {A} a.
Arguments Raise {A} e.

#[global] Instance result_ret : MRet result := @Ok.
#[global] Instance result_bind : MBind result :=
  fun A B (k : A -> result B) (r : result A) =>
    match r with
    | Ok a => k a
    | Raise e => Raise e
    end.

(** [bool(v)] *)
Definition truthy (v : pyval) : bool :=
  match v with
  | PyNone => false
  | PyBool b => b
  | PyInt n => negb (n =? 0)%Z
  | PyStr s => negb (String.eqb s "")
  | PyList l => match l with [] => false | _ => true end
  | PyDict d => match d with [] => false | _ => true end
  end.

(** [a or b] *)
Definition py_or (a b : pyval) : pyval := if truthy a then a else b.

(** [d.get(k, default)] *)
Fixpoint dict_get_default (d : list (string * pyval)) (k : string)
  (default : pyval) : pyval :=
  match d with
  | [] => default
  | (k', v) :: r => if String.eqb k' k then v else dict_get_default r k default
  end.

(** [d.get(k)] *)
Definition dict_get (d : list (string * pyval)) (k : string) : pyval :=
  dict_get_default d k PyNone.

(** [k in d] *)
Definition dict_has (d : list (string * pyval)) (k : string) : bool :=
  existsb (fun kv => String.eqb (fst kv) k) d.

Definition dquote : ascii := ascii_of_nat 34.
Definition squote : ascii := ascii_of_nat 39.
Definition backslash : ascii := ascii_of_nat 92.

Definition hex2 (c : ascii) : string :=
  let n := Z.of_N (Py.code c) in
  String (Sha1.hex_digit (Z.shiftr n 4))
    (String (Sha1.hex_digit (Z.land n 15)) EmptyString).

Fixpoint repr_chars (quote : ascii) (s : string) : string :=
  match s with
  | EmptyString => EmptyString
  | String c r =>
      (if Ascii.eqb c quote || Ascii.eqb c backslash
       then String backslash (String c EmptyString)
       else if Ascii.eqb c "009"%char then String backslash "t"
       else if Ascii.eqb c "010"%char then String backslash "n"
       else if Ascii.eqb c "013"%char then String backslash "r"
       else if (Py.code c <? 32)%N || (Py.code c =? 127)%N
       then String backslash (String "x"%char (hex2 c))
       else String c EmptyString)
      ++ repr_chars quote r
  end.

(** [repr(s)] for a string: single quotes, unless the string has a single
    quote and no double quote. *)
Definition repr_str (s : string) : string :=
  let quote :=
    if Py.contains (String squote EmptyString) s
       && negb (Py.contains (String dquote EmptyString) s)
    then dquote else squote in
  String quote (repr_chars quote s ++ String quote EmptyString).

(** [sys.get_int_max_str_digits()], at its default. *)
Definition int_max_str_digits : Z := 4300.

(** The number of decimal digits of an integer. *)
Definition int_digits (n : Z) : Z :=
  Z.of_nat (String.length (Py.str_of_Z (Z.abs n))).

(** [str(n)] and [repr(n)] for an integer: the conversion raises
    [ValueError] when [n] has more digits than the limit. *)
Definition str_of_int (n : Z) : result string :=
  if (int_max_str_digits <? int_digits n)%Z then Raise ValueError
  else Ok (Py.str_of_Z n).

(** [repr(v)]; the items are converted in order, and the first failure
    is the one raised. *)
Fixpoint py_repr (v : pyval) : result string :=
  match v with
  | PyNone => Ok "None"
  | PyBool b => Ok (if b then "True" else "False")
  | PyInt n => str_of_int n
  | PyStr s => Ok (repr_str s)
  | PyList l =>
      items ← (fix reprs (l : list pyval) : result (list string) :=
                 match l with
                 | [] => Ok []
                 | x :: r => t ← py_repr x; ts ← reprs r; Ok (t :: ts)
                 end) l;
      Ok ("[" ++ Py.join ", " items ++ "]")%string
  | PyDict d =>
      items ← (fix reprs (d : list (string * pyval)) : result (list string) :=
                 match d with
                 | [] => Ok []
                 | (k, x) :: r =>
                     t ← py_repr x; ts ← reprs r;
                     Ok ((repr_str k ++ ": " ++ t)%string :: ts)
                 end) d;
      Ok ("{" ++ Py.join ", " items ++ "}")%string
  end.

(** [str(v)] *)
Definition py_str (v : pyval) : result string :=
  match v with
  | PyStr s => Ok s
  | _ => py_repr v
  end.

(** ** canonicalization.py *)

(** [hashlib.sha1(s.encode()).hexdigest()[:n]] *)
Definition sha1_prefix (n : nat) (s : string) : string :=
  Py.slice 0 n (Sha1.hexdigest s).

(** [canonicalize_event]: the symbol, or the exception of [str()] on the
    declared type. *)
Definition canonicalize_event (event : pyval) : result string :=
  match event with
  | PyDict ev =>
      let event_type :=
        py_or (py_or (dict_get ev "type") (dict_get ev "operation"))
              (dict_get ev "verb") in
      raw ← match event_type with
            | PyNone => Ok "other"
            | _ => text ← py_str event_type; Ok (Py.lower text)
            end;
      let parts := Py.split_delims raw in
      match parts with
      | [] => Ok "EV_OTHER"
      | p0 :: _ =>
          let head := Py.strip p0 in
          if String.eqb head "" then Ok "EV_OTHER"
          else Ok ("EV_" ++ sha1_prefix 6 head)%string
      end
  | _ => Ok "EV_OTHER"
  end.

Definition prompt_event_types : list string :=
  ["prompt"; "prompt_sent"; "conversation"; "ai_prompt"].

Definition in_strings (s : string) (l : list string) : bool :=
  existsb (String.eqb s) l.

Section Collaborators.

(** [json.loads] on a string; [None] stands for [JSONDecodeError], the
    failure the two handlers catch (a decoder that gives up for another
    reason, on a number beyond the digit limit or on nesting beyond the
    recursion limit, is not part of the model). *)
Variable json_loads : string -> option pyval.

(** [intent.intent_tokens_for_prompt(prompt, include_llm)], the intent
    classifier (keyword tables and an optional remote model). *)
Variable intent_tokens_for_prompt : string -> bool -> list string.

(** [v.get(k)] on a value that need not be a dictionary *)
Definition attr_get (v : pyval) (k : string) : result pyval :=
  match v with
  | PyDict d => Ok (dict_get d k)
  | _ => Raise AttributeError
  end.

Definition extract_prompt_from_event (event : pyval) : result (option string) :=
  match event with
  | PyDict ev =>
      let event_type_raw := dict_get ev "type" in
      event_type ← match event_type_raw with
                   | PyNone => Ok ""
                   | _ => text ← py_str event_type_raw; Ok (Py.lower text)
                   end;
      if in_strings event_type prompt_event_types then
        let text :=
          py_or (py_or (py_or (dict_get ev "text") (dict_get ev "content"))
                       (dict_get ev "prompt"))
                (dict_get ev "message") in
        if truthy text then prompt ← py_str text; Ok (Some prompt)
        else
          let details := dict_get_default ev "details" (PyDict []) in
          match details with
          | PyDict dd =>
              let text :=
                py_or (py_or (py_or (dict_get dd "text") (dict_get dd "content"))
                             (dict_get dd "prompt"))
                      (dict_get dd "message") in
              if truthy text then prompt ← py_str text; Ok (Some prompt)
              else Ok None
          | PyStr ds =>
              match json_loads ds with
              | Some details_dict =>
                  t1 ← attr_get details_dict "text";
                  t2 ← (if truthy t1 then Ok t1
                         else attr_get details_dict "content");
                  t3 ← (if truthy t2 then Ok t2
                         else attr_get details_dict "prompt");
                  if truthy t3 then prompt ← py_str t3; Ok (Some prompt)
                  else Ok None
              | None => Ok None
              end
          | _ => Ok None
          end
      else Ok None
  | _ => Ok None
  end.

(** The intent markers one event contributes ahead of its own symbol. *)
Definition event_intents (include_prompts include_llm_intents : bool)
  (event : pyval) : result (list string) :=
  if include_prompts then
    prompt_text ← extract_prompt_from_event event;
    match prompt_text with
    | Some txt =>
        if negb (String.eqb txt "")
        then Ok (intent_tokens_for_prompt txt include_llm_intents)
        else Ok []
    | None => Ok []
    end
  else Ok [].

(** The loop over [events]; [sequence] is the list built so far. *)
Fixpoint events_loop (include_prompts include_llm_intents : bool)
  (events : list pyval) (sequence : list string) : result (list string) :=
  match events with
  | [] => Ok sequence
  | event :: rest =>
      match event with
      | PyDict _ =>
          intents ← event_intents include_prompts include_llm_intents event;
          canonical ← canonicalize_event event;
          events_loop include_prompts include_llm_intents rest
            ((sequence ++ intents) ++ [canonical])
      | _ => events_loop include_prompts include_llm_intents rest sequence
      end
  end.

(** The loop over the separate [prompts] entries. *)
Fixpoint prompts_loop (include_llm_intents : bool) (prompts : list pyval)
  (sequence : list string) : result (list string) :=
  match prompts with
  | [] => Ok sequence
  | prompt_data :: rest =>
      match prompt_data with
      | PyDict pd =>
          let prompt_text :=
            py_or (py_or (dict_get pd "text") (dict_get pd "content"))
                  (dict_get pd "prompt") in
          if truthy prompt_text
          then
            text ← py_str prompt_text;
            prompts_loop include_llm_intents rest
              (sequence ++ intent_tokens_for_prompt text include_llm_intents)
          else prompts_loop include_llm_intents rest sequence
      | _ => prompts_loop include_llm_intents rest sequence
      end
  end.

(** What [for x in v] iterates over: the elements of a list, the keys of
    a dictionary, the characters of a string; other values are not
    iterable. *)
Definition py_iter (v : pyval) : result (list pyval) :=
  match v with
  | PyList l => Ok l
  | PyDict d => Ok (List.map (fun kv => PyStr (fst kv)) d)
  | PyStr s =>
      Ok (List.map (fun c => PyStr (String c EmptyString))
            (list_ascii_of_string s))
  | _ => Raise TypeError
  end.

Definition event_sequence (trace : pyval)
  (include_prompts include_llm_intents : bool) : result (list string) :=
  match trace with
  | PyDict tr =>
      match dict_get_default tr "events" (PyList []) with
      | PyList events =>
          sequence ← events_loop include_prompts include_llm_intents events [];
          if include_prompts && dict_has tr "prompts" then
            prompts ← py_iter (dict_get_default tr "prompts" (PyList []));
            prompts_loop include_llm_intents prompts sequence
          else Ok sequence
      | _ => Ok []
      end
  | _ => Ok []
  end.

End Collaborators.

(** ** motif_mining.py: the registry *)

Module MotifRegistry.

(** The two class attributes shared by every caller. *)
Record state : Type := State {
  _registry : gmap string string;      (* hash -> original pattern *)
  _descriptions : gmap string string   (* motif -> description *)
}.

Definition empty : state := State ∅ ∅.

Definition register (st : state) (original hashed : string) : state :=
  State (<[hashed := original]> (_registry st)) (_descriptions st).

Definition get_original (st : state) (hashed : string) : option string :=
  _registry st !! hashed.

Definition _describe_original_pattern (pattern : string) : string :=
  if Py.startswith pattern "T_" then
    let parts := Py.split_char "_" (Py.drop 2 pattern) in
    if (4 <=? List.length parts)%nat then "Sequential Edit Transition"
    else "Edit Transition"
  else if Py.startswith pattern "PS_" then
    let parts := Py.split_char "_" (Py.drop 3 pattern) in
    let n_events := List.length (List.filter (String.eqb "EV") parts) in
    if (3 <=? n_events)%nat
    then "Frequent " ++ Py.str_of_Z (Z.of_nat n_events) ++ "-Step Sequence"
    else "Frequent Edit Sequence"
  else if Py.startswith pattern "SQ_" then "Compressed Edit Pattern"
  else if Py.startswith pattern "CYCLE_" then "Iterative Edit Cycle"
  else if Py.startswith pattern "HOT_" then
    match Py.trailing_count pattern with
    | Some count => "Edit Hotspot (" ++ count ++ "x)"
    | None => "Edit Hotspot"
    end
  else if String.eqb pattern "HIGH_SWITCHING" then "High Edit Diversity"
  else if Py.contains "INTENT_" pattern then
    let intent :=
      List.hd "" (Py.split_char "_"
                    (List.last (Py.split "INTENT_" pattern) "")) in
    Py.title intent ++ " Intent Signal"
  else if Py.startswith pattern "EV_" then "Edit Event"
  else "Workflow Pattern".

Definition pattern_types : list string :=
  ["Edit Sequence"; "Code Change Flow"; "Multi-File Update";
   "Refactor Pattern"; "Navigation Sequence"; "Development Flow";
   "Modification Chain"; "Workflow Step"].

Definition _describe_pattern_by_type (motif : string) : string :=
  if Py.startswith motif "M_" then
    let hash_val := Py.slice 2 6 motif in
    let idx :=
      match Py.int16 hash_val with
      | Some v => (v mod 8)%Z
      | None => 0%Z
      end in
    List.nth (Z.to_nat idx) pattern_types "" ++ " #" ++ Py.slice 2 6 motif
  else if Py.startswith motif "T_" then "Edit Transition"
  else if Py.startswith motif "PS_" then "Frequent Sequence"
  else if Py.startswith motif "SQ_" then "Compression Rule"
  else if Py.startswith motif "CYCLE_" then "Edit Cycle"
  else if Py.startswith motif "HOT" || Py.startswith motif "HOTSPOT" then
    match Py.first_digits motif with
    | Some count => "Edit Hotspot (" ++ count ++ "x)"
    | None => "Edit Hotspot"
    end
  else if Py.startswith motif "INTENT_TYPE_" then
    Py.title (Py.replace "_" " " (Py.replace "INTENT_TYPE_" "" motif))
      ++ " Intent"
  else if Py.startswith motif "INTENT_TRANS" then "Intent Transition"
  else if Py.startswith motif "INTENT_" then
    Py.title (Py.replace "_" " " (Py.replace "INTENT_" "" motif)) ++ " Signal"
  else if Py.startswith motif "DEPENDENCY" then "Dependency Traversal"
  else if Py.contains "SWITCHING" (Py.upper motif) then "High Edit Diversity"
  else if Py.startswith motif "NG_" then "N-gram Pattern"
  else if (String.length motif <=? 20)%nat then motif
  else Py.slice 0 17 motif ++ "...".

Definition _generate_description (st : state) (motif : string) : string :=
  match _registry st !! motif with
  | Some original =>
      if Py.startswith motif "M_" then _describe_original_pattern original
      else _describe_pattern_by_type motif
  | None => _describe_pattern_by_type motif
  end.

(** [describe] returns the description and the registry it leaves behind. *)
Definition describe (st : state) (motif : string) : string * state :=
  match _descriptions st !! motif with
  | Some desc => (desc, st)
  | None =>
      let desc := _generate_description st motif in
      (desc, State (_registry st) (<[motif := desc]> (_descriptions st)))
  end.

Definition _categorize (st : state) (motif : string) : string :=
  let original := default motif (_registry st !! motif) in
  if existsb (Py.startswith motif) ["T_"; "PS_"; "TRANS_"; "NG_"]
  then "Sequential Pattern"
  else if Py.startswith motif "M_" then
    if negb (String.eqb original motif) then
      if Py.startswith original "T_" then "Sequential Pattern"
      else if Py.startswith original "PS_" then "Frequent Sequence"
      else if Py.startswith original "SQ_" then "Compression Pattern"
      else if Py.startswith original "CYCLE_" then "Iterative Pattern"
      else if Py.startswith original "HOT_" then "Hotspot Pattern"
      else "Mined Pattern"
    else "Mined Pattern"
  else if Py.startswith motif "CYCLE_" || Py.contains "CYCLE" motif
  then "Iterative Pattern"
  else if Py.startswith motif "HOT" || Py.startswith motif "HOTSPOT"
  then "Hotspot Pattern"
  else if Py.contains "SWITCHING" (Py.upper motif) then "Diversity Pattern"
  else if Py.startswith motif "INTENT_" then "Intent Signal"
  else if Py.startswith motif "DEPENDENCY" then "Dependency Pattern"
  else if Py.startswith motif "SQ_" then "Compression Pattern"
  else "Other Pattern".

Definition get_category (st : state) (motif : string) : string :=
  _categorize st motif.

Definition clear (st : state) : state := empty.

End MotifRegistry.

(** ** motif_mining.py: the miners *)

(** [seq[i]] for an index in range *)
Definition item (seq : list string) (i : nat) : string := List.nth i seq "".

(** [range(n)] for an integer [n] *)
Definition py_range (n : Z) : list nat := List.seq 0 (Z.to_nat n).

Definition len {A : Type} (l : list A) : Z := Z.of_nat (List.length l).

(** A [Counter]: keys in insertion order with their counts. *)
Section Counter.
Context {K : Type} `{EqDecision K}.

(** [counts[k] += 1] *)
Fixpoint counter_incr (k : K) (counts : list (K * Z)) : list (K * Z) :=
  match counts with
  | [] => [(k, 1%Z)]
  | (k', n) :: r =>
      if decide (k' = k) then (k', (n + 1)%Z) :: r
      else (k', n) :: counter_incr k r
  end.

(** [Counter(l)] *)
Definition counter_of (l : list K) : list (K * Z) :=
  List.fold_left (fun counts k => counter_incr k counts) l [].

End Counter.

Definition transition_motifs (seq : list string) (max_count : Z) : list string :=
  if (len seq <? 2)%Z then []
  else
    let motifs :=
      List.map (fun ab => "T_" ++ fst ab ++ "_" ++ snd ab)%string
        (List.combine seq (List.tl seq)) in
    Py.slice_to max_count motifs.

Definition default_max_count : Z := 100.

Definition cycle_motifs (seq : list string) : list string :=
  List.flat_map
    (fun i =>
       if bool_decide (item seq i = item seq (i + 2))
          && negb (bool_decide (item seq i = item seq (i + 1)))
       then ["CYCLE_" ++ item seq i ++ "_" ++ item seq (i + 1)]%string
       else [])
    (py_range (len seq - 2)).

Definition hotspot_motifs (seq : list string) : list string :=
  List.flat_map
    (fun sk : string * Z =>
       if (5 <=? snd sk)%Z
       then ["HOT_" ++ fst sk ++ "_" ++ Py.str_of_Z (snd sk)]%string
       else [])
    (counter_of seq).

(** [len(set(seq)) / len(seq) > 0.7] in binary64 arithmetic: the quotient
    of two lengths is the correctly rounded quotient of their conversions,
    and [0.7] is the double nearest to 7/10. *)
Definition float_of_len (n : Z) : PrimFloat.float :=
  PrimFloat.of_uint63 (Uint63.of_Z n).

Definition high_switching (seq : list string) : bool :=
  let distinct := Z.of_nat (size (list_to_set seq : gset string)) in
  let diversity_ratio :=
    PrimFloat.div (float_of_len distinct) (float_of_len (len seq)) in
  PrimFloat.ltb 0.7%float diversity_ratio.

Definition structural_motifs (seq : list string) : list string :=
  if (len seq <? 2)%Z then []
  else
    cycle_motifs seq ++ hotspot_motifs seq
      ++ (if (0 <? len seq)%Z && high_switching seq
          then ["HIGH_SWITCHING"] else []).

(** One row of the projected database: each distinct item is counted once. *)
Fixpoint count_row (s : list string) (visited : gset string)
  (counts : list (string * Z)) : list (string * Z) :=
  match s with
  | [] => counts
  | x :: r =>
      if decide (x ∈ visited) then count_row r visited counts
      else count_row r ({[x]} ∪ visited) (counter_incr x counts)
  end.

Definition count_items (projected_db : list (list string)) : list (string * Z) :=
  List.fold_left (fun counts s => count_row s ∅ counts) projected_db [].

(** [s[s.index(item)+1:]]; [None] stands for the [ValueError] of [index]. *)
Fixpoint after_first (x : string) (s : list string) : option (list string) :=
  match s with
  | [] => None
  | y :: r => if decide (y = x) then Some r else after_first x r
  end.

Definition project_db (x : string) (projected_db : list (list string))
  : list (list string) :=
  omap (after_first x) projected_db.

Definition pattern : Type := list string.

Section PrefixSpan.
Variables (min_support max_len : Z).

(** The loop of [project] over [counts.items()]; [rec] is the recursive
    call and [patterns] the list shared by all calls. *)
Fixpoint extend_loop
  (rec : pattern -> list (list string) -> list pattern -> option (list pattern))
  (prefix : pattern) (projected_db : list (list string))
  (items : list (string * Z)) (patterns : list pattern)
  : option (list pattern) :=
  match items with
  | [] => Some patterns
  | (x, count) :: rest =>
      if (min_support <=? count)%Z then
        let new_prefix := prefix ++ [x] in
        let patterns1 := patterns ++ [new_prefix] in
        let new_db := project_db x projected_db in
        patterns2 ←
          (if (len new_prefix <? max_len)%Z
           then rec new_prefix new_db patterns1
           else Some patterns1);
        extend_loop rec prefix projected_db rest patterns2
      else extend_loop rec prefix projected_db rest patterns
  end.

(** The inner function [project].  The recursion depth is bounded by
    [max_len]; [fuel] makes that bound explicit, and [None] is returned
    only if it is exhausted.  [prefixspan] below hands over the
    [max_len + 1] calls the recursion can need: the interpreter's own
    recursion limit (1000 frames by default, a [RecursionError] beyond)
    is not part of the model, and the properties of recursions that go
    deeper than one call are stated for depths up to [shallow_depth]. *)
Fixpoint project (fuel : nat) (prefix : pattern)
  (projected_db : list (list string)) (patterns : list pattern)
  : option (list pattern) :=
  match fuel with
  | O => None
  | S fuel' =>
      if (max_len <=? len prefix)%Z then Some patterns
      else
        extend_loop (project fuel') prefix projected_db
          (count_items projected_db) patterns
  end.

Definition prefixspan (seq : list string) : option (list pattern) :=
  project (S (Z.to_nat max_len)) [] [seq] [].

Definition prefixspan_motifs (seq : list string) : option (list string) :=
  if (len seq <? 2)%Z then Some []
  else
    patterns ← prefixspan seq;
    Some (List.map (fun p => "PS_" ++ Py.join "_" p)%string
            (List.filter (fun p => (2 <=? len p)%Z) patterns)).

End PrefixSpan.

Definition bigram_counts (seq : list string) : list (string * string * Z) :=
  List.fold_left
    (fun counts i => counter_incr (item seq i, item seq (i + 1)) counts)
    (py_range (len seq - 1)) [].

Definition trigram_counts (seq : list string)
  : list (string * string * string * Z) :=
  List.fold_left
    (fun counts i =>
       counter_incr (item seq i, item seq (i + 1), item seq (i + 2)) counts)
    (py_range (len seq - 2)) [].

Definition fmt_bigram (g : string * string) : string :=
  "SQ_" ++ fst g ++ "_" ++ snd g.

Definition fmt_trigram (g : string * string * string) : string :=
  "SQ_" ++ fst (fst g) ++ "_" ++ snd (fst g) ++ "_" ++ snd g.

Definition sequitur_rules (seq : list string) : list string :=
  if (len seq <? 2)%Z then []
  else
    let motifs :=
      List.flat_map
        (fun gc : string * string * Z =>
           if (2 <=? snd gc)%Z then [fmt_bigram (fst gc)] else [])
        (bigram_counts seq) in
    if (3 <=? len seq)%Z then
      motifs ++
      List.flat_map
        (fun gc : string * string * string * Z =>
           if (2 <=? snd gc)%Z then [fmt_trigram (fst gc)] else [])
        (trigram_counts seq)
    else motifs.

(** The state of the loop of [unify_motifs]. *)
Record unify_state : Type := UnifyState {
  hashed : list string;
  seen_hashes : gset string;
  registry : MotifRegistry.state
}.

Definition unify_step (register : bool) (us : unify_state) (m : string)
  : unify_state :=
  let h := sha1_prefix 10 m in
  let hashed_motif := ("M_" ++ h)%string in
  if decide (h ∈ seen_hashes us) then us
  else
    UnifyState (hashed us ++ [hashed_motif]) ({[h]} ∪ seen_hashes us)
      (if register
       then MotifRegistry.register (registry us) m hashed_motif
       else registry us).

(** [unify_motifs] on the given motif lists: the returned list and the
    registry after the call. *)
Definition unify_motifs (st : MotifRegistry.state)
  (motif_lists : list (list string)) (max_total : Z) (register : bool)
  : list string * MotifRegistry.state :=
  let motifs := List.concat motif_lists in
  let us := List.fold_left (unify_step register) motifs (UnifyState [] ∅ st) in
  (Py.slice_to max_total (hashed us), registry us).

Definition motifs_from_sequence (st : MotifRegistry.state)
  (seq : list string) (max_total : Z)
  : option (list string * MotifRegistry.state) :=
  if match seq with [] => true | _ => false end || (len seq <? 2)%Z
  then Some ([], st)
  else
    ps ← prefixspan_motifs 2 4 seq;
    Some (unify_motifs st
            [transition_motifs seq default_max_count;
             structural_motifs seq;
             ps;
             sequitur_rules seq]
            max_total true).

(** ** Definitions used to state the properties *)

(** The keys of a list in order of first occurrence. *)
Fixpoint first_occurrences {A : Type} `{EqDecision A} (l : list A) : list A :=
  match l with
  | [] => []
  | x :: r => x :: List.filter (fun y => negb (bool_decide (y = x)))
                     (first_occurrences r)
  end.

(** How often [k] occurs in [l]. *)
Definition occurrences {A : Type} `{EqDecision A} (k : A) (l : list A) : Z :=
  len (List.filter (fun y => bool_decide (y = k)) l).

(** The distinct elements that occur at least twice, in order of first
    occurrence. *)
Definition repeated {A : Type} `{EqDecision A} (l : list A) : list A :=
  List.filter (fun k => (2 <=? occurrences k l)%Z) (first_occurrences l).

(** The adjacent pairs and triples of a sequence, in order. *)
Definition bigrams (seq : list string) : list (string * string) :=
  List.combine seq (List.tl seq).

Definition trigrams (seq : list string) : list (string * string * string) :=
  List.combine (List.combine seq (List.tl seq)) (List.tl (List.tl seq)).

(** The hashed form of a raw motif. *)
Definition hashed_form (raw : string) : string := "M_" ++ sha1_prefix 10 raw.

(** Two transition motifs over canonical symbols whose SHA-1 digests share
    their first ten hexadecimal digits. *)
Definition colliding_a : string := "T_EV_03c13c_EV_d1f67c".
Definition colliding_b : string := "T_EV_1973cd_EV_5ff5bd".

(** The hashes the loop of [unify_motifs] accepts from [hs] when it starts
    with the set [seen]. *)
Fixpoint fresh_hashes (seen : gset string) (hs : list string) : list string :=
  match hs with
  | [] => []
  | h :: r =>
      if decide (h ∈ seen) then fresh_hashes seen r
      else h :: fresh_hashes ({[h]} ∪ seen) r
  end.

(** Three hundred distinct raw motifs, two of which collide. *)
Definition three_hundred_motifs : list string :=
  colliding_a :: colliding_b
    :: List.map (fun i => "T_A_" ++ Py.str_of_Z (Z.of_nat i))%string
         (List.seq 0 298).

(** The registry operations other than [clear]. *)
Inductive registry_op : Type :=
| OpRegister (original hashed : string)
| OpDescribe (motif : string)
| OpGetCategory (motif : string).

Definition run_op (st : MotifRegistry.state) (op : registry_op)
  : MotifRegistry.state :=
  match op with
  | OpRegister original hashed => MotifRegistry.register st original hashed
  | OpDescribe motif => snd (MotifRegistry.describe st motif)
  | OpGetCategory motif => st
  end.

Definition run_ops (st : MotifRegistry.state) (ops : list registry_op)
  : MotifRegistry.state :=
  List.fold_left run_op ops st.

Definition is_record (v : pyval) : bool :=
  match v with
  | PyDict _ => true
  | _ => false
  end.

(** [s.isascii()] *)
Definition isascii (s : string) : bool :=
  List.forallb (fun c => (Py.code c <? 128)%N) (list_ascii_of_string s).

(** The declared type of a record:
    [event.get("type") or event.get("operation") or event.get("verb")]. *)
Definition declared_type (ev : list (string * pyval)) : pyval :=
  py_or (py_or (dict_get ev "type") (dict_get ev "operation"))
        (dict_get ev "verb").

(** The values [str()] converts without raising and, for text, as the
    model has it: [None], booleans, ASCII strings and integers within the
    digit limit. *)
Definition plain_value (v : pyval) : bool :=
  match v with
  | PyNone | PyBool _ => true
  | PyInt n => (int_digits n <=? int_max_str_digits)%Z
  | PyStr s => isascii s
  | PyList _ | PyDict _ => false
  end.

(** An integer of 4301 digits, given by its digits: 1 and 4300 zeros. *)
Definition long_int : Z :=
  Z.of_int
    (Decimal.Pos (Decimal.D1 (Nat.iter 4300 Decimal.D0 Decimal.Nil))).

(** The trace of the end-to-end scenario. *)
Definition file_trace : pyval :=
  PyDict
    [("events",
      PyList [PyDict [("type", PyStr "file.create")];
              PyDict [("type", PyStr "file.modify")];
              PyDict [("type", PyStr "file.create")]])].

(** ** Definitions used to state the further properties *)




(** The descriptions and categories of the motifs the four miners emit. *)
Definition mined_descriptions : list string :=
  ["Sequential Edit Transition"; "Edit Transition"; "Iterative Edit Cycle";
   "High Edit Diversity"; "Compressed Edit Pattern"].

Definition mined_categories : list string :=
  ["Sequential Pattern"; "Iterative Pattern"; "Hotspot Pattern";
   "Compression Pattern"; "Mined Pattern"].

(** Strings of lower-case hexadecimal digits. *)
Definition is_hex_lower (c : ascii) : bool :=
  Py.is_digit c || Py.in_range 97 102 c.

Fixpoint all_chars (p : ascii -> bool) (s : string) : bool :=
  match s with
  | EmptyString => true
  | String c r => p c && all_chars p r
  end.

Definition hex_string (n : nat) (s : string) : Prop :=
  String.length s = n /\ all_chars is_hex_lower s = true.

(** ** motif_mining.py: the remaining extractors *)

(** [MotifRegistry.stats()]: the two counts of the returned dictionary. *)
Definition registry_stats (st : MotifRegistry.state) : nat * nat :=
  (size (MotifRegistry._registry st), size (MotifRegistry._descriptions st)).

(** [l[a:b]] for any integers [a] and [b]. *)
Definition slice_index (n : Z) (x : Z) : Z :=
  if (x <? 0)%Z then Z.max (x + n) 0 else Z.min x n.

Definition slice_list {A : Type} (a b : Z) (l : list A) : list A :=
  let start := slice_index (len l) a in
  let stop := slice_index (len l) b in
  List.firstn (Z.to_nat (stop - start)) (List.skipn (Z.to_nat start) l).

(** [len(set(sequence)) > len(sequence) * 0.7]: the product is a binary64
    number, and an integer below 2^48 is compared with it as a binary64
    number. *)
Definition rapid_switch (sequence : list string) : bool :=
  let distinct := Z.of_nat (size (list_to_set sequence : gset string)) in
  PrimFloat.ltb (PrimFloat.mul (float_of_len (len sequence)) 0.7%float)
    (float_of_len distinct).

Definition ngram_motifs (sequence : list string) (ngram_sizes : list Z)
  : list string :=
  List.flat_map
    (fun n =>
       if (n <=? len sequence)%Z then
         List.map
           (fun i => "NG_" ++ Py.join "_" (slice_list (Z.of_nat i) (Z.of_nat i + n) sequence))%string
           (py_range (len sequence - n + 1))
       else [])
    ngram_sizes.

Definition legacy_transition_motifs (sequence : list string) : list string :=
  List.map
    (fun i => "TRANS_" ++ item sequence i ++ "_" ++ item sequence (i + 1))%string
    (py_range (len sequence - 1)).

Definition legacy_structural_motifs (sequence : list string) : list string :=
  List.flat_map
    (fun ic : string * Z =>
       if (5 <=? snd ic)%Z
       then ["HOTSPOT_" ++ fst ic ++ "_" ++ Py.str_of_Z (snd ic)]%string
       else [])
    (counter_of sequence)
  ++ List.flat_map
       (fun i =>
          if bool_decide (item sequence i = item sequence (i + 2))
             && negb (bool_decide (item sequence i = item sequence (i + 1)))
          then ["CYCLE_" ++ item sequence i ++ "_" ++ item sequence (i + 1)]%string
          else [])
       (py_range (len sequence - 2))
  ++ (if rapid_switch sequence then ["RAPID_SWITCH"] else []).

Definition default_max_total : Z := 300.

(** [extract_universal_motifs]; the statistical branch goes through
    [motifs_from_sequence] and so through the registry. *)
Definition extract_universal_motifs (st : MotifRegistry.state)
  (sequence : list string)
  (include_transitions include_ngrams include_structural : bool)
  (ngram_sizes : list Z) (use_statistical_mining : bool)
  : option (list string * MotifRegistry.state) :=
  if match sequence with [] => true | _ => false end || (len sequence <? 2)%Z
  then Some ([], st)
  else
    '(motifs0, st1) ←
      (if use_statistical_mining
       then motifs_from_sequence st sequence default_max_total
       else Some ([], st));
    let motifs1 :=
      if include_ngrams && negb use_statistical_mining
      then motifs0 ++ ngram_motifs sequence ngram_sizes else motifs0 in
    let motifs2 :=
      if include_transitions && negb use_statistical_mining
      then motifs1 ++ legacy_transition_motifs sequence else motifs1 in
    let motifs3 :=
      if include_structural && negb use_statistical_mining
      then motifs2 ++ legacy_structural_motifs sequence else motifs2 in
    Some (first_occurrences (motifs3 ++ sequence), st1).

(** [extract_intent_motifs] *)
Definition intent_indices (sequence : list string) : list nat :=
  List.filter (fun i => Py.startswith (item sequence i) "INTENT_")
    (List.seq 0 (List.length sequence)).

Definition intent_anchored (sequence : list string) (intent_idx : nat)
  : list string :=
  let intent := item sequence intent_idx in
  (if (Z.of_nat intent_idx + 1 <? len sequence)%Z
   then [intent ++ "_TO_" ++ item sequence (intent_idx + 1)]%string else [])
  ++ (if (Z.of_nat intent_idx + 2 <? len sequence)%Z
      then ["INTENT_PATTERN_"
              ++ (intent ++ "_" ++ item sequence (intent_idx + 1) ++ "_"
                         ++ item sequence (intent_idx + 2))]%string
      else [])
  ++ ["INTENT_TYPE_" ++ Py.replace "INTENT_" "" intent]%string.

Definition extract_intent_motifs (sequence : list string) : list string :=
  match sequence with
  | [] => []
  | _ =>
      let indices := intent_indices sequence in
      match indices with
      | [] => []
      | _ =>
          List.flat_map (intent_anchored sequence) indices
          ++ List.map
               (fun i =>
                  "INTENT_TRANS_"
                    ++ item sequence (List.nth i indices 0%nat) ++ "_"
                    ++ item sequence (List.nth (i + 1) indices 0%nat))%string
               (py_range (len indices - 1))
      end
  end.

(** [extract_structural_motifs]: file paths are dictionary keys, so they
    are strings or integers ([True] is the key [1]). *)
Inductive pykey : Type :=
| KNone
| KStr (s : string)
| KInt (n : Z).

#[global] Instance pykey_eq_dec : EqDecision pykey.
Proof. solve_decision. Defined.

(** The key of a value; [None] for the unhashable lists and dictionaries. *)
Definition to_key (v : pyval) : option pykey :=
  match v with
  | PyStr s => Some (KStr s)
  | PyInt n => Some (KInt n)
  | PyBool b => Some (KInt (if b then 1 else 0))
  | PyNone => Some KNone
  | PyList _ | PyDict _ => None
  end.

(** [len(v)] *)
Definition py_len (v : pyval) : result Z :=
  match v with
  | PyList l => Ok (len l)
  | PyDict d => Ok (len d)
  | PyStr s => Ok (Z.of_nat (String.length s))
  | _ => Raise TypeError
  end.

(** [v.get(k, default)] on a value that need not be a dictionary *)
Definition attr_get_default (v : pyval) (k : string) (default : pyval)
  : result pyval :=
  match v with
  | PyDict d => Ok (dict_get_default d k default)
  | _ => Raise AttributeError
  end.

Record switch_state : Type := SwitchState {
  current_file : option pykey;
  file_switches : list (pykey * pykey);
  edits_per_file : list (pykey * Z)
}.

Section StructuralExtractor.
Variable json_loads : string -> option pyval.

(** One turn of the loop over the events. *)
Definition switch_step (ss : switch_state) (event : pyval) : result switch_state :=
  details0 ← attr_get_default event "details" (PyDict []);
  let details :=
    match details0 with
    | PyStr ds => default (PyDict []) (json_loads ds)
    | _ => details0
    end in
  fp1 ← attr_get details "file_path";
  file_path ← (if truthy fp1 then Ok fp1 else attr_get details "file");
  if truthy file_path then
    match to_key file_path with
    | None => Raise TypeError
    | Some key =>
        let switches :=
          match current_file ss with
          | Some cur =>
              if negb (bool_decide (key = cur))
              then file_switches ss ++ [(cur, key)] else file_switches ss
          | None => file_switches ss
          end in
        Ok (SwitchState (Some key) switches (counter_incr key (edits_per_file ss)))
    end
  else Ok ss.

Fixpoint switch_loop (events : list pyval) (ss : switch_state)
  : result switch_state :=
  match events with
  | [] => Ok ss
  | event :: rest => ss' ← switch_step ss event; switch_loop rest ss'
  end.

Definition iterative_refine (switches : list (pykey * pykey)) : bool :=
  existsb
    (fun i =>
       bool_decide (snd (List.nth i switches (KNone, KNone))
                    = snd (List.nth (i + 1) switches (KNone, KNone))))
    (py_range (len switches - 1)).

Definition extract_structural_motifs (trace : pyval) : result (list string) :=
  events ← attr_get_default trace "events" (PyList []);
  n ← py_len events;
  if (n <? 2)%Z then Ok []
  else
    evs ← py_iter events;
    ss ← switch_loop evs (SwitchState None [] []);
    let hotspot :=
      match edits_per_file ss with
      | [] => []
      | (_, c) :: r =>
          let max_edits := List.fold_left Z.max (List.map snd r) c in
          if (5 <? max_edits)%Z then ["HOTSPOT_" ++ Py.str_of_Z max_edits]%string
          else []
      end in
    let chase :=
      if (3 <? len (file_switches ss))%Z then ["DEPENDENCY_CHASE"] else [] in
    let refine :=
      if (2 <=? len (file_switches ss))%Z && iterative_refine (file_switches ss)
      then ["ITERATIVE_REFINE"] else [] in
    Ok (hotspot ++ chase ++ refine).

End StructuralExtractor.

(** The switches recorded so far lead from file to file up to the
    current one, and no switch stays on its file. *)
Inductive switch_chain : list (pykey * pykey) -> option pykey -> Prop :=
| chain_nil (cur : option pykey) : switch_chain [] cur
| chain_snoc (sw : list (pykey * pykey)) (a b : pykey) :
    switch_chain sw (Some a) -> a <> b -> switch_chain (sw ++ [(a, b)]) (Some b).

(** ** encoders/motifs.py *)

(** [s[:n]] on a string, for any integer [n] *)
Definition str_slice_to (n : Z) (s : string) : string :=
  string_of_list_ascii (Py.slice_to n (list_ascii_of_string s)).

Section MotifsRepr.

(** [core.canonicalization.event_sequence(trace, include_prompts,
    include_llm_intents)], the sequence builder of the package's core
    module, a parameter of the development. *)
Variable core_event_sequence : pyval -> bool -> bool -> result (list string).

Variable json_loads : string -> option pyval.

(** [motifs_repr]: what the call returns or raises, and the registry it
    leaves behind. *)
Definition motifs_repr (st : MotifRegistry.state) (trace : pyval)
  (use_statistical_mining include_prompts include_llm_intents : bool)
  : option (result (list string) * MotifRegistry.state) :=
  if negb (truthy trace) then Some (Ok [], st)
  else
    match attr_get trace "events" with
    | Raise e => Some (Raise e, st)
    | Ok events =>
        if negb (truthy events) then Some (Ok [], st)
        else
          match core_event_sequence trace include_prompts include_llm_intents with
          | Raise e => Some (Raise e, st)
          | Ok [] => Some (Ok [], st)
          | Ok canonical_seq =>
              '(motifs, st1) ←
                (if use_statistical_mining
                 then motifs_from_sequence st canonical_seq 300
                 else extract_universal_motifs st canonical_seq true true true
                        [3; 4]%Z false);
              match extract_structural_motifs json_loads trace with
              | Raise e => Some (Raise e, st1)
              | Ok structural =>
                  let motifs1 := motifs ++ structural in
                  let motifs2 :=
                    if include_prompts
                    then motifs1 ++ extract_intent_motifs canonical_seq
                    else motifs1 in
                  Some (Ok (first_occurrences motifs2), st1)
              end
          end
    end.

Definition motifs_repr_str (st : MotifRegistry.state) (trace : pyval)
  (limit max_length : Z) : option (result string * MotifRegistry.state) :=
  '(r, st1) ← motifs_repr st trace true true false;
  match r with
  | Raise e => Some (Raise e, st1)
  | Ok [] => Some (Ok "EMPTY_WORKFLOW", st1)
  | Ok motifs =>
      let unique_motifs := Py.slice_to limit (first_occurrences motifs) in
      let motif_str := Py.join " | " unique_motifs in
      Some (Ok (if (max_length <? Z.of_nat (String.length motif_str))%Z
                then str_slice_to max_length motif_str ++ "... [truncated]"
                else motif_str)%string,
            st1)
  end.

End MotifsRepr.

(** The sixteen characters of a lower-case hexadecimal digest. *)
Definition hex_chars : list ascii :=
  list_ascii_of_string "0123456789abcdef".

(** * Properties *)

Example sha1_empty :
  Sha1.hexdigest "" = "da39a3ee5e6b4b0d3255bfef95601890afd80709".
Proof. vm_compute. reflexivity. Qed.

Example sha1_abc :
  Sha1.hexdigest "abc" = "a9993e364706816aba3e25717850c26c9cd0d89d".
Proof. vm_compute. reflexivity. Qed.

Example sha1_two_blocks :
  Sha1.hexdigest
    "aaaaaaaaaaaaaaaaaaaaaaaaaaaaaaaaaaaaaaaaaaaaaaaaaaaaaaaaaaaaaaaa"
  = "0098ba824b5c16427bd7a1122a5a442a25ec644d".
Proof. vm_compute. reflexivity. Qed.

Example sha1_55 :
  Sha1.hexdigest
    "aaaaaaaaaaaaaaaaaaaaaaaaaaaaaaaaaaaaaaaaaaaaaaaaaaaaaaa"
  = "c1c8bbdc22796e28c0e15163d20899b65621d65a".
Proof. vm_compute. reflexivity. Qed.

Example sha1_56 :
  Sha1.hexdigest
    "aaaaaaaaaaaaaaaaaaaaaaaaaaaaaaaaaaaaaaaaaaaaaaaaaaaaaaaa"
  = "c2db330f6083854c99d4b5bfb6e8f29f201be699".
Proof. vm_compute. reflexivity. Qed.

Example sha1_other : sha1_prefix 6 "other" = "d0941e".
Proof. vm_compute. reflexivity. Qed.

Example sha1_collision :
  colliding_a <> colliding_b
  /\ sha1_prefix 10 colliding_a = "e9f1b27030"
  /\ sha1_prefix 10 colliding_b = "e9f1b27030".
Proof. vm_compute. repeat split; congruence. Qed.

Example int16_literals :
  List.map Py.int16 ["ca85"; "0x_1"; "1_2"; " +1"; "-0x1"; "1__2"; "0x"; "g"]
  = [Some 51845%Z; Some 1%Z; Some 18%Z; Some 1%Z; Some (-1)%Z; None; None; None].
Proof. vm_compute. reflexivity. Qed.

Example split_delims_examples :
  Py.split_delims "" = [""]
  /\ Py.split_delims ".foo" = [""; "foo"]
  /\ Py.split_delims "a..b-" = ["a"; "b"; ""]
  /\ Py.split_delims "file.create" = ["file"; "create"].
Proof. vm_compute. repeat split. Qed.

Example structural_examples :
  structural_motifs ["A"; "B"; "A"] = ["CYCLE_A_B"]
  /\ structural_motifs ["A"; "A"; "A"; "A"; "A"; "B"; "B"] = ["HOT_A_5"]
  /\ structural_motifs ["A"; "B"; "C"] = ["HIGH_SWITCHING"].
Proof. vm_compute. repeat split. Qed.

Example py_str_examples :
  py_str (PyList [PyStr "a"; PyInt 1; PyNone; PyDict [("k", PyBool true)]])
  = Ok "['a', 1, None, {'k': True}]"
  /\ py_str (PyStr "File.Create") = Ok "File.Create"
  /\ py_str (PyInt (-5)) = Ok "-5".
Proof. vm_compute. repeat split. Qed.

Example canonicalize_examples :
  canonicalize_event (PyDict [("type", PyStr "File.Create")]) = Ok "EV_971c41"
  /\ canonicalize_event (PyDict [("type", PyStr ""); ("verb", PyStr "edit-x")])
     = Ok "EV_9ead47"
  /\ canonicalize_event (PyDict [("type", PyStr ".hidden")]) = Ok "EV_OTHER"
  /\ canonicalize_event (PyDict [("verb", PyInt 0)]) = Ok "EV_b6589f"
  /\ canonicalize_event (PyDict [("type", PyBool true)]) = Ok "EV_5ffe53".
Proof. vm_compute. repeat split. Qed.

(** A prompt event contributes its intent markers ahead of its symbol,
    the separate prompts come last, and a details string that decodes to
    a list makes the lookup fail. *)
Example event_sequence_examples :
  let intents := fun (txt : string) (_ : bool) => ["INTENT_" ++ Py.upper txt]%string in
  let loads := fun s : string =>
                 if String.eqb s "[]" then Some (PyList []) else None in
  event_sequence loads intents
    (PyDict
       [("events",
         PyList [PyDict [("type", PyStr "prompt"); ("text", PyStr "fix")];
                 PyNone;
                 PyDict [("type", PyStr "edit")]]);
        ("prompts", PyList [PyDict [("content", PyStr "doc")]; PyStr "x"])])
    true false
  = Ok ["INTENT_FIX"; "EV_9c7e05"; "EV_9ead47"; "INTENT_DOC"]
  /\ event_sequence loads intents
       (PyDict
          [("events",
            PyList [PyDict [("type", PyStr "prompt"); ("text", PyStr "fix")]])])
       false false
     = Ok ["EV_9c7e05"]
  /\ event_sequence loads intents
       (PyDict
          [("events",
            PyList [PyDict [("type", PyStr "prompt"); ("details", PyStr "[]")]])])
       true false
     = Raise AttributeError
  /\ event_sequence loads intents (PyDict [("events", PyStr "abc")]) true false
     = Ok [].
Proof. vm_compute. repeat split. Qed.

Example describe_examples :
  MotifRegistry._describe_pattern_by_type "M_-1ab" = "Development Flow #-1ab"
  /\ MotifRegistry._describe_pattern_by_type "M_zzzz" = "Edit Sequence #zzzz"
  /\ MotifRegistry._describe_pattern_by_type "HOTSPOT_12_a3" = "Edit Hotspot (12x)"
  /\ MotifRegistry._describe_pattern_by_type "INTENT_DEBUG" = "Debug Signal"
  /\ MotifRegistry._describe_pattern_by_type "INTENT_TYPE_BUG_FIX" = "Bug Fix Intent"
  /\ MotifRegistry._describe_pattern_by_type "SOME_VERY_LONG_UNKNOWN_MOTIF_NAME"
     = "SOME_VERY_LONG_UN..."
  /\ MotifRegistry._describe_original_pattern "PS_EV_a_EV_b_EV_c"
     = "Frequent 3-Step Sequence"
  /\ MotifRegistry._describe_original_pattern "T_EV_a_EV_b"
     = "Sequential Edit Transition"
  /\ MotifRegistry._describe_original_pattern "HOT_EV_1_12" = "Edit Hotspot (12x)"
  /\ MotifRegistry._describe_original_pattern "xINTENT_debug_y"
     = "Debug Intent Signal".
Proof. vm_compute. repeat split. Qed.

Example miner_examples :
  transition_motifs ["A"; "B"; "C"] default_max_count = ["T_A_B"; "T_B_C"]
  /\ prefixspan 1 4 ["A"; "B"] = Some [["A"]; ["A"; "B"]; ["B"]]
  /\ prefixspan_motifs 1 4 ["A"; "B"] = Some ["PS_A_B"]
  /\ prefixspan 1 0 ["A"; "B"] = Some []
  /\ sequitur_rules ["X"; "X"; "X"; "X"] = ["SQ_X_X"; "SQ_X_X_X"].
Proof. vm_compute. repeat split. Qed.

(** *** C1 *)

(** C1: on S = [A,B,A,B,C] with min_support=2 and max_len=4 the code
    returns the empty list, so "PS_A_B" is not in the output: the single
    row of the projected database gives every symbol support 1. *)
Theorem prefixspan_motifs_ABABC_empty :
  prefixspan_motifs 2 4 ["A"; "B"; "A"; "B"; "C"] = Some []
  /\ count_items [["A"; "B"; "A"; "B"; "C"]] = [("A", 1%Z); ("B", 1%Z); ("C", 1%Z)].
Proof. vm_compute. split; reflexivity. Qed.

(** *** C2 *)

Lemma counter_incr_fresh {K : Type} `{EqDecision K} (k : K) (counts : list (K * Z)) :
  ~ In k (List.map fst counts) -> counter_incr k counts = counts ++ [(k, 1%Z)].
Proof.
  induction counts as [|[k' n] r IH]; simpl; intros Hk; [reflexivity|].
  destruct (decide (k' = k)) as [->|Hne].
  - exfalso. apply Hk. now left.
  - f_equal. apply IH. intros Hin. apply Hk. now right.
Qed.

(** Within one row every symbol is counted once: starting from counts
    whose keys have all been visited, a row only appends entries with
    count 1. *)
Lemma count_row_ones (s : list string) :
  forall (visited : gset string) (counts : list (string * Z)),
    (forall k, In k (List.map fst counts) -> k ∈ visited) ->
    List.Forall (fun kc => snd kc = 1%Z) counts ->
    List.Forall (fun kc => snd kc = 1%Z) (count_row s visited counts).
Proof.
  induction s as [|x r IH]; simpl; intros visited counts Hkeys Hones; [assumption|].
  destruct (decide (x ∈ visited)) as [Hin|Hnin].
  - now apply IH.
  - rewrite counter_incr_fresh by (intros Hk; apply Hnin, Hkeys, Hk).
    apply IH.
    + intros k Hk. rewrite List.map_app, List.in_app_iff in Hk.
      destruct Hk as [Hk|[<-|[]]]; set_solver.
    + apply List.Forall_app. split; [assumption|]. now constructor.
Qed.

Lemma count_items_single_row (seq : list string) :
  List.Forall (fun kc => snd kc = 1%Z) (count_items [seq]).
Proof.
  unfold count_items. simpl. apply count_row_ones; [intros k []|constructor].
Qed.

Section PrefixSpanFacts.
Variables (min_support max_len : Z).

(** Items below the support threshold leave the pattern list untouched. *)
Lemma extend_loop_infrequent rec prefix projected_db items patterns :
  List.Forall (fun kc : string * Z => (snd kc < min_support)%Z) items ->
  extend_loop min_support max_len rec prefix projected_db items patterns
  = Some patterns.
Proof.
  induction 1 as [|[x count] rest Hlt _ IH]; simpl; [reflexivity|].
  simpl in Hlt.
  destruct (Z.leb_spec min_support count); [lia|]. exact IH.
Qed.




End PrefixSpanFacts.

(** C2: for every sequence and every min_support >= 2, prefixspan returns
    the empty pattern list (the projected database starts as the single
    row [seq], where every symbol has support 1), so prefixspan_motifs
    emits no motif and motifs_from_sequence, which calls it with
    min_support=2 and max_len=4, unifies an empty "PS_" list. *)
Theorem prefixspan_single_row_empty :
  forall (seq : list string) (min_support max_len : Z),
    (2 <= min_support)%Z ->
    prefixspan min_support max_len seq = Some []
    /\ prefixspan_motifs min_support max_len seq = Some []
    /\ (forall st max_total,
          (2 <= len seq)%Z ->
          motifs_from_sequence st seq max_total
          = Some (unify_motifs st
                    [transition_motifs seq default_max_count;
                     structural_motifs seq; []; sequitur_rules seq]
                    max_total true)).
Proof.
  intros seq min_support max_len Hms.
  assert (Hps : forall ms ml, (2 <= ms)%Z -> prefixspan ms ml seq = Some []).
  { intros ms ml Hle. unfold prefixspan. simpl.
    destruct (ml <=? len [])%Z; [reflexivity|].
    apply extend_loop_infrequent.
    eapply List.Forall_impl; [|apply count_items_single_row].
    intros kc Hkc. simpl in Hkc. lia. }
  assert (Hpm : forall ms ml, (2 <= ms)%Z -> prefixspan_motifs ms ml seq = Some []).
  { intros ms ml Hle. unfold prefixspan_motifs.
    destruct (len seq <? 2)%Z; [reflexivity|]. now rewrite Hps. }
  split; [now apply Hps|]. split; [now apply Hpm|].
  intros st max_total Hlen. unfold motifs_from_sequence.
  destruct (Z.ltb_spec (len seq) 2); [lia|].
  destruct seq; [unfold len in Hlen; simpl in Hlen; lia|].
  simpl orb. cbv iota. now rewrite Hpm.
Qed.

Lemma prefixspan_single_row_empty_witness :
  prefixspan 2 4 ["A"; "B"; "A"; "B"] = Some []
  /\ prefixspan_motifs 2 4 ["A"; "B"; "A"; "B"] = Some []
  /\ motifs_from_sequence MotifRegistry.empty ["A"; "B"; "A"; "B"] 300
     = Some (unify_motifs MotifRegistry.empty
               [transition_motifs ["A"; "B"; "A"; "B"] default_max_count;
                structural_motifs ["A"; "B"; "A"; "B"]; [];
                sequitur_rules ["A"; "B"; "A"; "B"]]
               300 true).
Proof.
  destruct (prefixspan_single_row_empty ["A"; "B"; "A"; "B"] 2 4) as (H1 & H2 & H3).
  - lia.
  - split; [assumption|]. split; [assumption|]. apply H3. vm_compute. discriminate.
Defined.

(** *** C8 *)

Lemma length_bigrams (seq : list string) :
  List.length (bigrams seq) = (List.length seq - 1)%nat.
Proof.
  unfold bigrams. rewrite List.length_combine.
  destruct seq; cbn [List.length List.tl]; lia.
Qed.

Lemma nth_error_bigrams (seq : list string) :
  forall i, (S i < List.length seq)%nat ->
            List.nth_error (bigrams seq) i = Some (item seq i, item seq (S i)).
Proof.
  unfold bigrams.
  induction seq as [|a r IH]; intros i Hi; simpl in Hi; [lia|].
  destruct r as [|b r']; simpl in Hi; [lia|].
  destruct i as [|j]; [reflexivity|].
  change (List.nth_error (List.combine (b :: r') (List.tl (b :: r'))) j
          = Some (item (b :: r') j, item (b :: r') (S j))).
  apply IH. simpl. lia.
Qed.

Lemma slice_to_nonneg {A : Type} (n : Z) (l : list A) :
  (0 <= n)%Z -> Py.slice_to n l = List.firstn (Z.to_nat n) l.
Proof.
  intros Hn. unfold Py.slice_to. destruct (Z.leb_spec 0 n); [reflexivity|lia].
Qed.

(** C8, as the code has it: for a cap max_count >= 0, a sequence of
    length n >= 2 gives exactly min(n-1, max_count) motifs, the i-th being
    "T_<S[i]>_<S[i+1]>"; a sequence shorter than 2 gives the empty list. *)
Theorem transition_motifs_spec :
  forall (seq : list string) (max_count : Z),
    (0 <= max_count)%Z ->
    ((len seq < 2)%Z -> transition_motifs seq max_count = [])
    /\ ((2 <= len seq)%Z ->
        len (transition_motifs seq max_count) = Z.min (len seq - 1) max_count
        /\ forall i : nat,
            (Z.of_nat i < Z.min (len seq - 1) max_count)%Z ->
            List.nth_error (transition_motifs seq max_count) i
            = Some ("T_" ++ item seq i ++ "_" ++ item seq (i + 1))%string).
Proof.
  intros seq max_count Hcap. unfold transition_motifs. split.
  - intros Hshort. destruct (Z.ltb_spec (len seq) 2); [reflexivity|lia].
  - intros Hlong. destruct (Z.ltb_spec (len seq) 2); [lia|].
    rewrite slice_to_nonneg by assumption.
    fold (bigrams seq). unfold len in *. split.
    + rewrite List.length_firstn, List.length_map, length_bigrams. lia.
    + intros i Hi.
      rewrite List.nth_error_firstn.
      destruct (Nat.ltb_spec i (Z.to_nat max_count)); [|lia].
      rewrite List.nth_error_map, nth_error_bigrams by lia.
      simpl. now rewrite Nat.add_1_r.
Qed.

Lemma transition_motifs_spec_witness :
  transition_motifs ["A"] 1 = []
  /\ len (transition_motifs ["A"; "B"; "C"] 1) = Z.min (len ["A"; "B"; "C"] - 1) 1
  /\ List.nth_error (transition_motifs ["A"; "B"; "C"] 1) 0 = Some "T_A_B".
Proof.
  split.
  - apply (transition_motifs_spec ["A"] 1); [lia|]. vm_compute. reflexivity.
  - destruct (transition_motifs_spec ["A"; "B"; "C"] 1) as [_ H]; [lia|].
    destruct H as [Hlen Hnth]; [vm_compute; discriminate|].
    split; [exact Hlen|]. apply (Hnth 0%nat). vm_compute. reflexivity.
Defined.

(** C8 fails for a negative cap: the slice [motifs[:-1]] drops the last
    motif instead of bounding the count by min(n-1, max_count). *)
Lemma transition_motifs_negative_cap :
  transition_motifs ["A"; "B"; "C"] (-1) = ["T_A_B"]
  /\ len (transition_motifs ["A"; "B"; "C"] (-1))
     <> Z.min (len ["A"; "B"; "C"] - 1) (-1).
Proof. vm_compute. split; [reflexivity|discriminate]. Qed.

(** *** C9 *)

(** C9: from a cleared registry, unifying ["T_A_B"] with register=True
    returns one hash h; get_original(h) is "T_A_B", and describe(h) goes
    through the registered raw motif and returns the transition phrase
    "Edit Transition". *)
Theorem registry_round_trip :
  forall st : MotifRegistry.state,
  exists (h : string) (st' : MotifRegistry.state),
    unify_motifs (MotifRegistry.clear st) [["T_A_B"]] 300 true = ([h], st')
    /\ h = hashed_form "T_A_B"
    /\ MotifRegistry.get_original st' h = Some "T_A_B"
    /\ MotifRegistry._generate_description st' h
       = MotifRegistry._describe_original_pattern "T_A_B"
    /\ fst (MotifRegistry.describe st' h) = "Edit Transition".
Proof.
  intros st.
  exists (hashed_form "T_A_B"),
    (MotifRegistry.register MotifRegistry.empty "T_A_B" (hashed_form "T_A_B")).
  repeat split; vm_compute; reflexivity.
Qed.

(** *** C5 *)

Lemma find_ext_in {A : Type} (f g : A -> bool) (l : list A) :
  (forall x, In x l -> f x = g x) -> List.find f l = List.find g l.
Proof.
  induction l as [|x r IH]; simpl; intros Hfg; [reflexivity|].
  rewrite <- (Hfg x) by now left.
  destruct (f x); [reflexivity|]. apply IH. intros y Hy. apply Hfg. now right.
Qed.

Lemma find_none_iff {A : Type} (f : A -> bool) (l : list A) :
  (forall x, In x l -> f x = false) -> List.find f l = None.
Proof.
  induction l as [|x r IH]; simpl; intros Hf; [reflexivity|].
  rewrite (Hf x) by now left. apply IH. intros y Hy. apply Hf. now right.
Qed.

Lemma hashed_form_inj (a b : string) :
  hashed_form a = hashed_form b -> sha1_prefix 10 a = sha1_prefix 10 b.
Proof. unfold hashed_form. simpl. intros H. now inversion H. Qed.

Lemma unify_step_seen (register : bool) (us : unify_state) (m : string) :
  sha1_prefix 10 m ∈ seen_hashes us -> unify_step register us m = us.
Proof. intros H. unfold unify_step. now destruct (decide _). Qed.

Lemma unify_step_new (register : bool) (us : unify_state) (m : string) :
  sha1_prefix 10 m ∉ seen_hashes us ->
  unify_step register us m
  = UnifyState (hashed us ++ [hashed_form m])
      ({[sha1_prefix 10 m]} ∪ seen_hashes us)
      (if register
       then MotifRegistry.register (registry us) m (hashed_form m)
       else registry us).
Proof. intros H. unfold unify_step. now destruct (decide _). Qed.

(** What the loop of [unify_motifs] leaves under a key of the registry:
    the first motif of this call that hashes to the key and whose hash
    had not been seen, when there is one. *)
Lemma unify_fold_registry (key : string) (ms : list string) :
  forall us : unify_state,
    MotifRegistry._registry (registry (List.fold_left (unify_step true) ms us))
      !! key
    = match List.find
              (fun m => bool_decide (hashed_form m = key)
                        && bool_decide (sha1_prefix 10 m ∉ seen_hashes us)) ms
      with
      | Some m => Some m
      | None => MotifRegistry._registry (registry us) !! key
      end.
Proof.
  induction ms as [|m r IH]; intros us; [reflexivity|].
  cbn [List.fold_left List.find]. rewrite IH.
  destruct (decide (sha1_prefix 10 m ∈ seen_hashes us)) as [Hseen|Hnew].
  - rewrite unify_step_seen by assumption.
    rewrite (bool_decide_eq_false_2 (sha1_prefix 10 m ∉ seen_hashes us)) by tauto.
    rewrite andb_false_r. reflexivity.
  - rewrite unify_step_new by assumption.
    rewrite (bool_decide_eq_true_2 (sha1_prefix 10 m ∉ seen_hashes us)) by assumption.
    rewrite andb_true_r. cbn [seen_hashes registry MotifRegistry.register
                                MotifRegistry._registry].
    destruct (decide (hashed_form m = key)) as [Hkey|Hkey].
    + rewrite (bool_decide_eq_true_2 _ Hkey).
      rewrite find_none_iff.
      * rewrite Hkey. apply lookup_insert_eq.
      * intros m' _. apply andb_false_iff.
        destruct (decide (hashed_form m' = key)) as [Hk'|Hk'].
        -- right. apply bool_decide_eq_false_2.
           assert (sha1_prefix 10 m' = sha1_prefix 10 m) as ->
               by (apply hashed_form_inj; congruence).
           set_solver.
        -- left. now apply bool_decide_eq_false_2.
    + rewrite (bool_decide_eq_false_2 _ Hkey).
      rewrite lookup_insert_ne by assumption.
      erewrite find_ext_in; [reflexivity|].
      intros m' _. simpl.
      destruct (decide (hashed_form m' = key)) as [Hk'|Hk'].
      * rewrite (bool_decide_eq_true_2 _ Hk'). simpl.
        apply bool_decide_ext.
        assert (sha1_prefix 10 m' <> sha1_prefix 10 m).
        { intros Heq. apply Hkey. rewrite <- Hk'. unfold hashed_form. now rewrite Heq. }
        rewrite not_elem_of_union, not_elem_of_singleton. tauto.
      * now rewrite (bool_decide_eq_false_2 _ Hk').
Qed.

(** C5, as the code has it: [register] overwrites, so the last writer of a
    hash wins and other hashes are untouched; one [unify_motifs] call with
    register=True leaves under each hash it meets the first raw motif of
    that call with this hash, whatever an earlier call had stored. *)
Theorem register_last_writer_wins :
  (forall st raw1 raw2 h,
      MotifRegistry.get_original
        (MotifRegistry.register (MotifRegistry.register st raw1 h) raw2 h) h
      = Some raw2)
  /\ (forall st raw h h',
         MotifRegistry.get_original (MotifRegistry.register st raw h) h'
         = if decide (h = h') then Some raw else MotifRegistry.get_original st h')
  /\ (forall st motif_lists max_total key,
         MotifRegistry.get_original
           (snd (unify_motifs st motif_lists max_total true)) key
         = match List.find (fun m => bool_decide (hashed_form m = key))
                   (List.concat motif_lists) with
           | Some m => Some m
           | None => MotifRegistry.get_original st key
           end).
Proof.
  split; [|split].
  - intros st raw1 raw2 h. unfold MotifRegistry.get_original. simpl.
    apply lookup_insert_eq.
  - intros st raw h h'. unfold MotifRegistry.get_original. simpl.
    rewrite lookup_insert. reflexivity.
  - intros st motif_lists max_total key.
    unfold unify_motifs, MotifRegistry.get_original. cbn [snd].
    rewrite unify_fold_registry. cbn [seen_hashes registry].
    erewrite find_ext_in; [reflexivity|].
    intros m _. simpl.
    rewrite (bool_decide_eq_true_2 (sha1_prefix 10 m ∉ ∅)) by apply not_elem_of_empty.
    apply andb_true_r.
Qed.

(** C5 fails on the code: a second [unify_motifs] call for a distinct raw
    motif with the same ten hexadecimal digits replaces the entry of the
    first call. *)
Lemma registry_collision_overwrites :
  let h := "M_e9f1b27030" in
  let st1 := snd (unify_motifs MotifRegistry.empty [[colliding_a]] 300 true) in
  let st2 := snd (unify_motifs st1 [[colliding_b]] 300 true) in
  colliding_a <> colliding_b
  /\ fst (unify_motifs MotifRegistry.empty [[colliding_a]] 300 true) = [h]
  /\ fst (unify_motifs st1 [[colliding_b]] 300 true) = [h]
  /\ MotifRegistry.get_original st1 h = Some colliding_a
  /\ MotifRegistry.get_original st2 h = Some colliding_b
  /\ MotifRegistry.get_original st2 h <> Some colliding_a.
Proof. vm_compute. repeat split; congruence. Qed.

(** *** C6 *)

Lemma describe_cached (st : MotifRegistry.state) (m d : string) :
  MotifRegistry._descriptions st !! m = Some d ->
  MotifRegistry.describe st m = (d, st).
Proof. intros H. unfold MotifRegistry.describe. now rewrite H. Qed.

Lemma describe_fills_cache (st : MotifRegistry.state) (m : string) :
  MotifRegistry._descriptions (snd (MotifRegistry.describe st m)) !! m
  = Some (fst (MotifRegistry.describe st m)).
Proof.
  unfold MotifRegistry.describe.
  destruct (MotifRegistry._descriptions st !! m) eqn:E; simpl; [assumption|].
  apply lookup_insert_eq.
Qed.

(** No operation other than [clear] changes a cached description. *)
Lemma run_op_keeps_description (st : MotifRegistry.state) (op : registry_op)
  (m d : string) :
  MotifRegistry._descriptions st !! m = Some d ->
  MotifRegistry._descriptions (run_op st op) !! m = Some d.
Proof.
  intros Hm. destruct op as [original hashed_motif|motif|motif]; simpl;
    [assumption| |assumption].
  unfold MotifRegistry.describe.
  destruct (MotifRegistry._descriptions st !! motif) eqn:E; simpl; [assumption|].
  rewrite lookup_insert_ne; [assumption|]. intros ->. congruence.
Qed.

Lemma run_ops_keeps_description (ops : list registry_op) :
  forall (st : MotifRegistry.state) (m d : string),
    MotifRegistry._descriptions st !! m = Some d ->
    MotifRegistry._descriptions (run_ops st ops) !! m = Some d.
Proof.
  induction ops as [|op ops IH]; intros st m d Hm; [assumption|].
  unfold run_ops. simpl. apply IH. now apply run_op_keeps_description.
Qed.

(** C6, as the code has it: [describe] is memoized, so after a first call
    on m every later call returns the same description, whatever
    register, describe and get_category calls happen in between;
    [get_category] is recomputed from the registry at each call, and is
    independent of the registry only for motifs that do not start with
    "M_". *)
Theorem describe_memoized :
  (forall (st : MotifRegistry.state) (m : string) (ops : list registry_op),
      fst (MotifRegistry.describe
             (run_ops (snd (MotifRegistry.describe st m)) ops) m)
      = fst (MotifRegistry.describe st m))
  /\ (forall (st st' : MotifRegistry.state) (m : string),
         Py.startswith m "M_" = false ->
         MotifRegistry.get_category st m = MotifRegistry.get_category st' m).
Proof.
  split.
  - intros st m ops.
    erewrite describe_cached; [reflexivity|].
    apply run_ops_keeps_description, describe_fills_cache.
  - intros st st' m Hm.
    unfold MotifRegistry.get_category, MotifRegistry._categorize.
    rewrite Hm. reflexivity.
Qed.

Lemma describe_memoized_witness :
  fst (MotifRegistry.describe
         (run_ops (snd (MotifRegistry.describe MotifRegistry.empty "M_ca85322e12"))
            [OpRegister "T_A_B" "M_ca85322e12"]) "M_ca85322e12")
  = fst (MotifRegistry.describe MotifRegistry.empty "M_ca85322e12")
  /\ MotifRegistry.get_category MotifRegistry.empty "CYCLE_A_B"
     = MotifRegistry.get_category
         (MotifRegistry.register MotifRegistry.empty "T_A_B" "CYCLE_A_B")
         "CYCLE_A_B".
Proof.
  destruct describe_memoized as [Hd Hc]. split.
  - apply Hd.
  - apply Hc. vm_compute. reflexivity.
Defined.

(** C6 fails for get_category: the category of a hash is "Mined Pattern"
    before the hash is registered and "Sequential Pattern" after, while
    the description computed before the registration stays cached. *)
Lemma get_category_recomputed :
  let h := "M_ca85322e12" in
  let st1 := snd (MotifRegistry.describe MotifRegistry.empty h) in
  let st2 := MotifRegistry.register st1 "T_A_B" h in
  MotifRegistry.get_category st1 h = "Mined Pattern"
  /\ MotifRegistry.get_category st2 h = "Sequential Pattern"
  /\ MotifRegistry.get_category st2 h <> MotifRegistry.get_category st1 h
  /\ fst (MotifRegistry.describe st1 h) = "Development Flow #ca85"
  /\ fst (MotifRegistry.describe st2 h) = "Development Flow #ca85".
Proof. vm_compute. repeat split; congruence. Qed.

(** *** C7 *)

Section FirstOccurrences.
Context {A : Type} `{EqDecision A}.

Lemma filter_filter_and (f g : A -> bool) (l : list A) :
  List.filter f (List.filter g l) = List.filter (fun x => g x && f x) l.
Proof.
  induction l as [|x r IH]; simpl; [reflexivity|].
  destruct (g x); simpl; [destruct (f x)|]; now rewrite IH.
Qed.

Lemma in_first_occurrences (l : list A) (x : A) :
  In x (first_occurrences l) <-> In x l.
Proof.
  induction l as [|y r IH]; simpl; [tauto|].
  rewrite List.filter_In, IH, negb_true_iff, bool_decide_eq_false.
  destruct (decide (y = x)) as [->|Hne]; [tauto|].
  split; [tauto|]. intros [?|?]; [tauto|]. right. split; [tauto|]. congruence.
Qed.

Lemma NoDup_first_occurrences (l : list A) : List.NoDup (first_occurrences l).
Proof.
  induction l as [|x r IH]; simpl; constructor.
  - rewrite List.filter_In, negb_true_iff, bool_decide_eq_false. tauto.
  - now apply List.NoDup_filter.
Qed.

End FirstOccurrences.

Lemma filter_neq_map {A B : Type} `{EqDecision A} `{EqDecision B}
  (f : A -> B) (x : A) (t : list A) :
  (forall y, In y t -> f y = f x -> y = x) ->
  List.filter (fun z => negb (bool_decide (z = f x))) (List.map f t)
  = List.map f (List.filter (fun y => negb (bool_decide (y = x))) t).
Proof.
  induction t as [|y t IHt]; simpl; intros Hinj; [reflexivity|].
  assert (Hy : bool_decide (f y = f x) = bool_decide (y = x)).
  { apply bool_decide_ext. split; [|congruence]. apply Hinj. now left. }
  rewrite Hy, IHt by (intros z Hz; apply Hinj; now right).
  now destruct (bool_decide (y = x)).
Qed.

(** Mapping a function that is injective on the list commutes with taking
    first occurrences. *)
Lemma first_occurrences_map {A B : Type} `{EqDecision A} `{EqDecision B}
  (f : A -> B) (l : list A) :
  (forall a b, In a l -> In b l -> f a = f b -> a = b) ->
  first_occurrences (List.map f l) = List.map f (first_occurrences l).
Proof.
  induction l as [|x r IH]; simpl; intros Hinj; [reflexivity|].
  f_equal. rewrite IH by (intros a b Ha Hb; apply Hinj; now right).
  apply filter_neq_map. intros y Hy.
  apply Hinj; [right; now apply in_first_occurrences|now left].
Qed.

Lemma fresh_hashes_filter (hs : list string) :
  forall seen : gset string,
    fresh_hashes seen hs
    = List.filter (fun y => bool_decide (y ∉ seen)) (first_occurrences hs).
Proof.
  induction hs as [|h r IH]; intros seen; simpl; [reflexivity|].
  destruct (decide (h ∈ seen)) as [Hin|Hnin].
  - rewrite (bool_decide_eq_false_2 (h ∉ seen)) by tauto.
    rewrite IH, filter_filter_and. apply List.filter_ext. intros y.
    destruct (decide (y = h)) as [->|Hne].
    + rewrite (bool_decide_eq_false_2 (h ∉ seen)) by tauto.
      symmetry. apply andb_false_r.
    + now rewrite (bool_decide_eq_false_2 _ Hne).
  - rewrite (bool_decide_eq_true_2 _ Hnin). f_equal.
    rewrite IH, filter_filter_and. apply List.filter_ext. intros y.
    destruct (decide (y = h)) as [->|Hne].
    + rewrite (bool_decide_eq_true_2 (h = h)) by reflexivity. simpl.
      apply bool_decide_eq_false_2. rewrite not_elem_of_union, not_elem_of_singleton.
      tauto.
    + rewrite (bool_decide_eq_false_2 _ Hne). simpl. apply bool_decide_ext.
      rewrite not_elem_of_union, not_elem_of_singleton. tauto.
Qed.

Lemma fresh_hashes_empty (hs : list string) :
  fresh_hashes ∅ hs = first_occurrences hs.
Proof.
  rewrite fresh_hashes_filter.
  apply List.forallb_filter_id, List.forallb_forall. intros y _.
  apply bool_decide_eq_true_2, not_elem_of_empty.
Qed.

(** The list built by the loop of [unify_motifs]. *)
Lemma unify_fold_hashed (register : bool) (ms : list string) :
  forall us : unify_state,
    hashed (List.fold_left (unify_step register) ms us)
    = hashed us
      ++ List.map (String.append "M_")
           (fresh_hashes (seen_hashes us) (List.map (sha1_prefix 10) ms)).
Proof.
  induction ms as [|m r IH]; intros us; simpl.
  - now rewrite List.app_nil_r.
  - rewrite IH. destruct (decide (sha1_prefix 10 m ∈ seen_hashes us)) as [Hs|Hn].
    + now rewrite unify_step_seen.
    + rewrite unify_step_new by assumption. simpl.
      now rewrite <- List.app_assoc.
Qed.

Lemma in_prefix {A : Type} (x : A) (n : nat) (l : list A) :
  In x (List.firstn n l) -> In x l.
Proof.
  revert n. induction l as [|y r IH]; intros [|n]; simpl; try tauto.
  intros [?|?]; [now left|right; eauto].
Qed.

Lemma NoDup_prefix {A : Type} (n : nat) (l : list A) :
  List.NoDup l -> List.NoDup (List.firstn n l).
Proof.
  revert n. induction l as [|x r IH]; intros [|n] Hnd; simpl; try constructor.
  - intros Hx. apply in_prefix in Hx. now inversion Hnd.
  - apply IH. now inversion Hnd.
Qed.

Lemma unify_motifs_hashed st motif_lists max_total register :
  fst (unify_motifs st motif_lists max_total register)
  = Py.slice_to max_total
      (first_occurrences (List.map hashed_form (List.concat motif_lists))).
Proof.
  unfold unify_motifs. cbn [fst]. rewrite unify_fold_hashed. cbn [hashed seen_hashes].
  rewrite fresh_hashes_empty. simpl. f_equal.
  rewrite <- first_occurrences_map.
  - now rewrite List.map_map.
  - intros a b _ _ Hab. now inversion Hab.
Qed.

(** C7, as the code has it: for max_total >= 0 the result is the first
    max_total distinct hashed forms in order of first occurrence (raw
    motifs with the same ten hexadecimal digits count once), pairwise
    distinct, "M_"-prefixed and at most max_total; when no two raw motifs
    collide, these are the hashed forms of the distinct raw motifs, and at
    least max_total distinct raw motifs give exactly max_total outputs. *)
Theorem unify_motifs_spec :
  forall (st : MotifRegistry.state) (motif_lists : list (list string))
         (max_total : Z) (register : bool),
    (0 <= max_total)%Z ->
    let raws := List.concat motif_lists in
    let out := fst (unify_motifs st motif_lists max_total register) in
    out = List.firstn (Z.to_nat max_total)
            (first_occurrences (List.map hashed_form raws))
    /\ List.NoDup out
    /\ (len out <= max_total)%Z
    /\ List.Forall (fun h => Py.startswith h "M_" = true) out
    /\ ((forall a b, In a raws -> In b raws ->
                     sha1_prefix 10 a = sha1_prefix 10 b -> a = b) ->
        out = List.firstn (Z.to_nat max_total)
                (List.map hashed_form (first_occurrences raws))
        /\ ((max_total <= len (first_occurrences raws))%Z ->
            len out = max_total)).
Proof.
  intros st motif_lists max_total register Hmax raws out.
  assert (Hout : out = List.firstn (Z.to_nat max_total)
                         (first_occurrences (List.map hashed_form raws))).
  { unfold out. rewrite unify_motifs_hashed. now apply slice_to_nonneg. }
  split; [exact Hout|]. split; [|split; [|split]].
  - rewrite Hout. apply NoDup_prefix, NoDup_first_occurrences.
  - rewrite Hout. unfold len. rewrite List.length_firstn. lia.
  - rewrite Hout. apply List.Forall_forall. intros h Hh.
    apply in_prefix, in_first_occurrences, List.in_map_iff in Hh.
    destruct Hh as (m & <- & _). reflexivity.
  - intros Hinj.
    assert (Hmap : first_occurrences (List.map hashed_form raws)
                   = List.map hashed_form (first_occurrences raws)).
    { apply first_occurrences_map. intros a b Ha Hb Hab.
      apply Hinj; [assumption..|]. now apply hashed_form_inj. }
    rewrite Hmap in Hout. split; [exact Hout|].
    intros Hmany. rewrite Hout. unfold len in *.
    rewrite List.length_firstn, List.length_map. lia.
Qed.

Lemma unify_motifs_spec_witness :
  let motif_lists := [["T_A_B"; "T_B_C"; "T_A_B"]; ["SQ_A_B"]] in
  let out := fst (unify_motifs MotifRegistry.empty motif_lists 2 true) in
  out = List.map hashed_form ["T_A_B"; "T_B_C"]
  /\ List.NoDup out
  /\ len out = 2%Z.
Proof.
  intros motif_lists out.
  destruct (unify_motifs_spec MotifRegistry.empty motif_lists 2 true)
    as (_ & Hnd & _ & _ & Hinj).
  - lia.
  - destruct Hinj as [Hout Hlen].
    + intros a b Ha Hb.
      simpl in Ha, Hb.
      destruct Ha as [<-|[<-|[<-|[<-|[]]]]];
        destruct Hb as [<-|[<-|[<-|[<-|[]]]]];
        vm_compute; intros H; try reflexivity; discriminate H.
    + split; [exact Hout|]. split; [exact Hnd|].
      apply Hlen. vm_compute. discriminate.
Defined.

(** C7 fails when two raw motifs collide: three hundred distinct raw
    motifs, fed with max_total=300, give 299 outputs, and two distinct raw
    motifs give a single hashed form. *)
Lemma unify_motifs_collision_absorbed :
  List.NoDup three_hundred_motifs
  /\ List.length three_hundred_motifs = 300%nat
  /\ List.length (fst (unify_motifs MotifRegistry.empty [three_hundred_motifs] 300 true))
     = 299%nat
  /\ fst (unify_motifs MotifRegistry.empty [[colliding_a; colliding_b]] 300 true)
     = ["M_e9f1b27030"].
Proof.
  split; [|split; [|split]].
  - apply NoDup_ListNoDup, (bool_decide_unpack _). vm_compute. reflexivity.
  - reflexivity.
  - vm_compute. reflexivity.
  - vm_compute. reflexivity.
Qed.

(** *** C4 *)

Lemma py_str_plain (v : pyval) :
  plain_value v = true -> exists text, py_str v = Ok text.
Proof.
  destruct v as [|b|n|s|l|d]; simpl; intros H; try discriminate H; eauto.
  unfold str_of_int. apply Z.leb_le in H.
  destruct (Z.ltb_spec int_max_str_digits (int_digits n)); [lia|eauto].
Qed.

Lemma str_of_int_long (n : Z) :
  (int_max_str_digits < int_digits n)%Z -> str_of_int n = Raise ValueError.
Proof.
  intros H. unfold str_of_int.
  destruct (Z.ltb_spec int_max_str_digits (int_digits n)); [reflexivity|lia].
Qed.

Lemma long_int_digits : (int_max_str_digits < int_digits long_int)%Z.
Proof.
  unfold int_digits, long_int. rewrite Z.abs_eq.
  - unfold Py.str_of_Z. rewrite DecimalZ.to_of. vm_compute. reflexivity.
  - unfold Z.of_int, Z.of_uint. apply N2Z.is_nonneg.
Qed.

Lemma long_int_truthy : truthy (PyInt long_int) = true.
Proof.
  simpl. destruct (Z.eqb_spec long_int 0) as [Heq|]; [|reflexivity].
  pose proof long_int_digits as H. rewrite Heq in H. vm_compute in H.
  discriminate H.
Qed.

Lemma canonicalize_event_plain (d : list (string * pyval)) :
  plain_value (declared_type d) = true ->
  exists symbol, canonicalize_event (PyDict d) = Ok symbol.
Proof.
  intros Hplain. unfold canonicalize_event. fold (declared_type d).
  destruct (py_str_plain _ Hplain) as (text & Htext).
  assert (Hraw : exists raw,
             match declared_type d with
             | PyNone => Ok "other"
             | _ => text ← py_str (declared_type d); Ok (Py.lower text)
             end = Ok raw).
  { destruct (declared_type d); rewrite ?Htext; simpl; eauto. }
  destruct Hraw as (raw & ->). simpl.
  destruct (Py.split_delims raw) as [|p0 parts]; [eauto|].
  destruct (String.eqb (Py.strip p0) ""); eauto.
Qed.

Lemma canonicalize_event_long (d : list (string * pyval)) (n : Z) :
  declared_type d = PyInt n ->
  (int_max_str_digits < int_digits n)%Z ->
  canonicalize_event (PyDict d) = Raise ValueError.
Proof.
  intros Htype Hlong. unfold canonicalize_event. fold (declared_type d).
  rewrite Htype. simpl. now rewrite (str_of_int_long n Hlong).
Qed.

Lemma declared_type_long_int :
  declared_type [("type", PyInt long_int)] = PyInt long_int.
Proof.
  unfold declared_type, py_or.
  change (dict_get [("type", PyInt long_int)] "type") with (PyInt long_int).
  now rewrite !long_int_truthy.
Qed.

(** C4, as the code has it: every input that is not a record gives
    "EV_OTHER"; a record with no type, operation or verb field is given
    the default type "other" and the symbol "EV_d0941e", the hash of that
    default, which is not the sentinel; a record whose declared type is
    [None], a boolean, an ASCII string or an integer within the digit
    limit gets a symbol; and the function is not total: on a declared
    type that is an integer of more than 4300 digits [str()] raises
    [ValueError]. *)
Theorem canonicalize_event_sentinel :
  (forall v : pyval, is_record v = false -> canonicalize_event v = Ok "EV_OTHER")
  /\ (forall d : list (string * pyval),
         dict_get d "type" = PyNone ->
         dict_get d "operation" = PyNone ->
         dict_get d "verb" = PyNone ->
         canonicalize_event (PyDict d)
         = Ok ("EV_" ++ sha1_prefix 6 "other")%string
         /\ canonicalize_event (PyDict d) = Ok "EV_d0941e"
         /\ canonicalize_event (PyDict d) <> Ok "EV_OTHER")
  /\ (forall d : list (string * pyval),
         plain_value (declared_type d) = true ->
         exists symbol, canonicalize_event (PyDict d) = Ok symbol)
  /\ (forall (d : list (string * pyval)) (n : Z),
         declared_type d = PyInt n ->
         (int_max_str_digits < int_digits n)%Z ->
         canonicalize_event (PyDict d) = Raise ValueError).
Proof.
  split; [|split; [|split]].
  - intros v Hv. destruct v; try reflexivity. discriminate Hv.
  - intros d Ht Ho Hv.
    assert (H : canonicalize_event (PyDict d) = Ok "EV_d0941e").
    { unfold canonicalize_event. rewrite Ht, Ho, Hv. vm_compute. reflexivity. }
    rewrite H. split; [vm_compute; reflexivity|].
    split; [reflexivity|discriminate].
  - intros d Hplain. now apply canonicalize_event_plain.
  - intros d n Htype Hlong. now apply (canonicalize_event_long d n).
Qed.

Lemma canonicalize_event_sentinel_witness :
  canonicalize_event PyNone = Ok "EV_OTHER"
  /\ canonicalize_event (PyStr "file.create") = Ok "EV_OTHER"
  /\ canonicalize_event (PyDict [("path", PyStr "a.py")]) = Ok "EV_d0941e"
  /\ (exists symbol,
         canonicalize_event (PyDict [("type", PyStr "file.create")]) = Ok symbol)
  /\ canonicalize_event (PyDict [("type", PyInt long_int)]) = Raise ValueError.
Proof.
  destruct canonicalize_event_sentinel as (Hnon & Hmissing & Hplain & Hlong).
  split; [apply Hnon; reflexivity|].
  split; [apply Hnon; reflexivity|].
  split; [apply (Hmissing [("path", PyStr "a.py")]); reflexivity|].
  split; [apply Hplain; reflexivity|].
  apply (Hlong [("type", PyInt long_int)] long_int).
  - exact declared_type_long_int.
  - exact long_int_digits.
Defined.

(** C4 fails on the empty record: its symbol is the hash of the default
    type "other", not the sentinel. *)
Lemma canonicalize_empty_record :
  canonicalize_event (PyDict []) = Ok "EV_d0941e"
  /\ canonicalize_event (PyDict []) <> Ok "EV_OTHER".
Proof. vm_compute. split; [reflexivity|discriminate]. Qed.

(** *** C3 *)

(** Mining three equal symbols, from any registry. *)
Lemma mining_three_equal_symbols (st : MotifRegistry.state) :
  let seq := ["EV_971c41"; "EV_971c41"; "EV_971c41"] in
  let st' :=
    MotifRegistry.register
      (MotifRegistry.register st "T_EV_971c41_EV_971c41" "M_a9f0f85683")
      "SQ_EV_971c41_EV_971c41" "M_6143c12296" in
  motifs_from_sequence st seq 300 = Some (["M_a9f0f85683"; "M_6143c12296"], st')
  /\ MotifRegistry.get_original st' "M_a9f0f85683" = Some "T_EV_971c41_EV_971c41"
  /\ MotifRegistry.get_original st' "M_6143c12296" = Some "SQ_EV_971c41_EV_971c41".
Proof.
  intros seq st'. split; [|split].
  - vm_compute. reflexivity.
  - unfold st', MotifRegistry.get_original. simpl.
    rewrite lookup_insert_ne by discriminate. apply lookup_insert_eq.
  - unfold st', MotifRegistry.get_original. simpl. apply lookup_insert_eq.
Qed.

(** C3, as the code has it: the three declared types share the head
    "file", so the three symbols are equal ("EV_971c41"); the structural
    miner finds no cycle, the raw motifs mined are two equal transitions
    and one repeated bigram, and the two hashed motifs returned have the
    raw forms "T_EV_971c41_EV_971c41" and "SQ_EV_971c41_EV_971c41". *)
Theorem file_trace_end_to_end :
  forall (json_loads : string -> option pyval)
         (intent_tokens_for_prompt : string -> bool -> list string)
         (include_prompts include_llm_intents : bool)
         (st : MotifRegistry.state),
    let seq := ["EV_971c41"; "EV_971c41"; "EV_971c41"] in
    let st' :=
      MotifRegistry.register
        (MotifRegistry.register st "T_EV_971c41_EV_971c41" "M_a9f0f85683")
        "SQ_EV_971c41_EV_971c41" "M_6143c12296" in
    event_sequence json_loads intent_tokens_for_prompt file_trace
      include_prompts include_llm_intents = Ok seq
    /\ item seq 0 = item seq 2
    /\ item seq 0 = item seq 1
    /\ transition_motifs seq default_max_count
       = ["T_EV_971c41_EV_971c41"; "T_EV_971c41_EV_971c41"]
    /\ structural_motifs seq = []
    /\ prefixspan_motifs 2 4 seq = Some []
    /\ sequitur_rules seq = ["SQ_EV_971c41_EV_971c41"]
    /\ motifs_from_sequence st seq 300
       = Some (["M_a9f0f85683"; "M_6143c12296"], st')
    /\ MotifRegistry.get_original st' "M_a9f0f85683" = Some "T_EV_971c41_EV_971c41"
    /\ MotifRegistry.get_original st' "M_6143c12296" = Some "SQ_EV_971c41_EV_971c41".
Proof.
  intros json_loads intent_tokens_for_prompt include_prompts
    include_llm_intents st seq st'.
  split; [destruct include_prompts; vm_compute; reflexivity|].
  do 6 (split; [vm_compute; reflexivity|]).
  apply mining_three_equal_symbols.
Qed.

(** C3 fails on the code: for the trace of the scenario no hashed motif
    returned has a raw form that starts with "CYCLE_". *)
Lemma file_trace_no_cycle_motif :
  let seq := ["EV_971c41"; "EV_971c41"; "EV_971c41"] in
  event_sequence (fun _ => None) (fun _ _ => []) file_trace true false = Ok seq
  /\ exists out st',
      motifs_from_sequence MotifRegistry.empty seq 300 = Some (out, st')
      /\ ~ exists h raw,
            In h out
            /\ MotifRegistry.get_original st' h = Some raw
            /\ Py.startswith raw "CYCLE_" = true.
Proof.
  intros seq. split; [vm_compute; reflexivity|].
  destruct (mining_three_equal_symbols MotifRegistry.empty) as (Hm & H1 & H2).
  eexists _, _. split; [exact Hm|].
  intros (h & raw & Hin & Hraw & Hcycle).
  destruct Hin as [<-|[<-|[]]].
  - rewrite H1 in Hraw. injection Hraw as <-. discriminate Hcycle.
  - rewrite H2 in Hraw. injection Hraw as <-. discriminate Hcycle.
Qed.

(** *** C10 *)

Section CounterFacts.
Context {K : Type} `{EqDecision K}.

Lemma counter_of_snoc (l : list K) (x : K) :
  counter_of (l ++ [x]) = counter_incr x (counter_of l).
Proof. unfold counter_of. now rewrite List.fold_left_app. Qed.

Lemma occurrences_snoc (k x : K) (l : list K) :
  occurrences k (l ++ [x])
  = (occurrences k l + if decide (x = k) then 1 else 0)%Z.
Proof.
  unfold occurrences, len. rewrite List.filter_app, List.length_app. simpl.
  destruct (decide (x = k)) as [Heq|Hne].
  - rewrite (bool_decide_eq_true_2 _ Heq). simpl. lia.
  - rewrite (bool_decide_eq_false_2 _ Hne). simpl. lia.
Qed.

Lemma occurrences_notin (k : K) (l : list K) :
  ~ In k l -> occurrences k l = 0%Z.
Proof.
  intros Hk. unfold occurrences.
  replace (List.filter (fun y => bool_decide (y = k)) l) with (@nil K); [reflexivity|].
  symmetry. induction l as [|y r IH]; simpl; [reflexivity|].
  rewrite bool_decide_eq_false_2 by (intros ->; apply Hk; now left).
  apply IH. intros Hr. apply Hk. now right.
Qed.

Lemma first_occurrences_snoc (l : list K) (x : K) :
  first_occurrences (l ++ [x])
  = if List.in_dec (fun a b => decide (a = b)) x l
    then first_occurrences l else first_occurrences l ++ [x].
Proof.
  induction l as [|y r IH]; simpl.
  - reflexivity.
  - rewrite IH. destruct (decide (y = x)) as [->|Hne].
    + destruct (List.in_dec _ x r) as [Hin|Hnin]; [reflexivity|].
      rewrite List.filter_app. simpl.
      rewrite bool_decide_eq_true_2 by reflexivity. simpl.
      now rewrite List.app_nil_r.
    + destruct (List.in_dec _ x r) as [Hin|Hnin]; [reflexivity|].
      rewrite List.filter_app. simpl.
      rewrite bool_decide_eq_false_2 by congruence. reflexivity.
Qed.

(** Incrementing a key of a counter whose keys are distinct. *)
Lemma counter_incr_map (f : K -> Z) (x : K) (keys : list K) :
  List.NoDup keys ->
  counter_incr x (List.map (fun k => (k, f k)) keys)
  = if List.in_dec (fun a b => decide (a = b)) x keys
    then List.map (fun k => (k, if decide (k = x) then (f k + 1)%Z else f k)) keys
    else List.map (fun k => (k, f k)) keys ++ [(x, 1%Z)].
Proof.
  induction 1 as [|y t Hy Hnd IH]; simpl; [reflexivity|].
  destruct (decide (y = x)) as [->|Hne].
  - f_equal. apply List.map_ext_in. intros k Hk.
    destruct (decide (k = x)) as [->|]; [contradiction|reflexivity].
  - rewrite IH. destruct (List.in_dec _ x t) as [Hin|Hnin]; reflexivity.
Qed.

(** A counter lists the distinct keys in order of first occurrence, each
    with the number of its occurrences. *)
Lemma counter_of_spec (l : list K) :
  counter_of l = List.map (fun k => (k, occurrences k l)) (first_occurrences l).
Proof.
  induction l as [|x l IH] using List.rev_ind; [reflexivity|].
  rewrite counter_of_snoc, IH, counter_incr_map by apply NoDup_first_occurrences.
  rewrite first_occurrences_snoc.
  destruct (List.in_dec _ x (first_occurrences l)) as [Hin|Hnin];
    destruct (List.in_dec _ x l) as [Hin'|Hnin'].
  2: { exfalso. apply Hnin'. exact (proj1 (in_first_occurrences l x) Hin). }
  2: { exfalso. apply Hnin. exact (proj2 (in_first_occurrences l x) Hin'). }
  - apply List.map_ext. intros k. rewrite occurrences_snoc.
    destruct (decide (k = x)) as [->|Hne].
    + now rewrite decide_True.
    + rewrite decide_False by congruence. f_equal. lia.
  - rewrite List.map_app. simpl. f_equal.
    + apply List.map_ext_in. intros k Hk. rewrite occurrences_snoc.
      rewrite decide_False; [f_equal; lia|].
      intros Heq. apply Hnin'. rewrite Heq.
      exact (proj1 (in_first_occurrences l k) Hk).
    + rewrite occurrences_snoc, occurrences_notin by assumption.
      now rewrite decide_True.
Qed.

Lemma flat_map_threshold {B : Type} (fmt : K -> B) (c : K -> Z) (keys : list K) :
  List.flat_map
    (fun kc : K * Z => if (2 <=? snd kc)%Z then [fmt (fst kc)] else [])
    (List.map (fun k => (k, c k)) keys)
  = List.map fmt (List.filter (fun k => (2 <=? c k)%Z) keys).
Proof.
  induction keys as [|k r IH]; simpl; [reflexivity|].
  rewrite IH. now destruct (2 <=? c k)%Z.
Qed.

Lemma NoDup_repeated (l : list K) : List.NoDup (repeated l).
Proof. apply List.NoDup_filter, NoDup_first_occurrences. Qed.

Lemma in_repeated (l : list K) (k : K) :
  In k (repeated l) <-> (2 <= occurrences k l)%Z.
Proof.
  unfold repeated. rewrite List.filter_In, in_first_occurrences, Z.leb_le.
  split; [tauto|]. intros Hk. split; [|assumption].
  destruct (List.in_dec (fun a b => decide (a = b)) k l) as [Hin|Hnin];
    [assumption|].
  rewrite occurrences_notin in Hk by assumption. lia.
Qed.

End CounterFacts.

Lemma fold_left_map_arg {A B C : Type} (g : C -> B -> C) (f : A -> B)
  (l : list A) :
  forall acc : C,
    List.fold_left (fun c i => g c (f i)) l acc
    = List.fold_left g (List.map f l) acc.
Proof. induction l as [|x r IH]; intros acc; simpl; [reflexivity|apply IH]. Qed.

Lemma map_range_succ {B : Type} (f : nat -> B) (n : nat) :
  List.map f (List.seq 0 (S n)) = f 0%nat :: List.map (fun i => f (S i)) (List.seq 0 n).
Proof. simpl. now rewrite <- List.seq_shift, List.map_map. Qed.

Lemma py_range_len_minus (seq : list string) (k : Z) :
  (0 <= k)%Z ->
  py_range (len seq - k) = List.seq 0 (List.length seq - Z.to_nat k).
Proof. intros Hk. unfold py_range, len. f_equal. lia. Qed.

(** The index loop over [range(len(seq) - 1)] visits the adjacent pairs. *)
Lemma bigrams_range (seq : list string) :
  List.map (fun i => (item seq i, item seq (i + 1))) (py_range (len seq - 1))
  = bigrams seq.
Proof.
  rewrite (py_range_len_minus seq 1) by lia. change (Z.to_nat 1) with 1%nat.
  induction seq as [|a r IH]; [reflexivity|].
  destruct r as [|b r']; [reflexivity|].
  replace (List.length (a :: b :: r') - 1)%nat with (S (List.length (b :: r') - 1))
    by (simpl; lia).
  rewrite map_range_succ.
  change (bigrams (a :: b :: r')) with ((a, b) :: bigrams (b :: r')).
  f_equal. rewrite <- IH. apply List.map_ext. intros i. reflexivity.
Qed.

(** The index loop over [range(len(seq) - 2)] visits the adjacent triples. *)
Lemma trigrams_range (seq : list string) :
  List.map (fun i => (item seq i, item seq (i + 1), item seq (i + 2)))
    (py_range (len seq - 2))
  = trigrams seq.
Proof.
  rewrite (py_range_len_minus seq 2) by lia. change (Z.to_nat 2) with 2%nat.
  induction seq as [|a r IH]; [reflexivity|].
  destruct r as [|b [|c r']]; [reflexivity..|].
  replace (List.length (a :: b :: c :: r') - 2)%nat
    with (S (List.length (b :: c :: r') - 2)) by (simpl; lia).
  rewrite map_range_succ.
  change (trigrams (a :: b :: c :: r')) with ((a, b, c) :: trigrams (b :: c :: r')).
  f_equal. rewrite <- IH. apply List.map_ext. intros i. reflexivity.
Qed.

Lemma bigram_counts_spec (seq : list string) :
  bigram_counts seq
  = List.map (fun g => (g, occurrences g (bigrams seq)))
      (first_occurrences (bigrams seq)).
Proof.
  unfold bigram_counts.
  rewrite (fold_left_map_arg (fun c g => counter_incr g c)
             (fun i => (item seq i, item seq (i + 1)))).
  rewrite bigrams_range. apply counter_of_spec.
Qed.

Lemma trigram_counts_spec (seq : list string) :
  trigram_counts seq
  = List.map (fun g => (g, occurrences g (trigrams seq)))
      (first_occurrences (trigrams seq)).
Proof.
  unfold trigram_counts.
  rewrite (fold_left_map_arg (fun c g => counter_incr g c)
             (fun i => (item seq i, item seq (i + 1), item seq (i + 2)))).
  rewrite trigrams_range. apply counter_of_spec.
Qed.

Lemma sequitur_rules_repeated (seq : list string) :
  sequitur_rules seq
  = List.map fmt_bigram (repeated (bigrams seq))
    ++ List.map fmt_trigram (repeated (trigrams seq)).
Proof.
  unfold sequitur_rules.
  destruct (Z.ltb_spec (len seq) 2) as [Hshort|Hlong].
  - destruct seq as [|a [|b r]]; [reflexivity..|].
    unfold len in Hshort. simpl in Hshort. lia.
  - rewrite bigram_counts_spec, flat_map_threshold. fold (repeated (bigrams seq)).
    destruct (Z.leb_spec 3 (len seq)) as [H3|H2].
    + rewrite trigram_counts_spec, flat_map_threshold. reflexivity.
    + destruct seq as [|a [|b [|c r]]]; unfold len in *; simpl in *; try lia.
      now rewrite List.app_nil_r.
Qed.

Lemma append_inj_l (s a b : string) : (s ++ a = s ++ b)%string -> a = b.
Proof.
  induction s as [|c s IH]; simpl; intros H; [assumption|].
  apply IH. now inversion H.
Qed.

Lemma length_append (a b : string) :
  String.length (a ++ b) = (String.length a + String.length b)%nat.
Proof.
  induction a as [|c a IH]; [reflexivity|].
  change (S (String.length (a ++ b)) = S (String.length a + String.length b)).
  now rewrite IH.
Qed.

Lemma fmt_trigram_not_bigram (x : string) :
  fmt_trigram (x, x, x) <> fmt_bigram (x, x).
Proof.
  unfold fmt_trigram, fmt_bigram. simpl. intros H.
  inversion H as [H1]. apply append_inj_l in H1.
  apply (f_equal String.length) in H1.
  rewrite !length_append in H1. simpl in H1. lia.
Qed.

(** C10: the output lists one "SQ_<a>_<b>" for each distinct adjacent
    bigram (a, b) that occurs at least twice, followed by one
    "SQ_<a>_<b>_<c>" for each distinct adjacent trigram (a, b, c) that
    occurs at least twice (there is none when the sequence has fewer than
    three symbols); for S = [X,Y,X,Y] the motif "SQ_X_Y" occurs exactly
    once, and the sequence X, Y, Z, X, Y, Z of three distinct symbols
    gives the two bigram motifs followed by the trigram motif. *)
Theorem sequitur_rules_spec :
  (forall seq : list string,
      sequitur_rules seq
      = List.map (fun '(a, b) => "SQ_" ++ a ++ "_" ++ b)%string
          (repeated (bigrams seq))
        ++ List.map
             (fun '(a, b, c) => "SQ_" ++ a ++ "_" ++ b ++ "_" ++ c)%string
             (repeated (trigrams seq))
      /\ List.NoDup (repeated (bigrams seq))
      /\ (forall g, In g (repeated (bigrams seq))
                    <-> (2 <= occurrences g (bigrams seq))%Z)
      /\ List.NoDup (repeated (trigrams seq))
      /\ (forall g, In g (repeated (trigrams seq))
                    <-> (2 <= occurrences g (trigrams seq))%Z))
  /\ (forall X Y : string,
         occurrences ("SQ_" ++ X ++ "_" ++ Y)%string (sequitur_rules [X; Y; X; Y])
         = 1%Z)
  /\ sequitur_rules ["X"; "Y"; "Z"; "X"; "Y"; "Z"]
     = ["SQ_X_Y"; "SQ_Y_Z"; "SQ_X_Y_Z"].
Proof.
  split; [|split].
  - intros seq. split.
    { rewrite sequitur_rules_repeated. f_equal; apply List.map_ext.
      - now intros [a b].
      - now intros [[a b] c]. }
    split; [apply NoDup_repeated|]. split; [apply in_repeated|].
    split; [apply NoDup_repeated|apply in_repeated].
  - intros X Y. rewrite sequitur_rules_repeated.
    change ("SQ_" ++ X ++ "_" ++ Y)%string with (fmt_bigram (X, Y)).
    unfold repeated, occurrences, bigrams, trigrams. simpl.
    destruct (decide (X = Y)) as [->|Hne].
    + repeat (rewrite !bool_decide_eq_true_2 by reflexivity; simpl).
      rewrite (bool_decide_eq_false_2 _ (fmt_trigram_not_bigram Y)).
      reflexivity.
    + repeat (first [rewrite bool_decide_eq_true_2 by congruence
                    |rewrite bool_decide_eq_false_2 by congruence]; simpl).
      reflexivity.
  - vm_compute. reflexivity.
Qed.

(** * Further properties of the miners *)

(** ** The structural miner *)

Lemma in_py_range (n : Z) (i : nat) : In i (py_range n) <-> (Z.of_nat i < n)%Z.
Proof. unfold py_range. rewrite List.in_seq. lia. Qed.

Lemma occurrences_le_len {K : Type} `{EqDecision K} (k : K) (l : list K) :
  (occurrences k l <= len l)%Z.
Proof.
  unfold occurrences, len. apply Nat2Z.inj_le.
  induction l as [|y r IH]; simpl; [lia|]. destruct (bool_decide (y = k)); simpl; lia.
Qed.

Lemma flat_map_threshold_count {K B : Type} (t : Z) (g : K * Z -> B)
  (c : K -> Z) (keys : list K) :
  List.flat_map (fun kc : K * Z => if (t <=? snd kc)%Z then [g kc] else [])
    (List.map (fun k => (k, c k)) keys)
  = List.map (fun k => g (k, c k)) (List.filter (fun k => (t <=? c k)%Z) keys).
Proof.
  induction keys as [|k r IH]; simpl; [reflexivity|].
  rewrite IH. now destruct (t <=? c k)%Z.
Qed.

(** The hotspot loop lists the distinct symbols with five occurrences or
    more, in order of first occurrence. *)
Lemma hotspot_motifs_spec (seq : list string) :
  hotspot_motifs seq
  = List.map (fun x => "HOT_" ++ x ++ "_" ++ Py.str_of_Z (occurrences x seq))%string
      (List.filter (fun x => (5 <=? occurrences x seq)%Z) (first_occurrences seq)).
Proof.
  unfold hotspot_motifs. rewrite counter_of_spec.
  apply (flat_map_threshold_count 5
           (fun sk => ("HOT_" ++ fst sk ++ "_" ++ Py.str_of_Z (snd sk))%string)).
Qed.

Lemma filter_none {A : Type} (f : A -> bool) (l : list A) :
  (forall x, In x l -> f x = false) -> List.filter f l = [].
Proof.
  induction l as [|x r IH]; simpl; intros H; [reflexivity|].
  rewrite (H x) by now left. apply IH. intros y Hy. apply H. now right.
Qed.

Lemma filter_all {A : Type} (f : A -> bool) (l : list A) :
  (forall x, In x l -> f x = true) -> List.filter f l = l.
Proof.
  induction l as [|x r IH]; simpl; intros H; [reflexivity|].
  rewrite (H x) by now left. f_equal. apply IH. intros y Hy. apply H. now right.
Qed.

Lemma in_cycle_motifs (seq : list string) (m : string) :
  In m (cycle_motifs seq)
  <-> exists i : nat,
      (Z.of_nat i < len seq - 2)%Z
      /\ item seq i = item seq (i + 2)
      /\ item seq i <> item seq (i + 1)
      /\ m = ("CYCLE_" ++ item seq i ++ "_" ++ item seq (i + 1))%string.
Proof.
  unfold cycle_motifs. rewrite List.in_flat_map. split.
  - intros (i & Hi & Hm). exists i. apply in_py_range in Hi.
    destruct (decide (item seq i = item seq (i + 2))) as [He|He].
    + destruct (decide (item seq i = item seq (i + 1))) as [Hn|Hn].
      * rewrite (bool_decide_eq_true_2 _ Hn), andb_false_r in Hm. destruct Hm.
      * rewrite (bool_decide_eq_true_2 _ He), (bool_decide_eq_false_2 _ Hn) in Hm.
        destruct Hm as [<-|[]]. auto.
    + rewrite (bool_decide_eq_false_2 _ He) in Hm. destruct Hm.
  - intros (i & Hi & He & Hn & ->). exists i. split; [now apply in_py_range|].
    rewrite (bool_decide_eq_true_2 _ He), (bool_decide_eq_false_2 _ Hn).
    now left.
Qed.

(** X1: Every index i with S[i] = S[i+2] and S[i] <> S[i+1] contributes the
    motif "CYCLE_<S[i]>_<S[i+1]>" to the output of [structural_motifs],
    and every output that starts with "CYCLE_" comes from such an index. *)
Theorem structural_motifs_cycles :
  forall (seq : list string),
    (forall i : nat,
        (i + 2 < List.length seq)%nat ->
        item seq i = item seq (i + 2) ->
        item seq i <> item seq (i + 1) ->
        In ("CYCLE_" ++ item seq i ++ "_" ++ item seq (i + 1))%string
           (structural_motifs seq))
    /\ (forall m : string,
           In m (structural_motifs seq) ->
           Py.startswith m "CYCLE_" = true ->
           exists i : nat,
             (i + 2 < List.length seq)%nat
             /\ item seq i = item seq (i + 2)
             /\ item seq i <> item seq (i + 1)
             /\ m = ("CYCLE_" ++ item seq i ++ "_" ++ item seq (i + 1))%string).
Proof.
  intros seq. split.
  - intros i Hi He Hn. unfold structural_motifs.
    destruct (Z.ltb_spec (len seq) 2) as [Hs|_]; [unfold len in Hs; lia|].
    apply List.in_or_app. left. apply in_cycle_motifs. exists i.
    unfold len. repeat split; try assumption. lia.
  - intros m Hm Hpre. unfold structural_motifs in Hm.
    destruct (len seq <? 2)%Z; [destruct Hm|].
    apply List.in_app_or in Hm. destruct Hm as [Hm|Hm].
    + apply in_cycle_motifs in Hm. destruct Hm as (i & Hi & He & Hn & ->).
      exists i. unfold len in Hi. repeat split; try assumption. lia.
    + exfalso. apply List.in_app_or in Hm. destruct Hm as [Hm|Hm].
      * rewrite hotspot_motifs_spec in Hm. apply List.in_map_iff in Hm.
        destruct Hm as (x & <- & _). discriminate Hpre.
      * destruct ((0 <? len seq)%Z && high_switching seq); [|destruct Hm].
        destruct Hm as [<-|[]]. discriminate Hpre.
Qed.

Lemma structural_motifs_cycles_witness :
  In "CYCLE_A_B" (structural_motifs ["A"; "B"; "A"; "C"])
  /\ exists i : nat,
      (i + 2 < 3)%nat
      /\ "CYCLE_A_B"
         = ("CYCLE_" ++ item ["A"; "B"; "A"] i ++ "_" ++ item ["A"; "B"; "A"] (i + 1))%string.
Proof.
  split.
  - apply (proj1 (structural_motifs_cycles ["A"; "B"; "A"; "C"]) 0%nat);
      [simpl; lia|reflexivity|discriminate].
  - destruct (proj2 (structural_motifs_cycles ["A"; "B"; "A"]) "CYCLE_A_B")
      as (i & Hi & _ & _ & Hm).
    + vm_compute. now left.
    + reflexivity.
    + exists i. split; assumption.
Defined.

(** X2: A symbol that occurs at least five times gets the motif
    "HOT_<symbol>_<count>"; the outputs that start with "HOT_" are as many
    as the distinct symbols with at least five occurrences, so a symbol
    never gets two of them and a rarer symbol gets none. *)
Theorem structural_motifs_hotspots :
  forall (seq : list string),
    (forall x : string,
        (5 <= occurrences x seq)%Z ->
        In ("HOT_" ++ x ++ "_" ++ Py.str_of_Z (occurrences x seq))%string
           (structural_motifs seq))
    /\ List.length
         (List.filter (fun m => Py.startswith m "HOT_") (structural_motifs seq))
       = List.length
           (List.filter (fun x => (5 <=? occurrences x seq)%Z)
              (first_occurrences seq)).
Proof.
  intros seq. split.
  - intros x Hx. unfold structural_motifs.
    pose proof (occurrences_le_len x seq) as Hle.
    destruct (Z.ltb_spec (len seq) 2) as [Hs|_]; [lia|].
    apply List.in_or_app. right. apply List.in_or_app. left.
    rewrite hotspot_motifs_spec. apply List.in_map_iff. exists x.
    split; [reflexivity|]. apply List.filter_In. split.
    + apply in_first_occurrences.
      destruct (List.in_dec (fun a b => decide (a = b)) x seq) as [Hin|Hnin];
        [assumption|].
      rewrite occurrences_notin in Hx by assumption. lia.
    + now apply Z.leb_le.
  - unfold structural_motifs.
    destruct (Z.ltb_spec (len seq) 2) as [Hs|_].
    + simpl. rewrite (filter_none _ (first_occurrences seq)); [reflexivity|].
      intros x _. apply Z.leb_gt. pose proof (occurrences_le_len x seq). lia.
    + rewrite !List.filter_app, !List.length_app.
      rewrite (filter_none _ (cycle_motifs seq)).
      2:{ intros m Hm. apply in_cycle_motifs in Hm.
          destruct Hm as (i & _ & _ & _ & ->). reflexivity. }
      rewrite (filter_none _ (if _ : bool then _ else _)).
      2:{ intros m Hm. destruct ((0 <? len seq)%Z && high_switching seq);
            [|destruct Hm]. destruct Hm as [<-|[]]. reflexivity. }
      rewrite hotspot_motifs_spec, filter_all.
      * rewrite List.length_map. simpl. lia.
      * intros m Hm. apply List.in_map_iff in Hm. destruct Hm as (x & <- & _).
        reflexivity.
Qed.

Lemma structural_motifs_hotspots_witness :
  In "HOT_A_5" (structural_motifs ["A"; "A"; "B"; "A"; "A"; "A"]).
Proof.
  apply (proj1 (structural_motifs_hotspots ["A"; "A"; "B"; "A"; "A"; "A"]) "A").
  vm_compute. discriminate.
Defined.

(** ** The transition miner *)

(** X3: With a negative cap the slice counts from the end: the last
    |max_count| motifs are dropped. *)
Theorem transition_motifs_negative :
  forall (seq : list string) (max_count : Z),
    (max_count < 0)%Z ->
    (2 <= len seq)%Z ->
    transition_motifs seq max_count
    = List.firstn (Z.to_nat (len seq - 1 + max_count))
        (transition_motifs seq (len seq))
    /\ len (transition_motifs seq max_count) = Z.max 0 (len seq - 1 + max_count).
Proof.
  intros seq max_count Hneg Hlong. unfold transition_motifs.
  destruct (Z.ltb_spec (len seq) 2); [lia|].
  fold (bigrams seq).
  rewrite (slice_to_nonneg (len seq)) by lia.
  unfold Py.slice_to. destruct (Z.leb_spec 0 max_count); [lia|].
  assert (Hlen : List.length (List.map (fun ab => ("T_" ++ ab.1 ++ "_" ++ ab.2)%string)
                                (bigrams seq)) = (List.length seq - 1)%nat)
    by now rewrite List.length_map, length_bigrams.
  rewrite Hlen. unfold len in *. split.
  - rewrite (List.firstn_all2 (n := Z.to_nat (Z.of_nat (List.length seq))))
      by (rewrite Hlen; lia).
    f_equal. lia.
  - rewrite List.length_firstn, Hlen. lia.
Qed.

Lemma transition_motifs_negative_witness :
  transition_motifs ["A"; "B"; "C"; "D"] (-2) = ["T_A_B"].
Proof.
  destruct (transition_motifs_negative ["A"; "B"; "C"; "D"] (-2)) as [H _];
    [lia|vm_compute; discriminate|].
  rewrite H. vm_compute. reflexivity.
Defined.

(** ** The frequent-sequence miner *)








Section PrefixSpanSoundness.
Variables (min_support max_len : Z) (seq : list string).




End PrefixSpanSoundness.



Section PrefixSpanCompleteness.
Variables (min_support max_len : Z).






End PrefixSpanCompleteness.



(** ** The unifier *)

Lemma in_slice_to {A : Type} (n : Z) (l : list A) (x : A) :
  In x (Py.slice_to n l) -> In x l.
Proof. unfold Py.slice_to. destruct (0 <=? n)%Z; apply in_prefix. Qed.

Lemma registry_state_eq (a b : MotifRegistry.state) :
  MotifRegistry._registry a = MotifRegistry._registry b ->
  MotifRegistry._descriptions a = MotifRegistry._descriptions b ->
  a = b.
Proof. destruct a, b. simpl. congruence. Qed.

Lemma unify_fold_descriptions (register : bool) (ms : list string) :
  forall us : unify_state,
    MotifRegistry._descriptions
      (registry (List.fold_left (unify_step register) ms us))
    = MotifRegistry._descriptions (registry us).
Proof.
  induction ms as [|m r IH]; intros us; [reflexivity|].
  cbn [List.fold_left]. rewrite IH.
  destruct (decide (sha1_prefix 10 m ∈ seen_hashes us)).
  - now rewrite unify_step_seen.
  - rewrite unify_step_new by assumption. now destruct register.
Qed.

Lemma unify_fold_unregistered (ms : list string) :
  forall us : unify_state,
    registry (List.fold_left (unify_step false) ms us) = registry us.
Proof.
  induction ms as [|m r IH]; intros us; [reflexivity|].
  cbn [List.fold_left]. rewrite IH.
  destruct (decide (sha1_prefix 10 m ∈ seen_hashes us)).
  - now rewrite unify_step_seen.
  - now rewrite unify_step_new.
Qed.

(** The registry entry of a key after a registering call. *)
Lemma unify_motifs_registry st motif_lists max_total key :
  MotifRegistry.get_original (snd (unify_motifs st motif_lists max_total true)) key
  = match List.find (fun m => bool_decide (hashed_form m = key))
            (List.concat motif_lists) with
    | Some m => Some m
    | None => MotifRegistry.get_original st key
    end.
Proof.
  unfold unify_motifs, MotifRegistry.get_original. cbn [snd].
  rewrite unify_fold_registry. cbn [seen_hashes registry].
  erewrite find_ext_in; [reflexivity|].
  intros m _. simpl.
  rewrite (bool_decide_eq_true_2 (sha1_prefix 10 m ∉ ∅)) by apply not_elem_of_empty.
  apply andb_true_r.
Qed.

Lemma find_hashed_form (raws : list string) (m : string) :
  In m raws ->
  exists raw,
    List.find (fun r => bool_decide (hashed_form r = hashed_form m)) raws = Some raw
    /\ In raw raws /\ hashed_form raw = hashed_form m.
Proof.
  intros Hm.
  destruct (List.find (fun r => bool_decide (hashed_form r = hashed_form m)) raws)
    as [raw|] eqn:Hfind.
  - exists raw. apply List.find_some in Hfind. destruct Hfind as [Hin Heq].
    apply bool_decide_eq_true in Heq. auto.
  - exfalso. apply (List.find_none _ _ Hfind) in Hm.
    apply bool_decide_eq_false in Hm. now apply Hm.
Qed.

(** X6: Registration is not bounded by max_total and decodes every hash: after
    a call with register=True each input motif, returned or not, has its
    hashed form registered to an input motif with that same hashed form,
    and so has every hash of the returned list. *)
Theorem unify_motifs_decodes :
  forall (st : MotifRegistry.state) (motif_lists : list (list string))
         (max_total : Z),
    let st' := snd (unify_motifs st motif_lists max_total true) in
    (forall m, In m (List.concat motif_lists) ->
               exists raw,
                 MotifRegistry.get_original st' (hashed_form m) = Some raw
                 /\ In raw (List.concat motif_lists)
                 /\ hashed_form raw = hashed_form m)
    /\ (forall h, In h (fst (unify_motifs st motif_lists max_total true)) ->
                  exists raw,
                    MotifRegistry.get_original st' h = Some raw
                    /\ In raw (List.concat motif_lists)
                    /\ hashed_form raw = h).
Proof.
  intros st motif_lists max_total st'.
  assert (Hall : forall m, In m (List.concat motif_lists) ->
                           exists raw,
                             MotifRegistry.get_original st' (hashed_form m) = Some raw
                             /\ In raw (List.concat motif_lists)
                             /\ hashed_form raw = hashed_form m).
  { intros m Hm. unfold st'. rewrite unify_motifs_registry.
    destruct (find_hashed_form _ _ Hm) as (raw & -> & Hin & Heq). eauto. }
  split; [exact Hall|].
  intros h Hh. rewrite unify_motifs_hashed in Hh.
  apply in_slice_to, in_first_occurrences, List.in_map_iff in Hh.
  destruct Hh as (m & <- & Hm). now apply Hall.
Qed.

Lemma unify_motifs_decodes_witness :
  exists raw,
    MotifRegistry.get_original
      (snd (unify_motifs MotifRegistry.empty [["T_A_B"; "SQ_A_B"]] 1 true))
      (hashed_form "SQ_A_B") = Some raw
    /\ hashed_form raw = hashed_form "SQ_A_B".
Proof.
  destruct (proj1 (unify_motifs_decodes MotifRegistry.empty [["T_A_B"; "SQ_A_B"]] 1)
              "SQ_A_B") as (raw & Hget & _ & Heq).
  - simpl. tauto.
  - exists raw. split; assumption.
Defined.

(** X7: Unifying the same lists again returns the same hashes and leaves the
    registry as the first call left it. *)
Theorem unify_motifs_idempotent :
  forall (st : MotifRegistry.state) (motif_lists : list (list string))
         (max_total : Z),
    unify_motifs (snd (unify_motifs st motif_lists max_total true))
      motif_lists max_total true
    = unify_motifs st motif_lists max_total true.
Proof.
  intros st motif_lists max_total.
  set (st1 := snd (unify_motifs st motif_lists max_total true)).
  rewrite (surjective_pairing (unify_motifs st1 motif_lists max_total true)).
  rewrite (surjective_pairing (unify_motifs st motif_lists max_total true)).
  f_equal.
  - now rewrite !unify_motifs_hashed.
  - fold st1. apply registry_state_eq.
    + apply map_eq. intros key.
      change (MotifRegistry.get_original
                (snd (unify_motifs st1 motif_lists max_total true)) key
              = MotifRegistry.get_original st1 key).
      rewrite unify_motifs_registry. unfold st1.
      rewrite unify_motifs_registry.
      now destruct (List.find _ (List.concat motif_lists)).
    + unfold unify_motifs. cbn [snd]. rewrite unify_fold_descriptions.
      reflexivity.
Qed.

(** X8: What a call never touches: the cached descriptions, and with
    register=False the whole registry; the returned list depends neither
    on the registry nor on the register flag. *)
Theorem unify_motifs_frame :
  forall (st : MotifRegistry.state) (motif_lists : list (list string))
         (max_total : Z),
    snd (unify_motifs st motif_lists max_total false) = st
    /\ (forall register,
           MotifRegistry._descriptions
             (snd (unify_motifs st motif_lists max_total register))
           = MotifRegistry._descriptions st)
    /\ (forall st' register register',
           fst (unify_motifs st motif_lists max_total register)
           = fst (unify_motifs st' motif_lists max_total register')).
Proof.
  intros st motif_lists max_total. split; [|split].
  - unfold unify_motifs. cbn [snd]. now rewrite unify_fold_unregistered.
  - intros register. unfold unify_motifs. cbn [snd].
    now rewrite unify_fold_descriptions.
  - intros st' register register'. now rewrite !unify_motifs_hashed.
Qed.

(** ** The composition of the miners *)

Lemma prefixspan_motifs_default (seq : list string) :
  prefixspan_motifs 2 4 seq = Some [].
Proof.
  unfold prefixspan_motifs. destruct (len seq <? 2)%Z; [reflexivity|].
  assert (H : prefixspan 2 4 seq = Some []).
  { unfold prefixspan. simpl. apply extend_loop_infrequent.
    eapply List.Forall_impl; [|apply count_items_single_row].
    intros kc Hkc. simpl in Hkc. lia. }
  now rewrite H.
Qed.

Lemma motifs_from_sequence_long st (seq : list string) max_total :
  (2 <= len seq)%Z ->
  motifs_from_sequence st seq max_total
  = Some (unify_motifs st
            [transition_motifs seq default_max_count; structural_motifs seq;
             []; sequitur_rules seq] max_total true).
Proof.
  intros Hlen. unfold motifs_from_sequence.
  destruct (Z.ltb_spec (len seq) 2); [lia|].
  destruct seq; [unfold len in Hlen; simpl in Hlen; lia|].
  simpl orb. cbv iota. now rewrite prefixspan_motifs_default.
Qed.

Lemma motifs_from_sequence_short st (seq : list string) max_total :
  (len seq < 2)%Z -> motifs_from_sequence st seq max_total = Some ([], st).
Proof.
  intros Hlen. unfold motifs_from_sequence.
  destruct (Z.ltb_spec (len seq) 2); [|lia]. now rewrite orb_true_r.
Qed.

(** X9: [motifs_from_sequence] always returns; for max_total >= 0 the hashes
    are pairwise distinct, "M_"-prefixed and at most max_total; a sequence
    of fewer than two symbols gives no motif and leaves the registry
    alone; otherwise, with max_total >= 1, the first hash is that of the
    first transition. *)
Theorem motifs_from_sequence_bounded :
  forall (st : MotifRegistry.state) (seq : list string) (max_total : Z),
    (0 <= max_total)%Z ->
    exists out st',
      motifs_from_sequence st seq max_total = Some (out, st')
      /\ List.NoDup out
      /\ (len out <= max_total)%Z
      /\ List.Forall (fun h => Py.startswith h "M_" = true) out
      /\ ((len seq < 2)%Z -> out = [] /\ st' = st)
      /\ ((2 <= len seq)%Z -> (1 <= max_total)%Z ->
          List.hd_error out
          = Some (hashed_form ("T_" ++ item seq 0 ++ "_" ++ item seq 1))).
Proof.
  intros st seq max_total Hmax.
  destruct (Z.ltb_spec (len seq) 2) as [Hshort|Hlong].
  - exists [], st. rewrite motifs_from_sequence_short by assumption.
    split; [reflexivity|]. split; [constructor|].
    split; [unfold len; simpl; lia|]. split; [constructor|].
    split; [auto|]. intros Hc. exfalso. lia.
  - rewrite motifs_from_sequence_long by assumption.
    set (lists := [transition_motifs seq default_max_count;
                   structural_motifs seq; []; sequitur_rules seq]).
    exists (fst (unify_motifs st lists max_total true)),
      (snd (unify_motifs st lists max_total true)).
    split; [now rewrite <- surjective_pairing|].
    rewrite unify_motifs_hashed, slice_to_nonneg by assumption. subst lists.
    split; [apply NoDup_prefix, NoDup_first_occurrences|].
    split; [unfold len; rewrite List.length_firstn; lia|].
    split.
    { apply List.Forall_forall. intros h Hh.
      apply in_prefix, in_first_occurrences, List.in_map_iff in Hh.
      now destruct Hh as (m & <- & _). }
    split; [intros Hc; exfalso; lia|]. intros _ Hone.
    destruct seq as [|a [|b r]]; try (unfold len in Hlong; simpl in Hlong; lia).
    unfold transition_motifs.
    destruct (Z.ltb_spec (len (a :: b :: r)) 2); [lia|].
    unfold default_max_count. rewrite (slice_to_nonneg 100) by lia.
    destruct (Z.to_nat max_total) as [|n] eqn:Hn; [lia|]. reflexivity.
Qed.

Lemma motifs_from_sequence_bounded_witness :
  exists out st',
    motifs_from_sequence MotifRegistry.empty ["A"; "B"; "A"] 2 = Some (out, st')
    /\ List.NoDup out
    /\ (len out <= 2)%Z
    /\ List.hd_error out = Some (hashed_form "T_A_B").
Proof.
  destruct (motifs_from_sequence_bounded MotifRegistry.empty ["A"; "B"; "A"] 2)
    as (out & st' & Hm & Hnd & Hlen & _ & _ & Hhd); [lia|].
  exists out, st'. repeat split; try assumption.
  apply Hhd; [vm_compute; discriminate|lia].
Defined.

(** The raw motifs of the miners, by their leading tag. *)
Lemma miner_motif_shape (seq : list string) (raw : string) :
  In raw (transition_motifs seq default_max_count ++ structural_motifs seq
          ++ sequitur_rules seq) ->
  (exists t, raw = "T_" ++ t)%string
  \/ (exists t, raw = "CYCLE_" ++ t)%string
  \/ (exists t, raw = "HOT_" ++ t)%string
  \/ raw = "HIGH_SWITCHING"
  \/ (exists t, raw = "SQ_" ++ t)%string.
Proof.
  intros Hin. apply List.in_app_or in Hin. destruct Hin as [Hin|Hin].
  { left. unfold transition_motifs in Hin.
    destruct (len seq <? 2)%Z; [destruct Hin|].
    apply in_slice_to, List.in_map_iff in Hin. destruct Hin as (ab & <- & _).
    now eexists. }
  apply List.in_app_or in Hin. destruct Hin as [Hin|Hin].
  { unfold structural_motifs in Hin. destruct (len seq <? 2)%Z; [destruct Hin|].
    apply List.in_app_or in Hin. destruct Hin as [Hin|Hin].
    - right. left. apply in_cycle_motifs in Hin.
      destruct Hin as (i & _ & _ & _ & ->). now eexists.
    - apply List.in_app_or in Hin. destruct Hin as [Hin|Hin].
      + right. right. left. rewrite hotspot_motifs_spec in Hin.
        apply List.in_map_iff in Hin. destruct Hin as (x & <- & _). now eexists.
      + right. right. right. left.
        destruct ((0 <? len seq)%Z && high_switching seq); [|destruct Hin].
        now destruct Hin as [<-|[]]. }
  right. right. right. right. rewrite sequitur_rules_repeated in Hin.
  apply List.in_app_or in Hin.
  destruct Hin as [Hin|Hin]; apply List.in_map_iff in Hin;
    destruct Hin as (g & <- & _); now eexists.
Qed.

(** Every hash returned by a mining call decodes to a raw motif of one of
    the miners. *)
Lemma motifs_from_sequence_raw st (seq : list string) max_total out st' h :
  motifs_from_sequence st seq max_total = Some (out, st') ->
  In h out ->
  exists raw,
    MotifRegistry.get_original st' h = Some raw
    /\ hashed_form raw = h
    /\ In raw (transition_motifs seq default_max_count ++ structural_motifs seq
               ++ sequitur_rules seq).
Proof.
  intros Hm Hh. destruct (Z.ltb_spec (len seq) 2) as [Hshort|Hlong].
  - rewrite motifs_from_sequence_short in Hm by assumption.
    injection Hm as <- <-. destruct Hh.
  - rewrite motifs_from_sequence_long in Hm by assumption.
    assert (Hpair : unify_motifs st
                      [transition_motifs seq default_max_count;
                       structural_motifs seq; []; sequitur_rules seq]
                      max_total true = (out, st')) by congruence.
    assert (Hout : fst (unify_motifs st
                          [transition_motifs seq default_max_count;
                           structural_motifs seq; []; sequitur_rules seq]
                          max_total true) = out) by now rewrite Hpair.
    assert (Hst : snd (unify_motifs st
                         [transition_motifs seq default_max_count;
                          structural_motifs seq; []; sequitur_rules seq]
                         max_total true) = st') by now rewrite Hpair.
    clear Hm Hpair.
    assert (Hget := unify_motifs_registry st
                      [transition_motifs seq default_max_count;
                       structural_motifs seq; []; sequitur_rules seq]
                      max_total h).
    rewrite Hst in Hget. rewrite <- Hout, unify_motifs_hashed in Hh.
    apply in_slice_to, in_first_occurrences, List.in_map_iff in Hh.
    destruct Hh as (m & <- & Hm).
    destruct (find_hashed_form _ _ Hm) as (raw & Hfind & Hin & Heq).
    rewrite Hfind in Hget. exists raw. split; [assumption|]. split; [assumption|].
    simpl in Hin. now rewrite List.app_nil_r in Hin.
Qed.

Lemma describe_original_of_tag :
  (forall t, In (MotifRegistry._describe_original_pattern ("T_" ++ t))
               mined_descriptions)
  /\ (forall t, MotifRegistry._describe_original_pattern ("CYCLE_" ++ t)
                = "Iterative Edit Cycle")
  /\ (forall t, Py.startswith
                  (MotifRegistry._describe_original_pattern ("HOT_" ++ t))
                  "Edit Hotspot" = true)
  /\ MotifRegistry._describe_original_pattern "HIGH_SWITCHING"
     = "High Edit Diversity"
  /\ (forall t, MotifRegistry._describe_original_pattern ("SQ_" ++ t)
                = "Compressed Edit Pattern").
Proof.
  split; [|split; [|split; [|split]]]; try reflexivity.
  - intros t.
    change (MotifRegistry._describe_original_pattern ("T_" ++ t))
      with (if (4 <=? List.length (Py.split_char "_" t))%nat
            then "Sequential Edit Transition" else "Edit Transition").
    destruct (4 <=? _)%nat; simpl; tauto.
  - intros t.
    change (MotifRegistry._describe_original_pattern ("HOT_" ++ t))
      with (match Py.trailing_count ("HOT_" ++ t) with
            | Some count => "Edit Hotspot (" ++ count ++ "x)"
            | None => "Edit Hotspot"
            end)%string.
    now destruct (Py.trailing_count _).
Qed.

(** X10: Right after a mining call, the description generated for a returned
    hash goes through the registry: it is the description of the raw
    motif the hash decodes to, one of the five fixed phrases of the miners
    or an "Edit Hotspot" phrase, never the pseudo-label of an
    unregistered hash. *)
Theorem motifs_from_sequence_described :
  forall (st : MotifRegistry.state) (seq : list string) (max_total : Z)
         (out : list string) (st' : MotifRegistry.state) (h : string),
    motifs_from_sequence st seq max_total = Some (out, st') ->
    In h out ->
    exists raw,
      MotifRegistry.get_original st' h = Some raw
      /\ hashed_form raw = h
      /\ MotifRegistry._generate_description st' h
         = MotifRegistry._describe_original_pattern raw
      /\ (In (MotifRegistry._generate_description st' h) mined_descriptions
          \/ Py.startswith (MotifRegistry._generate_description st' h)
               "Edit Hotspot" = true).
Proof.
  intros st seq max_total out st' h Hm Hh.
  destruct (motifs_from_sequence_raw _ _ _ _ _ _ Hm Hh) as (raw & Hget & Heq & Hraw).
  exists raw. split; [assumption|]. split; [assumption|].
  assert (Hgen : MotifRegistry._generate_description st' h
                 = MotifRegistry._describe_original_pattern raw).
  { unfold MotifRegistry._generate_description.
    unfold MotifRegistry.get_original in Hget. rewrite Hget, <- Heq. reflexivity. }
  split; [exact Hgen|]. rewrite Hgen.
  destruct describe_original_of_tag as (HT & HC & HH & HS & HQ).
  destruct (miner_motif_shape _ _ Hraw)
    as [(t & ->)|[(t & ->)|[(t & ->)|[->|(t & ->)]]]].
  - left. apply HT.
  - left. rewrite HC. simpl. tauto.
  - right. apply HH.
  - left. rewrite HS. simpl. tauto.
  - left. rewrite HQ. simpl. tauto.
Qed.

Lemma motifs_from_sequence_described_witness :
  exists out st',
    motifs_from_sequence MotifRegistry.empty ["A"; "B"; "A"] 300 = Some (out, st')
    /\ MotifRegistry._generate_description st' (hashed_form "CYCLE_A_B")
       = "Iterative Edit Cycle".
Proof.
  destruct (motifs_from_sequence MotifRegistry.empty ["A"; "B"; "A"] 300)
    as [[out st']|] eqn:Hm; [|vm_compute in Hm; discriminate Hm].
  exists out, st'. split; [reflexivity|].
  destruct (motifs_from_sequence_described _ _ _ _ _ (hashed_form "CYCLE_A_B") Hm)
    as (raw & Hget & Heq & Hgen & _).
  - vm_compute in Hm. injection Hm as <- _. vm_compute. tauto.
  - rewrite Hgen. vm_compute in Hm. injection Hm as _ <-.
    vm_compute in Hget. injection Hget as <-. reflexivity.
Defined.

(** X11: The category of a returned hash follows the raw motif it decodes to:
    one of the five categories of mined motifs, never "Other Pattern". *)
Theorem motifs_from_sequence_categorized :
  forall (st : MotifRegistry.state) (seq : list string) (max_total : Z)
         (out : list string) (st' : MotifRegistry.state) (h : string),
    motifs_from_sequence st seq max_total = Some (out, st') ->
    In h out ->
    In (MotifRegistry.get_category st' h) mined_categories.
Proof.
  intros st seq max_total out st' h Hm Hh.
  destruct (motifs_from_sequence_raw _ _ _ _ _ _ Hm Hh) as (raw & Hget & <- & Hraw).
  unfold MotifRegistry.get_category, MotifRegistry._categorize.
  unfold MotifRegistry.get_original in Hget. rewrite Hget.
  destruct (miner_motif_shape _ _ Hraw)
    as [(t & ->)|[(t & ->)|[(t & ->)|[->|(t & ->)]]]];
    vm_compute; tauto.
Qed.

Lemma motifs_from_sequence_categorized_witness :
  In (MotifRegistry.get_category
        (snd (unify_motifs MotifRegistry.empty
                [transition_motifs ["A"; "B"; "A"] default_max_count;
                 structural_motifs ["A"; "B"; "A"]; [];
                 sequitur_rules ["A"; "B"; "A"]] 300 true))
        (hashed_form "T_A_B"))
     mined_categories.
Proof.
  apply (motifs_from_sequence_categorized MotifRegistry.empty ["A"; "B"; "A"] 300
           (fst (unify_motifs MotifRegistry.empty
                   [transition_motifs ["A"; "B"; "A"] default_max_count;
                    structural_motifs ["A"; "B"; "A"]; [];
                    sequitur_rules ["A"; "B"; "A"]] 300 true))).
  - vm_compute. reflexivity.
  - vm_compute. tauto.
Defined.

(** * Further properties of the canonicalizer *)

(** ** The shape of a digest *)

Lemma hex_digit_lower (v : Z) :
  (0 <= v < 16)%Z -> is_hex_lower (Sha1.hex_digit v) = true.
Proof.
  intros Hv.
  assert (H : In v [0; 1; 2; 3; 4; 5; 6; 7; 8; 9; 10; 11; 12; 13; 14; 15]%Z)
    by (simpl; lia).
  repeat (destruct H as [<-|H]; [reflexivity|]). destruct H.
Qed.

Lemma hex_of_bytes_shape (bs : list Z) :
  List.Forall (fun b => 0 <= b < 256)%Z bs ->
  hex_string (2 * List.length bs) (Sha1.hex_of_bytes bs).
Proof.
  unfold hex_string. induction 1 as [|b r Hb _ [IHl IHc]]; [split; reflexivity|].
  cbn [Sha1.hex_of_bytes String.length all_chars List.length]. split; [lia|].
  rewrite IHc, !hex_digit_lower; [reflexivity| |].
  - change 15%Z with (Z.ones 4). rewrite Z.land_ones by lia.
    apply Z.mod_pos_bound. reflexivity.
  - rewrite Z.shiftr_div_pow2 by lia. change (2 ^ 4)%Z with 16%Z. split.
    + apply Z.div_pos; lia.
    + apply Z.div_lt_upper_bound; lia.
Qed.

Lemma be_bytes_range (n : nat) (v : Z) :
  List.Forall (fun b => 0 <= b < 256)%Z (Sha1.be_bytes n v).
Proof.
  induction n as [|k IH]; simpl; constructor; [|exact IH].
  change 255%Z with (Z.ones 8). rewrite Z.land_ones by lia.
  apply Z.mod_pos_bound. reflexivity.
Qed.

Lemma be_bytes_length (n : nat) (v : Z) : List.length (Sha1.be_bytes n v) = n.
Proof. induction n as [|k IH]; simpl; [reflexivity|now rewrite IH]. Qed.

(** A digest is forty lower-case hexadecimal digits. *)
Lemma hexdigest_shape (s : string) : hex_string 40 (Sha1.hexdigest s).
Proof.
  unfold Sha1.hexdigest, Sha1.digest.
  destruct (Sha1.blocks _ _ _) as [[[[h0 h1] h2] h3] h4].
  replace 40%nat with (2 * List.length
                             (Sha1.be_bytes 4 h0 ++ Sha1.be_bytes 4 h1
                              ++ Sha1.be_bytes 4 h2 ++ Sha1.be_bytes 4 h3
                              ++ Sha1.be_bytes 4 h4))%nat
    by (rewrite !List.length_app, !be_bytes_length; reflexivity).
  apply hex_of_bytes_shape.
  repeat (apply List.Forall_app; split); apply be_bytes_range.
Qed.

Lemma substring_prefix_shape (p : ascii -> bool) (n : nat) (s : string) :
  (n <= String.length s)%nat -> all_chars p s = true ->
  String.length (String.substring 0 n s) = n
  /\ all_chars p (String.substring 0 n s) = true.
Proof.
  revert s. induction n as [|k IH]; intros s Hlen Hall.
  - destruct s; split; reflexivity.
  - destruct s as [|c r]; simpl in Hlen; [lia|]. simpl in Hall.
    apply andb_true_iff in Hall. destruct Hall as [Hc Hr].
    destruct (IH r) as [IHl IHc]; [lia|assumption|].
    simpl. rewrite IHl, IHc, Hc. split; reflexivity.
Qed.

Lemma sha1_prefix_shape (n : nat) (s : string) :
  (n <= 40)%nat -> hex_string n (sha1_prefix n s).
Proof.
  intros Hn. destruct (hexdigest_shape s) as [Hlen Hall].
  unfold sha1_prefix, Py.slice. rewrite Nat.sub_0_r.
  apply substring_prefix_shape; [lia|assumption].
Qed.

(** X12: Whenever [canonicalize_event] returns, the symbol is the sentinel
    "EV_OTHER" or "EV_" followed by six lower-case hexadecimal digits. *)
Theorem canonicalize_event_alphabet :
  forall (event : pyval) (symbol : string),
    canonicalize_event event = Ok symbol ->
    symbol = "EV_OTHER"
    \/ exists hex, symbol = ("EV_" ++ hex)%string /\ hex_string 6 hex.
Proof.
  intros event symbol H. unfold canonicalize_event in H.
  destruct event; try (injection H as <-; now left).
  destruct (match py_or _ _ with PyNone => _ | _ => _ end) as [raw|e];
    [|discriminate H].
  simpl in H.
  destruct (Py.split_delims raw) as [|p0 parts]; [injection H as <-; now left|].
  destruct (String.eqb (Py.strip p0) ""); injection H as <-; [now left|].
  right. eexists. split; [reflexivity|]. apply sha1_prefix_shape. lia.
Qed.

Lemma canonicalize_event_alphabet_witness :
  "EV_971c41" = "EV_OTHER"
  \/ exists hex, "EV_971c41" = ("EV_" ++ hex)%string /\ hex_string 6 hex.
Proof.
  apply (canonicalize_event_alphabet
           (PyDict [("type", PyStr "File.Create")]) "EV_971c41").
  vm_compute. reflexivity.
Defined.

Lemma hashed_form_shape (m : string) :
  exists hex, hashed_form m = ("M_" ++ hex)%string /\ hex_string 10 hex.
Proof. eexists. split; [reflexivity|]. apply sha1_prefix_shape. lia. Qed.

(** X13: Every hash returned by [unify_motifs] is "M_" followed by ten
    lower-case hexadecimal digits. *)
Theorem unify_motifs_alphabet :
  forall (st : MotifRegistry.state) (motif_lists : list (list string))
         (max_total : Z) (register : bool) (h : string),
    In h (fst (unify_motifs st motif_lists max_total register)) ->
    exists hex, h = ("M_" ++ hex)%string /\ hex_string 10 hex.
Proof.
  intros st motif_lists max_total register h Hh.
  rewrite unify_motifs_hashed in Hh.
  apply in_slice_to, in_first_occurrences, List.in_map_iff in Hh.
  destruct Hh as (m & <- & _). eexists. split; [reflexivity|].
  apply sha1_prefix_shape. lia.
Qed.

Lemma unify_motifs_alphabet_witness :
  exists hex, "M_ca85322e12" = ("M_" ++ hex)%string /\ hex_string 10 hex.
Proof.
  apply (unify_motifs_alphabet MotifRegistry.empty [["T_A_B"]] 300 true).
  vm_compute. tauto.
Defined.

(** ** What a symbol depends on *)

Lemma map_string_app (f : ascii -> ascii) (a b : string) :
  Py.map_string f (a ++ b) = (Py.map_string f a ++ Py.map_string f b)%string.
Proof.
  induction a as [|c a IH]; [reflexivity|].
  change (String (f c) (Py.map_string f (a ++ b))
          = String (f c) (Py.map_string f a ++ Py.map_string f b)%string).
  now rewrite IH.
Qed.

Lemma lower_char_idem (c : ascii) : Py.lower_char (Py.lower_char c) = Py.lower_char c.
Proof. destruct c as [[] [] [] [] [] [] [] []]; reflexivity. Qed.

Lemma lower_idem (s : string) : Py.lower (Py.lower s) = Py.lower s.
Proof.
  unfold Py.lower. induction s as [|c r IH]; simpl; [reflexivity|].
  now rewrite lower_char_idem, IH.
Qed.

Lemma lower_char_delim (c : ascii) :
  Py.is_delim c = true -> Py.is_delim (Py.lower_char c) = true.
Proof. destruct c as [[] [] [] [] [] [] [] []]; intros H; try discriminate H; reflexivity. Qed.

Lemma split_delims_from_cons (b : bool) (s : string) :
  exists h t, Py.split_delims_from b s = h :: t.
Proof.
  revert b. induction s as [|c r IH]; intros b; simpl; [eauto|].
  destruct (Py.is_delim c).
  - destruct b; [apply IH|eauto].
  - destruct (IH false) as (h & t & ->). eauto.
Qed.

(** The head of a type: what stands before its first delimiter. *)
Lemma split_delims_head (s u : string) (d : ascii) :
  Py.is_delim d = true ->
  List.hd "" (Py.split_delims (s ++ String d u))
  = List.hd "" (Py.split_delims s).
Proof.
  intros Hd. unfold Py.split_delims. induction s as [|c r IH].
  - change (("" ++ String d u)%string) with (String d u). simpl. now rewrite Hd.
  - change ((String c r ++ String d u)%string) with (String c (r ++ String d u)).
    simpl. destruct (Py.is_delim c); [reflexivity|].
    destruct (split_delims_from_cons false (r ++ String d u)) as (h1 & t1 & E1).
    destruct (split_delims_from_cons false r) as (h2 & t2 & E2).
    rewrite E1, E2 in *. simpl in *. now rewrite IH.
Qed.

Lemma canonicalize_typed (ev : list (string * pyval)) (t : string) :
  dict_get ev "type" = PyStr t -> t <> "" ->
  canonicalize_event (PyDict ev)
  = let head := Py.strip (List.hd "" (Py.split_delims (Py.lower t))) in
    Ok (if String.eqb head "" then "EV_OTHER"
        else ("EV_" ++ sha1_prefix 6 head)%string).
Proof.
  intros Ht Hne. unfold canonicalize_event. rewrite Ht.
  assert (Htruthy : truthy (PyStr t) = true).
  { simpl. destruct (String.eqb_spec t ""); [contradiction|reflexivity]. }
  unfold py_or. rewrite !Htruthy.
  cbn [py_str mbind result_bind]. unfold Py.split_delims.
  destruct (split_delims_from_cons false (Py.lower t)) as (h & tl & ->).
  cbn [List.hd]. now destruct (String.eqb (Py.strip h) "").
Qed.

Lemma isascii_nonempty_lower (t : string) : t <> "" -> Py.lower t <> "".
Proof. now destruct t. Qed.

(** X14: When the type field is a non-empty ASCII string the symbol depends
    only on the lower-cased text before the first delimiter: the other
    fields, the letter case and everything from the first delimiter on
    are ignored. *)
Theorem canonicalize_event_head_only :
  forall (ev : list (string * pyval)) (t u : string) (d : ascii),
    dict_get ev "type" = PyStr t ->
    t <> "" ->
    isascii t = true ->
    isascii u = true ->
    Py.is_delim d = true ->
    canonicalize_event (PyDict ev) = canonicalize_event (PyDict [("type", PyStr t)])
    /\ canonicalize_event (PyDict [("type", PyStr (t ++ String d u))])
       = canonicalize_event (PyDict [("type", PyStr t)])
    /\ canonicalize_event (PyDict [("type", PyStr (Py.lower t))])
       = canonicalize_event (PyDict [("type", PyStr t)]).
Proof.
  intros ev t u d Ht Hne _ _ Hd.
  assert (Hone : forall s, dict_get [("type", PyStr s)] "type" = PyStr s)
    by reflexivity.
  split; [|split].
  - now rewrite (canonicalize_typed ev t), (canonicalize_typed _ t (Hone t)).
  - rewrite (canonicalize_typed _ _ (Hone (t ++ String d u)%string)),
      (canonicalize_typed _ _ (Hone t)) by (try assumption; now destruct t).
    unfold Py.lower. rewrite map_string_app. cbn [Py.map_string].
    rewrite split_delims_head by now apply lower_char_delim. reflexivity.
  - rewrite (canonicalize_typed _ _ (Hone (Py.lower t))),
      (canonicalize_typed _ _ (Hone t))
      by (try assumption; now apply isascii_nonempty_lower).
    now rewrite lower_idem.
Qed.

Lemma canonicalize_event_head_only_witness :
  canonicalize_event (PyDict [("id", PyInt 7); ("type", PyStr "File")])
  = canonicalize_event (PyDict [("type", PyStr "File")])
  /\ canonicalize_event (PyDict [("type", PyStr "File.Create")])
     = canonicalize_event (PyDict [("type", PyStr "File")])
  /\ canonicalize_event (PyDict [("type", PyStr "file")])
     = canonicalize_event (PyDict [("type", PyStr "File")]).
Proof.
  apply (canonicalize_event_head_only
           [("id", PyInt 7); ("type", PyStr "File")] "File" "Create" "."%char);
    [reflexivity|discriminate|reflexivity|reflexivity|reflexivity].
Defined.

(** ** The sequence builder *)

Lemma mapM_app_Ok {A B : Type} (f : A -> result B) (l : list A) (ys : list B) :
  mapM f l = Ok ys -> List.length ys = List.length l.
Proof.
  revert ys. induction l as [|x r IH]; intros ys H; simpl in H.
  - now injection H as <-.
  - destruct (f x) as [y|e]; [|discriminate H]. simpl in H.
    destruct (mapM f r) as [ys'|e]; [|discriminate H]. simpl in H.
    injection H as <-. simpl. f_equal. now apply IH.
Qed.

Lemma mapM_Ok {A B : Type} (f : A -> result B) (l : list A) :
  (forall x, In x l -> exists y, f x = Ok y) -> exists ys, mapM f l = Ok ys.
Proof.
  induction l as [|x r IH]; intros H; simpl; [eauto|].
  destruct (H x) as (y & ->); [now left|].
  destruct IH as (ys & ->); [intros z Hz; apply H; now right|].
  simpl. eauto.
Qed.

#[local] Arguments canonicalize_event : simpl never.

Section SequenceBuilder.
Variable json_loads : string -> option pyval.
Variable intent_tokens_for_prompt : string -> bool -> list string.

Lemma events_loop_no_prompts (llm : bool) (events : list pyval) :
  forall sequence,
    events_loop json_loads intent_tokens_for_prompt false llm events sequence
    = symbols ← mapM canonicalize_event (List.filter is_record events);
      Ok (sequence ++ symbols).
Proof.
  induction events as [|event rest IH]; intros sequence; simpl.
  - now rewrite List.app_nil_r.
  - destruct event; simpl; try apply IH.
    destruct (canonicalize_event (PyDict d)) as [symbol|e]; [|reflexivity].
    simpl. rewrite IH, List.app_nil_r.
    destruct (mapM canonicalize_event (List.filter is_record rest));
      [|reflexivity].
    simpl. now rewrite <- List.app_assoc.
Qed.

Lemma events_loop_sublist (include_prompts llm : bool) (events : list pyval) :
  forall sequence out,
    events_loop json_loads intent_tokens_for_prompt include_prompts llm events
      sequence = Ok out ->
    exists symbols rest,
      mapM canonicalize_event (List.filter is_record events) = Ok symbols
      /\ out = sequence ++ rest
      /\ sublist symbols rest.
Proof.
  induction events as [|event rest IH]; intros sequence out Hout; simpl in Hout.
  - injection Hout as <-. exists [], []. now rewrite List.app_nil_r.
  - destruct event; try (now apply IH).
    destruct (event_intents _ _ _ _ _) as [intents|e]; [|discriminate Hout].
    simpl in Hout.
    destruct (canonicalize_event (PyDict d)) as [symbol|e] eqn:Hsym;
      [|discriminate Hout].
    simpl in Hout. apply IH in Hout.
    destruct Hout as (symbols & tl & Hmap & -> & Hsub).
    exists (symbol :: symbols), (intents ++ symbol :: tl). split; [|split].
    + simpl. now rewrite Hsym, Hmap.
    + now rewrite <- !List.app_assoc.
    + apply sublist_inserts_l. now apply sublist_skip.
Qed.

Lemma prompts_loop_appends (llm : bool) (prompts : list pyval) :
  forall sequence out,
    prompts_loop intent_tokens_for_prompt llm prompts sequence = Ok out ->
    exists extra, out = sequence ++ extra.
Proof.
  induction prompts as [|p rest IH]; intros sequence out H; simpl in H.
  - injection H as <-. exists []. now rewrite List.app_nil_r.
  - destruct p; try (now apply IH).
    destruct (truthy _); [|now apply IH].
    destruct (py_str _) as [text|e]; [|discriminate H]. simpl in H.
    apply IH in H. destruct H as (extra & ->).
    eexists. now rewrite <- List.app_assoc.
Qed.

End SequenceBuilder.

(** X15: Without prompts the sequence builder canonicalizes the records of
    the events list in stored order and does nothing else: it returns
    their symbols, or raises what [canonicalize_event] raises on the
    first record it fails on; entries that are not records are skipped,
    and a trace that is not a record or whose events are not a list gives
    the empty sequence.  When the declared type of every record is
    [None], a boolean, an ASCII string or an integer within the digit
    limit, the builder returns one symbol per record. *)
Theorem event_sequence_without_prompts :
  forall (json_loads : string -> option pyval)
         (intent_tokens_for_prompt : string -> bool -> list string)
         (trace : pyval) (include_llm_intents : bool),
    event_sequence json_loads intent_tokens_for_prompt trace false
      include_llm_intents
    = match trace with
      | PyDict tr =>
          match dict_get_default tr "events" (PyList []) with
          | PyList events =>
              mapM canonicalize_event (List.filter is_record events)
          | _ => Ok []
          end
      | _ => Ok []
      end
    /\ forall tr events,
         trace = PyDict tr ->
         dict_get_default tr "events" (PyList []) = PyList events ->
         (forall ev, In (PyDict ev) events ->
                     plain_value (declared_type ev) = true) ->
         exists sequence,
           event_sequence json_loads intent_tokens_for_prompt trace false
             include_llm_intents = Ok sequence
           /\ List.length sequence = List.length (List.filter is_record events).
Proof.
  intros json_loads intent_tokens_for_prompt trace llm.
  assert (Heq : event_sequence json_loads intent_tokens_for_prompt trace false llm
                = match trace with
                  | PyDict tr =>
                      match dict_get_default tr "events" (PyList []) with
                      | PyList events =>
                          mapM canonicalize_event (List.filter is_record events)
                      | _ => Ok []
                      end
                  | _ => Ok []
                  end).
  { destruct trace; try reflexivity. unfold event_sequence.
    destruct (dict_get_default d "events" (PyList [])); try reflexivity.
    rewrite events_loop_no_prompts.
    destruct (mapM canonicalize_event _); reflexivity. }
  split; [exact Heq|].
  intros tr events -> Hev Hplain. rewrite Heq, Hev.
  destruct (mapM_Ok canonicalize_event (List.filter is_record events))
    as (sequence & Hmap).
  { intros x Hx. apply List.filter_In in Hx. destruct Hx as [Hin Hrec].
    destruct x as [| | | | |ev]; try discriminate Hrec.
    now apply canonicalize_event_plain, Hplain. }
  exists sequence. split; [exact Hmap|]. now apply mapM_app_Ok in Hmap.
Qed.

Lemma event_sequence_without_prompts_witness :
  exists sequence,
    event_sequence (fun _ => None) (fun _ _ => [])
      (PyDict [("events",
                PyList [PyDict [("type", PyStr "prompt")]; PyNone;
                        PyDict [("verb", PyInt 3)]])])
      false false = Ok sequence
    /\ List.length sequence = 2%nat.
Proof.
  apply (proj2 (event_sequence_without_prompts (fun _ => None) (fun _ _ => [])
                  (PyDict [("events",
                            PyList [PyDict [("type", PyStr "prompt")]; PyNone;
                                    PyDict [("verb", PyInt 3)]])])
                  false)
           [("events",
             PyList [PyDict [("type", PyStr "prompt")]; PyNone;
                     PyDict [("verb", PyInt 3)]])]
           [PyDict [("type", PyStr "prompt")]; PyNone; PyDict [("verb", PyInt 3)]]);
    [reflexivity|reflexivity|].
  intros ev [Hev|[Hev|[Hev|[]]]]; try discriminate Hev;
    injection Hev as <-; reflexivity.
Defined.

(** The builder does raise: an event whose type is an integer beyond the
    digit limit stops it, even with prompts switched off. *)
Example event_sequence_long_type :
  forall (json_loads : string -> option pyval)
         (intent_tokens_for_prompt : string -> bool -> list string)
         (include_llm_intents : bool),
    event_sequence json_loads intent_tokens_for_prompt
      (PyDict [("events",
                PyList [PyDict [("type", PyStr "edit")];
                        PyDict [("type", PyInt long_int)]])])
      false include_llm_intents
    = Raise ValueError.
Proof.
  intros json_loads intent_tokens_for_prompt llm. unfold event_sequence.
  change (dict_get_default _ "events" (PyList []))
    with (PyList [PyDict [("type", PyStr "edit")];
                  PyDict [("type", PyInt long_int)]]).
  cbv beta iota. rewrite events_loop_no_prompts.
  cbn [List.filter is_record mapM].
  rewrite (canonicalize_event_long _ long_int declared_type_long_int
             long_int_digits).
  replace (canonicalize_event (PyDict [("type", PyStr "edit")]))
    with (Ok "EV_9ead47" : result string) by (vm_compute; reflexivity).
  reflexivity.
Qed.

(** X16: With prompts, whenever the builder returns, every record event has
    been given a symbol and these symbols appear in the result in stored
    order: intent markers are only inserted around them. *)
Theorem event_sequence_keeps_event_order :
  forall (json_loads : string -> option pyval)
         (intent_tokens_for_prompt : string -> bool -> list string)
         (tr : list (string * pyval)) (events : list pyval)
         (include_prompts include_llm_intents : bool) (seq : list string),
    dict_get_default tr "events" (PyList []) = PyList events ->
    event_sequence json_loads intent_tokens_for_prompt (PyDict tr)
      include_prompts include_llm_intents = Ok seq ->
    exists symbols,
      mapM canonicalize_event (List.filter is_record events) = Ok symbols
      /\ sublist symbols seq.
Proof.
  intros json_loads intent_tokens_for_prompt tr events include_prompts llm seq
    Hev Hseq.
  unfold event_sequence in Hseq. rewrite Hev in Hseq.
  destruct (events_loop _ _ _ _ _ _) as [sequence|e] eqn:Hloop;
    [|discriminate Hseq].
  apply events_loop_sublist in Hloop.
  destruct Hloop as (symbols & rest & Hmap & -> & Hsub).
  exists symbols. split; [exact Hmap|].
  simpl in Hseq, Hsub |- *.
  destruct (include_prompts && dict_has tr "prompts").
  - destruct (py_iter _) as [prompts|e]; [|discriminate Hseq].
    simpl in Hseq.
    apply prompts_loop_appends in Hseq. destruct Hseq as (extra & ->).
    now apply sublist_inserts_r.
  - now injection Hseq as <-.
Qed.

Lemma event_sequence_keeps_event_order_witness :
  exists symbols,
    mapM canonicalize_event
      [PyDict [("type", PyStr "prompt"); ("text", PyStr "fix")];
       PyDict [("type", PyStr "edit")]] = Ok symbols
    /\ sublist symbols ["INTENT_FIX"; "EV_9c7e05"; "EV_9ead47"; "INTENT_DOC"].
Proof.
  apply (event_sequence_keeps_event_order
           (fun _ => None)
           (fun txt _ => ["INTENT_" ++ Py.upper txt]%string)
           [("events",
             PyList [PyDict [("type", PyStr "prompt"); ("text", PyStr "fix")];
                     PyNone;
                     PyDict [("type", PyStr "edit")]]);
            ("prompts", PyList [PyDict [("content", PyStr "doc")]])]
           [PyDict [("type", PyStr "prompt"); ("text", PyStr "fix")];
            PyNone;
            PyDict [("type", PyStr "edit")]]
           true false);
    vm_compute; reflexivity.
Defined.

(** * Further properties of the remaining extractors *)

(** ** Intent motifs *)

Lemma startswith_app (s t p : string) :
  Py.startswith s p = true -> Py.startswith (s ++ t) p = true.
Proof.
  revert s. induction p as [|a p IH]; intros s H; [reflexivity|].
  destruct s as [|b s]; [discriminate H|].
  change ((String b s ++ t)%string) with (String b (s ++ t)).
  simpl in *. apply andb_true_iff in H. destruct H as [-> H].
  now rewrite IH.
Qed.

Lemma in_intent_indices (sequence : list string) (i : nat) :
  In i (intent_indices sequence)
  <-> (i < List.length sequence)%nat
      /\ Py.startswith (item sequence i) "INTENT_" = true.
Proof. unfold intent_indices. rewrite List.filter_In, List.in_seq. intuition lia. Qed.

Lemma extract_intent_motifs_prefix (sequence : list string) (m : string) :
  In m (extract_intent_motifs sequence) -> Py.startswith m "INTENT_" = true.
Proof.
  intros Hm. unfold extract_intent_motifs in Hm.
  destruct sequence as [|x0 r]; [destruct Hm|]. set (seq0 := x0 :: r) in *.
  destruct (intent_indices seq0) as [|i0 is0] eqn:Hidx; [destruct Hm|].
  rewrite <- Hidx in Hm. apply List.in_app_or in Hm. destruct Hm as [Hm|Hm].
  - apply List.in_flat_map in Hm. destruct Hm as (i & Hi & Hm).
    apply in_intent_indices in Hi. destruct Hi as [_ Hi].
    unfold intent_anchored in Hm.
    apply List.in_app_or in Hm. destruct Hm as [Hm|Hm].
    { destruct (_ <? _)%Z; [|destruct Hm]. destruct Hm as [<-|[]].
      now apply startswith_app. }
    apply List.in_app_or in Hm. destruct Hm as [Hm|[<-|[]]]; [|reflexivity].
    destruct (_ <? _)%Z; [|destruct Hm]. now destruct Hm as [<-|[]].
  - apply List.in_map_iff in Hm. now destruct Hm as (i & <- & _).
Qed.

(** X17: Every motif of [extract_intent_motifs] starts with "INTENT_", and the
    output is empty exactly when the sequence has no intent marker. *)
Theorem extract_intent_motifs_markers :
  forall sequence : list string,
    (forall m, In m (extract_intent_motifs sequence) ->
               Py.startswith m "INTENT_" = true)
    /\ (extract_intent_motifs sequence = []
        <-> forall x, In x sequence -> Py.startswith x "INTENT_" = false).
Proof.
  intros sequence. split; [apply extract_intent_motifs_prefix|].
  split.
  - intros Hnil x Hx.
    destruct (Py.startswith x "INTENT_") eqn:Hpre; [exfalso|reflexivity].
    apply (List.In_nth _ _ "") in Hx. destruct Hx as (i & Hi & Hnth).
    assert (Hin : In i (intent_indices sequence)).
    { apply in_intent_indices. split; [assumption|]. unfold item. now rewrite Hnth. }
    unfold extract_intent_motifs in Hnil.
    destruct sequence as [|x0 r]; [simpl in Hi; lia|].
    destruct (intent_indices (x0 :: r)) as [|i0 is0]; [destruct Hin|].
    simpl in Hnil. unfold intent_anchored at 1 in Hnil.
    apply List.app_eq_nil in Hnil. destruct Hnil as [Hnil _].
    apply List.app_eq_nil in Hnil. destruct Hnil as [Hnil _].
    apply List.app_eq_nil in Hnil. destruct Hnil as [_ Hnil].
    apply List.app_eq_nil in Hnil. destruct Hnil as [_ Hnil]. discriminate Hnil.
  - intros Hnone. unfold extract_intent_motifs.
    destruct sequence as [|x0 r]; [reflexivity|].
    destruct (intent_indices (x0 :: r)) as [|i0 is0] eqn:Hidx; [reflexivity|].
    exfalso. assert (Hin : In i0 (intent_indices (x0 :: r)))
      by (rewrite Hidx; now left).
    apply in_intent_indices in Hin. destruct Hin as [Hi Hpre].
    rewrite (Hnone (item (x0 :: r) i0)) in Hpre; [discriminate|].
    now apply List.nth_In.
Qed.

Lemma extract_intent_motifs_markers_witness :
  Py.startswith "INTENT_DEBUG_TO_EV_9ead47" "INTENT_" = true
  /\ extract_intent_motifs ["EV_9c7e05"; "EV_9ead47"] = [].
Proof.
  split.
  - apply (proj1 (extract_intent_motifs_markers ["INTENT_DEBUG"; "EV_9ead47"])).
    vm_compute. tauto.
  - apply (proj2 (extract_intent_motifs_markers ["EV_9c7e05"; "EV_9ead47"])).
    intros x [<-|[<-|[]]]; reflexivity.
Defined.

Example extract_intent_motifs_example :
  extract_intent_motifs ["INTENT_DEBUG"; "EV_a"; "INTENT_FIX"; "EV_b"]
  = ["INTENT_DEBUG_TO_EV_a"; "INTENT_PATTERN_INTENT_DEBUG_EV_a_INTENT_FIX";
     "INTENT_TYPE_DEBUG"; "INTENT_FIX_TO_EV_b"; "INTENT_TYPE_FIX";
     "INTENT_TRANS_INTENT_DEBUG_INTENT_FIX"].
Proof. vm_compute. reflexivity. Qed.

(** ** Universal motifs *)

Example extract_universal_motifs_examples :
  fst <$> extract_universal_motifs MotifRegistry.empty ["A"; "B"; "A"; "B"]
            true true true [3; 4]%Z false
  = Some ["NG_A_B_A"; "NG_B_A_B"; "NG_A_B_A_B"; "TRANS_A_B"; "TRANS_B_A";
          "CYCLE_A_B"; "CYCLE_B_A"; "A"; "B"]
  /\ fst <$> extract_universal_motifs MotifRegistry.empty ["A"; "B"; "C"]
               true true false [(-1)%Z] false
     = Some ["NG_A_B"; "NG_"; "TRANS_A_B"; "TRANS_B_C"; "A"; "B"; "C"]
  /\ fst <$> extract_universal_motifs MotifRegistry.empty ["A"; "B"]
               true true true [3; 4]%Z true
     = Some [hashed_form "T_A_B"; hashed_form "HIGH_SWITCHING"; "A"; "B"].
Proof. vm_compute. repeat split. Qed.

Lemma extract_universal_motifs_is_Some st (sequence : list string)
  (it ing istr : bool) (sizes : list Z) (stat : bool) :
  is_Some (extract_universal_motifs st sequence it ing istr sizes stat).
Proof.
  unfold extract_universal_motifs.
  destruct (Z.ltb_spec (len sequence) 2) as [Hshort|Hlong].
  - rewrite orb_true_r. eauto.
  - destruct sequence as [|x0 r]; [unfold len in Hlong; simpl in Hlong; lia|].
    simpl orb. cbv iota. destruct stat; [|simpl; eauto].
    rewrite motifs_from_sequence_long by assumption.
    destruct (unify_motifs _ _ _ _). simpl. eauto.
Qed.

(** X18: [extract_universal_motifs] always returns; its output has no
    duplicates and, for a sequence of at least two symbols, holds every
    symbol of the sequence; a shorter sequence gives the empty list; the
    legacy branch never touches the registry. *)
Theorem extract_universal_motifs_spec :
  forall (st : MotifRegistry.state) (sequence : list string)
         (include_transitions include_ngrams include_structural : bool)
         (ngram_sizes : list Z) (use_statistical_mining : bool),
  exists out st',
    extract_universal_motifs st sequence include_transitions include_ngrams
      include_structural ngram_sizes use_statistical_mining = Some (out, st')
    /\ List.NoDup out
    /\ ((2 <= len sequence)%Z -> forall x, In x sequence -> In x out)
    /\ ((len sequence < 2)%Z -> out = [])
    /\ (use_statistical_mining = false -> st' = st).
Proof.
  intros st sequence it ing istr sizes stat. unfold extract_universal_motifs.
  destruct (Z.ltb_spec (len sequence) 2) as [Hshort|Hlong].
  - rewrite orb_true_r. exists [], st.
    split; [reflexivity|]. split; [constructor|].
    split; [intros Hc; exfalso; lia|]. split; reflexivity.
  - destruct sequence as [|x0 r]; [unfold len in Hlong; simpl in Hlong; lia|].
    simpl orb. cbv iota.
    assert (Hfirst : exists motifs0 st1,
               (if stat
                then motifs_from_sequence st (x0 :: r) default_max_total
                else Some ([], st)) = Some (motifs0, st1)
               /\ (stat = false -> st1 = st)).
    { destruct stat.
      - rewrite motifs_from_sequence_long by assumption.
        eexists _, _. split; [now rewrite <- surjective_pairing|discriminate].
      - exists [], st. split; reflexivity. }
    destruct Hfirst as (motifs0 & st1 & -> & Hst). simpl.
    eexists _, st1. split; [reflexivity|].
    split; [apply NoDup_first_occurrences|].
    split; [|split; [intros Hc; exfalso; lia|exact Hst]].
    intros _ x Hx. apply in_first_occurrences, List.in_or_app. now right.
Qed.

Lemma extract_universal_motifs_spec_witness :
  exists out st',
    extract_universal_motifs MotifRegistry.empty ["EV_9c7e05"; "EV_9ead47"]
      true true true [3; 4]%Z false = Some (out, st')
    /\ In "EV_9ead47" out /\ st' = MotifRegistry.empty.
Proof.
  destruct (extract_universal_motifs_spec MotifRegistry.empty
              ["EV_9c7e05"; "EV_9ead47"] true true true [3; 4]%Z false)
    as (out & st' & Heq & _ & Hin & _ & Hst).
  exists out, st'. split; [exact Heq|]. split.
  - apply Hin; [unfold len; simpl; lia|]. right. now left.
  - now apply Hst.
Defined.

(** ** File-switching motifs *)

Lemma switch_chain_last sw cur x y :
  switch_chain (sw ++ [(x, y)]) cur -> cur = Some y.
Proof.
  intros H. inversion H as [c Hnil|sw0 a b Hc Hab Heq].
  - now destruct sw.
  - apply List.app_inj_tail in Heq. destruct Heq as [_ [= -> ->]]. reflexivity.
Qed.

(** On a chain two successive switches never arrive at the same file. *)
Lemma switch_chain_distinct sw cur :
  switch_chain sw cur ->
  forall i : nat,
    (i + 1 < List.length sw)%nat ->
    snd (List.nth i sw (KNone, KNone)) <> snd (List.nth (i + 1) sw (KNone, KNone)).
Proof.
  induction 1 as [cur|sw a b Hchain IH Hab]; intros i Hi; [simpl in Hi; lia|].
  rewrite List.length_app in Hi. simpl in Hi.
  destruct (Nat.lt_ge_cases (i + 1) (List.length sw)) as [Hin|Hlast].
  - rewrite !List.app_nth1 by lia. now apply IH.
  - assert (Hi1 : (i + 1)%nat = List.length sw) by lia.
    rewrite Hi1.
    rewrite (List.app_nth2 sw [(a, b)] (KNone, KNone) (n := List.length sw)) by lia.
    rewrite Nat.sub_diag. simpl.
    rewrite List.app_nth1 by lia.
    destruct (List.exists_last (l := sw)) as (sw' & [x y] & Heq);
      [intros ->; simpl in Hi1; lia|].
    subst sw. apply switch_chain_last in Hchain. injection Hchain as <-.
    rewrite List.length_app in Hi1. simpl in Hi1.
    rewrite List.app_nth2 by lia.
    replace (i - List.length sw')%nat with 0%nat by lia. simpl. congruence.
Qed.

Lemma switch_chain_never_refines sw cur :
  switch_chain sw cur -> iterative_refine sw = false.
Proof.
  intros Hchain. unfold iterative_refine.
  apply not_true_is_false. intros Hex. apply List.existsb_exists in Hex.
  destruct Hex as (i & Hi & Heq). apply in_py_range in Hi.
  apply bool_decide_eq_true in Heq.
  apply (switch_chain_distinct _ _ Hchain i); [unfold len in Hi; lia|assumption].
Qed.

Section StructuralExtractorFacts.
Variable json_loads : string -> option pyval.

Lemma switch_step_chain ss event ss' :
  switch_chain (file_switches ss) (current_file ss) ->
  switch_step json_loads ss event = Ok ss' ->
  switch_chain (file_switches ss') (current_file ss').
Proof.
  intros Hchain Hstep. unfold switch_step in Hstep.
  destruct (attr_get_default event "details" (PyDict [])) as [details0|];
    [|discriminate Hstep].
  simpl in Hstep.
  destruct (attr_get _ "file_path") as [fp1|]; [|discriminate Hstep].
  simpl in Hstep.
  destruct (if truthy fp1 then Ok fp1 else _) as [file_path|];
    [|discriminate Hstep].
  simpl in Hstep.
  destruct (truthy file_path); [|now injection Hstep as <-].
  destruct (to_key file_path) as [key|]; [|discriminate Hstep].
  injection Hstep as <-. simpl.
  destruct (current_file ss) as [cur|] eqn:Hcur.
  - destruct (decide (key = cur)) as [->|Hne].
    + rewrite bool_decide_eq_true_2 by reflexivity. exact Hchain.
    + rewrite bool_decide_eq_false_2 by assumption. simpl.
      apply chain_snoc; [assumption|congruence].
  - inversion Hchain as [c Hnil|]; constructor.
Qed.

Lemma switch_loop_chain events :
  forall ss ss',
    switch_chain (file_switches ss) (current_file ss) ->
    switch_loop json_loads events ss = Ok ss' ->
    switch_chain (file_switches ss') (current_file ss').
Proof.
  induction events as [|event rest IH]; intros ss ss' Hchain Hloop; simpl in Hloop.
  - now injection Hloop as <-.
  - destruct (switch_step json_loads ss event) as [ss1|] eqn:Hstep;
      [|discriminate Hloop].
    simpl in Hloop. eapply IH; [|exact Hloop].
    eapply switch_step_chain; eauto.
Qed.

End StructuralExtractorFacts.

Lemma fold_max_ge (l : list Z) (c : Z) : (c <= List.fold_left Z.max l c)%Z.
Proof.
  revert c. induction l as [|x r IH]; intros c; simpl; [lia|].
  specialize (IH (Z.max c x)). lia.
Qed.

(** What the file-switching extractor can return. *)
Lemma extract_structural_motifs_shape (json_loads : string -> option pyval)
  (trace : pyval) (motifs : list string) :
  extract_structural_motifs json_loads trace = Ok motifs ->
  (len motifs <= 2)%Z
  /\ forall m, In m motifs ->
               m = "DEPENDENCY_CHASE"
               \/ exists n, (5 < n)%Z /\ m = ("HOTSPOT_" ++ Py.str_of_Z n)%string.
Proof.
  intros H. unfold extract_structural_motifs in H.
  destruct (attr_get_default trace "events" (PyList [])) as [events|];
    [|discriminate H].
  simpl in H. destruct (py_len events) as [n|]; [|discriminate H]. simpl in H.
  destruct (n <? 2)%Z.
  { injection H as <-. split; [unfold len; simpl; lia|intros m []]. }
  destruct (py_iter events) as [evs|]; [|discriminate H]. simpl in H.
  destruct (switch_loop json_loads evs (SwitchState None [] [])) as [ss|] eqn:Hloop;
    [|discriminate H].
  simpl in H. injection H as <-.
  apply switch_loop_chain in Hloop; [|constructor].
  rewrite (switch_chain_never_refines _ _ Hloop), andb_false_r.
  rewrite List.app_nil_r. split.
  - unfold len. rewrite List.length_app.
    destruct (edits_per_file ss) as [|[k c] r];
      [|destruct (5 <? _)%Z]; destruct (3 <? _)%Z; simpl; lia.
  - intros m Hin. apply List.in_app_or in Hin. destruct Hin as [Hin|Hin].
    + destruct (edits_per_file ss) as [|[k c] r]; [destruct Hin|].
      destruct (Z.ltb_spec 5 (List.fold_left Z.max (List.map snd r) c)) as [Hmax|];
        [|destruct Hin].
      destruct Hin as [<-|[]]. right. eauto.
    + destruct (3 <? _)%Z; [|destruct Hin]. destruct Hin as [<-|[]]. now left.
Qed.

(** X19: Whenever [extract_structural_motifs] returns, "ITERATIVE_REFINE" is
    not in its result: a switch is recorded only when the file changes,
    so two successive switches never end on the same file.  The result
    has at most a hotspot and a dependency motif. *)
Theorem extract_structural_motifs_never_refines :
  forall (json_loads : string -> option pyval) (trace : pyval)
         (motifs : list string),
    extract_structural_motifs json_loads trace = Ok motifs ->
    ~ In "ITERATIVE_REFINE" motifs /\ (len motifs <= 2)%Z.
Proof.
  intros json_loads trace motifs H.
  apply extract_structural_motifs_shape in H. destruct H as [Hlen Hshape].
  split; [|exact Hlen]. intros Hin.
  destruct (Hshape _ Hin) as [Heq|(n & _ & Heq)]; discriminate Heq.
Qed.

Example extract_structural_motifs_examples :
  let ev := fun f : string => PyDict [("details", PyDict [("file_path", PyStr f)])] in
  let loads := fun s : string =>
                 if String.eqb s "j" then Some (PyDict [("file", PyStr "c.py")])
                 else None in
  extract_structural_motifs loads
    (PyDict [("events", PyList [ev "a.py"; ev "b.py"; ev "a.py"; ev "b.py"; ev "a.py"])])
  = Ok ["DEPENDENCY_CHASE"]
  /\ extract_structural_motifs loads
       (PyDict [("events", PyList [ev "a"; ev "a"; ev "a"; ev "a"; ev "a"; ev "a"])])
     = Ok ["HOTSPOT_6"]
  /\ extract_structural_motifs loads
       (PyDict [("events", PyList [ev "a"; PyDict [("details", PyStr "j")];
                                   PyDict [("details", PyStr "{")]; PyDict []])])
     = Ok []
  /\ extract_structural_motifs loads (PyDict [("events", PyList [ev "a"; PyNone])])
     = Raise AttributeError
  /\ extract_structural_motifs loads
       (PyDict [("events",
                 PyList [ev "a";
                         PyDict [("details",
                                  PyDict [("file", PyList [PyStr "x"])])]])])
     = Raise TypeError
  /\ extract_structural_motifs loads (PyDict [("events", PyList [PyNone])]) = Ok []
  /\ extract_structural_motifs loads (PyDict [("events", PyNone)]) = Raise TypeError
  /\ extract_structural_motifs loads PyNone = Raise AttributeError.
Proof. vm_compute. repeat split. Qed.

Lemma extract_structural_motifs_never_refines_witness :
  let ev := fun f : string => PyDict [("details", PyDict [("file_path", PyStr f)])] in
  ~ In "ITERATIVE_REFINE" ["DEPENDENCY_CHASE"].
Proof.
  intros ev.
  apply (extract_structural_motifs_never_refines (fun _ => None)
           (PyDict [("events",
                     PyList [ev "a.py"; ev "b.py"; ev "a.py"; ev "b.py"; ev "a.py"])])).
  vm_compute. reflexivity.
Defined.

(** ** Registry statistics *)

(** X20: After [clear] and one registering call, [stats] counts one registered
    hash per distinct hash of the input, whatever max_total cut from the
    returned list, and no cached description. *)
Theorem registry_stats_after_unify :
  forall (st : MotifRegistry.state) (motif_lists : list (list string))
         (max_total : Z),
    registry_stats
      (snd (unify_motifs (MotifRegistry.clear st) motif_lists max_total true))
    = (List.length
         (first_occurrences (List.map hashed_form (List.concat motif_lists))),
       0%nat).
Proof.
  intros st motif_lists max_total. unfold registry_stats.
  set (st' := snd (unify_motifs (MotifRegistry.clear st) motif_lists max_total true)).
  set (L := List.map hashed_form (List.concat motif_lists)).
  f_equal.
  - rewrite <- size_dom.
    assert (Hdom : dom (MotifRegistry._registry st')
                   = (list_to_set (first_occurrences L) : gset string)).
    { apply set_eq. intros key.
      rewrite elem_of_dom, elem_of_list_to_set, list_elem_of_In,
        in_first_occurrences.
      change (MotifRegistry._registry st' !! key)
        with (MotifRegistry.get_original st' key).
      unfold st'. rewrite unify_motifs_registry. unfold L.
      destruct (List.find _ _) as [m|] eqn:Hfind.
      - apply List.find_some in Hfind. destruct Hfind as [Hin Heq].
        apply bool_decide_eq_true in Heq. split; [|eauto].
        intros _. apply List.in_map_iff. eauto.
      - split; [intros [x Hx]; discriminate Hx|].
        intros Hin. apply List.in_map_iff in Hin. destruct Hin as (m & Heq & Hin).
        apply (List.find_none _ _ Hfind) in Hin.
        apply bool_decide_eq_false in Hin. contradiction. }
    rewrite Hdom. apply size_list_to_set, NoDup_ListNoDup, NoDup_first_occurrences.
  - unfold st', unify_motifs. cbn [snd]. rewrite unify_fold_descriptions.
    reflexivity.
Qed.

(** * The motif representation of a trace *)

Lemma motifs_from_sequence_hashes st (seq : list string) max_total out st' :
  motifs_from_sequence st seq max_total = Some (out, st') ->
  forall h, In h out -> exists m, h = hashed_form m.
Proof.
  intros Hm h Hh. destruct (Z.ltb_spec (len seq) 2) as [Hshort|Hlong].
  - rewrite motifs_from_sequence_short in Hm by assumption.
    injection Hm as <- _. destruct Hh.
  - rewrite motifs_from_sequence_long in Hm by assumption.
    pose proof (unify_motifs_hashed st
                  [transition_motifs seq default_max_count;
                   structural_motifs seq; []; sequitur_rules seq]
                  max_total true) as Hfst.
    assert (Hpair : unify_motifs st
                      [transition_motifs seq default_max_count;
                       structural_motifs seq; []; sequitur_rules seq]
                      max_total true = (out, st')) by congruence.
    rewrite Hpair in Hfst. cbn [fst] in Hfst. rewrite Hfst in Hh.
    apply in_slice_to, in_first_occurrences, List.in_map_iff in Hh.
    destruct Hh as (m & <- & _). eauto.
Qed.

Lemma motifs_from_sequence_is_Some st (seq : list string) max_total :
  is_Some (motifs_from_sequence st seq max_total).
Proof.
  destruct (Z.ltb_spec (len seq) 2).
  - rewrite motifs_from_sequence_short by assumption. eauto.
  - rewrite motifs_from_sequence_long by assumption. eauto.
Qed.

Lemma length_string_of_list (l : list ascii) :
  String.length (string_of_list_ascii l) = List.length l.
Proof. induction l as [|c r IH]; simpl; [reflexivity|now rewrite IH]. Qed.

Lemma length_list_of_string (s : string) :
  List.length (list_ascii_of_string s) = String.length s.
Proof. induction s as [|c r IH]; simpl; [reflexivity|now rewrite IH]. Qed.

Section MotifsReprFacts.
Variable core_event_sequence : pyval -> bool -> bool -> result (list string).
Variable json_loads : string -> option pyval.

Lemma motifs_repr_is_Some st trace stat ip llm :
  is_Some (motifs_repr core_event_sequence json_loads st trace stat ip llm).
Proof.
  unfold motifs_repr. destruct (negb (truthy trace)); [eauto|].
  destruct (attr_get trace "events") as [events|]; [|eauto].
  destruct (negb (truthy events)); [eauto|].
  destruct (core_event_sequence trace ip llm) as [[|x seq]|]; [eauto| |eauto].
  assert (Hfirst : is_Some
            (if stat then motifs_from_sequence st (x :: seq) 300
             else extract_universal_motifs st (x :: seq) true true true
                    [3; 4]%Z false)).
  { destruct stat; [apply motifs_from_sequence_is_Some|].
    apply extract_universal_motifs_is_Some. }
  destruct Hfirst as [[motifs st1] ->]. simpl.
  destruct (extract_structural_motifs json_loads trace); eauto.
Qed.

End MotifsReprFacts.

(** X21: [motifs_repr] always returns or raises.  In statistical mode a
    returned list has no duplicates and holds only hashed motifs ("M_"
    and ten hexadecimal digits), "DEPENDENCY_CHASE", a "HOTSPOT_<n>" with
    n > 5 and, when prompts are included, motifs that start with
    "INTENT_"; so no raw motif and no symbol leaves the call. *)
Theorem motifs_repr_tokens :
  forall (core_event_sequence : pyval -> bool -> bool -> result (list string))
         (json_loads : string -> option pyval)
         (st : MotifRegistry.state) (trace : pyval)
         (include_prompts include_llm_intents : bool),
  exists r st',
    motifs_repr core_event_sequence json_loads st trace true include_prompts
      include_llm_intents = Some (r, st')
    /\ forall out, r = Ok out ->
         List.NoDup out
         /\ forall m, In m out ->
              (exists hex, m = ("M_" ++ hex)%string /\ hex_string 10 hex)
              \/ m = "DEPENDENCY_CHASE"
              \/ (exists n, (5 < n)%Z /\ m = ("HOTSPOT_" ++ Py.str_of_Z n)%string)
              \/ (include_prompts = true /\ Py.startswith m "INTENT_" = true).
Proof.
  intros ces json_loads st trace ip llm.
  destruct (motifs_repr_is_Some ces json_loads st trace true ip llm)
    as [[r st'] Hr].
  exists r, st'. split; [exact Hr|]. intros out ->.
  unfold motifs_repr in Hr.
  destruct (negb (truthy trace));
    [injection Hr as <- _; split; [constructor|intros m []]|].
  destruct (attr_get trace "events") as [events|]; [|discriminate Hr].
  destruct (negb (truthy events));
    [injection Hr as <- _; split; [constructor|intros m []]|].
  destruct (ces trace ip llm) as [[|x seq]|]; [| |discriminate Hr].
  { injection Hr as <- _. split; [constructor|intros m []]. }
  destruct (motifs_from_sequence st (x :: seq) 300) as [[motifs st1]|] eqn:Hm;
    [|discriminate Hr].
  simpl in Hr.
  destruct (extract_structural_motifs json_loads trace) as [structural|] eqn:Hs;
    [|discriminate Hr].
  injection Hr as <- _. split; [apply NoDup_first_occurrences|].
  intros m Hin. apply (proj1 (in_first_occurrences _ _)) in Hin.
  assert (Hbase : In m (motifs ++ structural)
                  \/ (ip = true /\ In m (extract_intent_motifs (x :: seq)))).
  { destruct ip; cbv zeta iota in Hin; [|now left]. apply List.in_app_or in Hin.
    destruct Hin; [now left|right; now split]. }
  destruct Hbase as [Hbase|[Hip Hint]].
  - apply List.in_app_or in Hbase. destruct Hbase as [Hh|Hst].
    + left. destruct (motifs_from_sequence_hashes _ _ _ _ _ Hm _ Hh) as (raw & ->).
      apply hashed_form_shape.
    + right. destruct (extract_structural_motifs_shape _ _ _ Hs) as [_ Hshape].
      destruct (Hshape _ Hst) as [->|Hhot]; [now left|right; now left].
  - right. right. right. split; [assumption|].
    now apply (extract_intent_motifs_prefix (x :: seq)).
Qed.

Lemma motifs_repr_tokens_witness :
  List.NoDup [hashed_form "T_EV_9c7e05_EV_9ead47"; hashed_form "HIGH_SWITCHING"].
Proof.
  destruct (motifs_repr_tokens (fun _ _ _ => Ok ["EV_9c7e05"; "EV_9ead47"])
              (fun _ => None) MotifRegistry.empty
              (PyDict [("events", PyList [PyDict []; PyDict []])]) true false)
    as (r & st' & Heq & H).
  apply (H [hashed_form "T_EV_9c7e05_EV_9ead47"; hashed_form "HIGH_SWITCHING"]).
  vm_compute in Heq. injection Heq as <- _. vm_compute. reflexivity.
Defined.

(** X22: [motifs_repr_str] always returns or raises, and for max_length >= 0
    a returned string has at most max_length characters plus the fifteen
    of the truncation mark. *)
Theorem motifs_repr_str_bounded :
  forall (core_event_sequence : pyval -> bool -> bool -> result (list string))
         (json_loads : string -> option pyval)
         (st : MotifRegistry.state) (trace : pyval) (limit max_length : Z),
    (0 <= max_length)%Z ->
    exists r st',
      motifs_repr_str core_event_sequence json_loads st trace limit max_length
      = Some (r, st')
      /\ forall s, r = Ok s ->
                   (Z.of_nat (String.length s) <= max_length + 15)%Z.
Proof.
  intros ces json_loads st trace limit max_length Hmax.
  unfold motifs_repr_str.
  destruct (motifs_repr_is_Some ces json_loads st trace true true false)
    as [[r st1] ->].
  simpl. destruct r as [[|m motifs]|e].
  - eexists _, _. split; [reflexivity|]. intros s [= <-]. simpl. lia.
  - eexists _, _. split; [reflexivity|]. intros s [= <-].
    set (motif_str := Py.join " | " _).
    destruct (Z.ltb_spec max_length (Z.of_nat (String.length motif_str))) as [Hlong|];
      [|lia].
    rewrite length_append. unfold str_slice_to.
    rewrite length_string_of_list, slice_to_nonneg by assumption.
    rewrite List.length_firstn, length_list_of_string. simpl. lia.
  - eexists _, _. split; [reflexivity|]. intros s Hs. discriminate Hs.
Qed.

Lemma motifs_repr_str_bounded_witness :
  exists r st',
    motifs_repr_str (fun _ _ _ => Ok ["EV_9c7e05"; "EV_9ead47"]) (fun _ => None)
      MotifRegistry.empty (PyDict [("events", PyList [PyDict []; PyDict []])]) 50 10
    = Some (r, st')
    /\ forall s, r = Ok s -> (Z.of_nat (String.length s) <= 10 + 15)%Z.
Proof.
  apply (motifs_repr_str_bounded (fun _ _ _ => Ok ["EV_9c7e05"; "EV_9ead47"])
           (fun _ => None) MotifRegistry.empty
           (PyDict [("events", PyList [PyDict []; PyDict []])]) 50 10).
  lia.
Defined.

Example motifs_repr_examples :
  let ev := fun f : string =>
              PyDict [("type", PyStr "edit");
                      ("details", PyDict [("file_path", PyStr f)])] in
  let trace := PyDict [("events", PyList [ev "a"; ev "b"; ev "a"; ev "b"; ev "a"])] in
  let ces := event_sequence (fun _ => None) (fun _ _ => []) in
  fst <$> motifs_repr ces (fun _ => None) MotifRegistry.empty trace true true false
  = Some (Ok [hashed_form "T_EV_9ead47_EV_9ead47"; hashed_form "HOT_EV_9ead47_5";
              hashed_form "SQ_EV_9ead47_EV_9ead47";
              hashed_form "SQ_EV_9ead47_EV_9ead47_EV_9ead47";
              "DEPENDENCY_CHASE"])
  /\ fst <$> motifs_repr_str ces (fun _ => None) MotifRegistry.empty trace 2 20
     = Some (Ok "M_da1b028a8c | M_439... [truncated]")
  /\ fst <$> motifs_repr_str ces (fun _ => None) MotifRegistry.empty (PyDict []) 50 2000
     = Some (Ok "EMPTY_WORKFLOW")
  /\ fst <$> motifs_repr ces (fun _ => None) MotifRegistry.empty (PyInt 1) true true false
     = Some (Raise AttributeError).
Proof. vm_compute. repeat split. Qed.

(** * Descriptions of hashes that are not in the registry *)

Lemma is_hex_lower_in (c : ascii) : is_hex_lower c = true -> In c hex_chars.
Proof.
  destruct c as [[] [] [] [] [] [] [] []]; intros H;
    try (vm_compute in H; discriminate H); simpl; tauto.
Qed.

Lemma hex_val_lower (c : ascii) :
  is_hex_lower c = true -> exists d, Py.hex_val c = Some d /\ (0 <= d)%Z.
Proof.
  intros H. apply is_hex_lower_in in H. simpl in H.
  repeat (destruct H as [<-|H];
          [eexists; split; [reflexivity|vm_compute; discriminate]|]).
  destruct H.
Qed.

Lemma hex_lower_plain (c : ascii) :
  is_hex_lower c = true ->
  Ascii.eqb c "x" = false /\ Ascii.eqb c "X" = false.
Proof.
  intros H. apply is_hex_lower_in in H. simpl in H.
  repeat (destruct H as [<-|H]; [split; reflexivity|]).
  destruct H.
Qed.

Lemma scan_hex_lower (s : string) (acc : Z) :
  all_chars is_hex_lower s = true -> (0 <= acc)%Z ->
  exists v, Py.scan_hex s false acc = Some (v, EmptyString) /\ (0 <= v)%Z.
Proof.
  revert acc. induction s as [|c r IH]; intros acc Hall Hacc.
  - exists acc. split; [reflexivity|assumption].
  - simpl in Hall. apply andb_prop in Hall. destruct Hall as [Hc Hr].
    destruct (hex_val_lower c Hc) as (d & Hd & Hpos).
    cbn [Py.scan_hex]. rewrite Hd. apply IH; [assumption|lia].
Qed.

(** [int(s, 16)] succeeds, with a non-negative value, on every non-empty
    string of lower-case hexadecimal digits. *)
Lemma int16_lower (a : ascii) (r : string) :
  all_chars is_hex_lower (String a r) = true ->
  exists v, Py.int16 (String a r) = Some v /\ (0 <= v)%Z.
Proof.
  intros Hall.
  destruct (scan_hex_lower (String a r) 0 Hall ltac:(lia)) as (v & Hscan & Hv).
  exists v. split; [|exact Hv].
  simpl in Hall. apply andb_prop in Hall. destruct Hall as [Ha Hr].
  assert (Hplain : forall x r', r = String x r' ->
                     Ascii.eqb x "x" || Ascii.eqb x "X" = false).
  { intros x r' ->. simpl in Hr. apply andb_prop in Hr. destruct Hr as [Hx _].
    destruct (hex_lower_plain x Hx) as [-> ->]. reflexivity. }
  apply is_hex_lower_in in Ha. simpl in Ha.
  destruct Ha as [<-|Ha].
  { unfold Py.int16. cbn [Py.drop_while]. change (Py.is_c_space "0") with false.
    cbv iota. destruct r as [|x r'].
    - cbv beta iota zeta. change (Py.hex_val "0") with (Some 0%Z). cbv iota.
      rewrite Hscan. reflexivity.
    - cbv beta iota zeta. rewrite (Hplain x r' eq_refl).
      change (Py.hex_val "0") with (Some 0%Z). cbv iota.
      rewrite Hscan. reflexivity. }
  repeat (destruct Ha as [<-|Ha];
          [unfold Py.int16; cbn [Py.drop_while];
           match goal with
           | |- context [Py.is_c_space ?c] => change (Py.is_c_space c) with false
           end;
           cbv beta iota zeta;
           match goal with
           | |- context [Py.hex_val ?c] =>
               let d := eval vm_compute in (Py.hex_val c) in
               change (Py.hex_val c) with d
           end;
           cbv iota; rewrite Hscan; reflexivity|]).
  destruct Ha.
Qed.

Lemma int16_hex4 (a b c d : ascii) :
  is_hex_lower a = true -> is_hex_lower b = true ->
  is_hex_lower c = true -> is_hex_lower d = true ->
  exists v, Py.int16 (String a (String b (String c (String d EmptyString))))
            = Some v /\ (0 <= v)%Z.
Proof.
  intros Ha Hb Hc Hd. apply int16_lower. simpl.
  now rewrite Ha, Hb, Hc, Hd.
Qed.

Lemma hexdigest_head (s : string) :
  exists a b c d rest,
    Sha1.hexdigest s = String a (String b (String c (String d rest)))
    /\ is_hex_lower a = true /\ is_hex_lower b = true
    /\ is_hex_lower c = true /\ is_hex_lower d = true
    /\ (6 <= String.length rest)%nat.
Proof.
  destruct (hexdigest_shape s) as [Hlen Hall].
  destruct (Sha1.hexdigest s) as [|a [|b [|c [|d rest]]]];
    try (simpl in Hlen; lia).
  simpl in Hall, Hlen.
  apply andb_prop in Hall. destruct Hall as [Ha Hall].
  apply andb_prop in Hall. destruct Hall as [Hb Hall].
  apply andb_prop in Hall. destruct Hall as [Hc Hall].
  apply andb_prop in Hall. destruct Hall as [Hd _].
  exists a, b, c, d, rest. repeat (split; [assumption || reflexivity|]). lia.
Qed.

Lemma describe_pattern_by_type_hash (raw : string) :
  exists label,
    In label MotifRegistry.pattern_types
    /\ MotifRegistry._describe_pattern_by_type (hashed_form raw)
       = (label ++ " #" ++ sha1_prefix 4 raw)%string.
Proof.
  destruct (hexdigest_head raw)
    as (a & b & c & d & rest & Hhex & Ha & Hb & Hc & Hd & Hrest).
  destruct (int16_hex4 a b c d Ha Hb Hc Hd) as (v & Hv & Hpos).
  assert (Hform : hashed_form raw
                  = String "M" (String "_" (String a (String b (String c
                      (String d (String.substring 0 6 rest))))))).
  { unfold hashed_form, sha1_prefix, Py.slice. rewrite Hhex. reflexivity. }
  assert (Hfour : sha1_prefix 4 raw
                  = String a (String b (String c (String d EmptyString)))).
  { unfold sha1_prefix, Py.slice. rewrite Hhex. simpl.
    now destruct rest. }
  assert (Hslice : Py.slice 2 6 (hashed_form raw)
                   = String a (String b (String c (String d EmptyString)))).
  { rewrite Hform. unfold Py.slice. simpl. now destruct (String.substring 0 6 rest). }
  exists (List.nth (Z.to_nat (v mod 8)) MotifRegistry.pattern_types "").
  split.
  - apply List.nth_In. simpl.
    pose proof (Z.mod_pos_bound v 8 ltac:(lia)). lia.
  - unfold MotifRegistry._describe_pattern_by_type.
    rewrite Hslice, Hv, Hfour.
    now rewrite Hform.
Qed.

(** X23: A hashed motif that is neither registered nor cached (after [clear],
    or hashed without registration) is described by one of the eight
    generic labels followed by " #" and the first four digits of its
    digest, never by the raw fallback, and its category is
    "Mined Pattern". *)
Theorem describe_unregistered_hash :
  forall (st : MotifRegistry.state) (raw : string),
    MotifRegistry._registry st !! hashed_form raw = None ->
    MotifRegistry._descriptions st !! hashed_form raw = None ->
    (exists label,
        In label MotifRegistry.pattern_types
        /\ fst (MotifRegistry.describe st (hashed_form raw))
           = (label ++ " #" ++ sha1_prefix 4 raw)%string)
    /\ MotifRegistry.get_category st (hashed_form raw) = "Mined Pattern".
Proof.
  intros st raw Hreg Hdesc. split.
  - destruct (describe_pattern_by_type_hash raw) as (label & Hin & Heq).
    exists label. split; [exact Hin|].
    unfold MotifRegistry.describe. rewrite Hdesc. cbn [fst].
    unfold MotifRegistry._generate_description. now rewrite Hreg.
  - unfold MotifRegistry.get_category, MotifRegistry._categorize.
    rewrite Hreg. cbn [default]. rewrite String.eqb_refl.
    reflexivity.
Qed.

Lemma describe_unregistered_hash_witness :
  (exists label,
      In label MotifRegistry.pattern_types
      /\ fst (MotifRegistry.describe (MotifRegistry.clear MotifRegistry.empty)
                (hashed_form "T_EV_9c7e05_EV_9ead47"))
         = (label ++ " #" ++ sha1_prefix 4 "T_EV_9c7e05_EV_9ead47")%string)
  /\ MotifRegistry.get_category (MotifRegistry.clear MotifRegistry.empty)
       (hashed_form "T_EV_9c7e05_EV_9ead47") = "Mined Pattern".
Proof.
  apply (describe_unregistered_hash (MotifRegistry.clear MotifRegistry.empty)
           "T_EV_9c7e05_EV_9ead47"); reflexivity.
Defined.

(** * Prompt extraction *)

Lemma str_of_Z_nonempty (n : Z) : Py.str_of_Z n <> "".
Proof.
  unfold Py.str_of_Z. destruct (Z.to_int n) as [d|d]; simpl.
  - destruct d; discriminate.
  - discriminate.
Qed.

Lemma bind_Ok {A B : Type} (r : result A) (k : A -> result B) (y : B) :
  (x ← r; k x) = Ok y -> exists a, r = Ok a /\ k a = Ok y.
Proof. destruct r as [a|e]; simpl; intros H; [eauto|discriminate H]. Qed.

Lemma py_str_truthy (v : pyval) (text : string) :
  truthy v = true -> py_str v = Ok text -> text <> "".
Proof.
  destruct v as [|b|n|s|l|d]; simpl; intros Ht H; try discriminate Ht.
  - injection H as <-. now destruct b.
  - unfold str_of_int in H. destruct (_ <? _)%Z; [discriminate H|].
    injection H as <-. apply str_of_Z_nonempty.
  - injection H as <-. now destruct s.
  - apply bind_Ok in H. destruct H as (items & _ & H). injection H as <-.
    intros Heq. apply (f_equal String.length) in Heq.
    rewrite length_append in Heq. simpl in Heq. lia.
  - apply bind_Ok in H. destruct H as (items & _ & H). injection H as <-.
    intros Heq. apply (f_equal String.length) in Heq.
    rewrite length_append in Heq. simpl in Heq. lia.
Qed.

Lemma prompt_of_truthy (v : pyval) (s : string) :
  truthy v = true -> (prompt ← py_str v; Ok (Some prompt)) = Ok (Some s) ->
  s <> "".
Proof.
  intros Ht H. apply bind_Ok in H. destruct H as (text & Hstr & H).
  injection H as <-. now apply (py_str_truthy v).
Qed.

(** X24: Whenever [extract_prompt_from_event] returns a prompt, the prompt is
    not empty and the event is a record whose lower-cased type is one of
    the four prompt types; a record whose type is an ASCII string other
    than these four, in any letter case, gives [None] without raising,
    and so does every input that is not a record. *)
Theorem extract_prompt_from_event_spec :
  forall (json_loads : string -> option pyval) (event : pyval),
    (forall s, extract_prompt_from_event json_loads event = Ok (Some s) ->
       s <> ""
       /\ exists ev raw,
            event = PyDict ev
            /\ py_str (dict_get ev "type") = Ok raw
            /\ in_strings (Py.lower raw) prompt_event_types = true)
    /\ (forall ev t,
          event = PyDict ev ->
          dict_get ev "type" = PyStr t ->
          isascii t = true ->
          in_strings (Py.lower t) prompt_event_types = false ->
          extract_prompt_from_event json_loads event = Ok None)
    /\ (is_record event = false ->
        extract_prompt_from_event json_loads event = Ok None).
Proof.
  intros json_loads event. split; [|split].
  - intros s H.
    destruct event as [|b|n|s0|l|ev]; try discriminate H.
    unfold extract_prompt_from_event in H.
    apply bind_Ok in H. destruct H as (event_type & Hty & H).
    destruct (in_strings event_type prompt_event_types) eqn:Htype;
      [|discriminate H].
    assert (Hraw : exists raw,
               py_str (dict_get ev "type") = Ok raw
               /\ in_strings (Py.lower raw) prompt_event_types = true).
    { destruct (dict_get ev "type") eqn:Hget;
        try (apply bind_Ok in Hty; destruct Hty as (raw & Hstr & Hty);
             injection Hty as <-; eauto).
      injection Hty as <-. discriminate Htype. }
    assert (Hgoal : s <> "");
      [|split; [exact Hgoal|destruct Hraw as (raw & ? & ?); eauto]].
    cbv zeta in H.
    destruct (truthy (py_or (py_or (py_or (dict_get ev "text") _) _) _))
      eqn:Htext; [now apply prompt_of_truthy in H|].
    destruct (dict_get_default ev "details" (PyDict [])) as [|b|n|ds|l|dd];
      try discriminate H.
    + destruct (json_loads ds) as [v|]; [|discriminate H].
      apply bind_Ok in H. destruct H as (t1 & _ & H).
      apply bind_Ok in H. destruct H as (t2 & _ & H).
      apply bind_Ok in H. destruct H as (t3 & _ & H).
      destruct (truthy t3) eqn:Ht3; [|discriminate H].
      now apply prompt_of_truthy in H.
    + destruct (truthy (py_or (py_or (py_or (dict_get dd "text") _) _) _))
        eqn:Htext2; [|discriminate H].
      now apply prompt_of_truthy in H.
  - intros ev t -> Ht _ Hno. unfold extract_prompt_from_event.
    rewrite Ht. cbn [py_str mbind result_bind]. now rewrite Hno.
  - intros Hrec. destruct event; try reflexivity. discriminate Hrec.
Qed.

Lemma extract_prompt_from_event_spec_witness :
  "7" <> ""
  /\ extract_prompt_from_event (fun _ => None)
       (PyDict [("type", PyStr "Edit"); ("text", PyStr "hello")]) = Ok None.
Proof.
  split.
  - apply (proj1 (extract_prompt_from_event_spec (fun _ => None)
                    (PyDict [("type", PyStr "AI_PROMPT"); ("message", PyInt 7)]))
             "7").
    vm_compute. reflexivity.
  - apply (proj1 (proj2 (extract_prompt_from_event_spec (fun _ => None)
                           (PyDict [("type", PyStr "Edit");
                                    ("text", PyStr "hello")])))
             [("type", PyStr "Edit"); ("text", PyStr "hello")] "Edit");
      reflexivity.
Defined.

Example extract_prompt_from_event_examples :
  let loads := fun s : string =>
                 if String.eqb s "[1]" then Some (PyList [PyInt 1]) else None in
  extract_prompt_from_event loads
    (PyDict [("type", PyStr "Prompt"); ("details", PyStr "[1]")])
  = Raise AttributeError
  /\ extract_prompt_from_event loads
       (PyDict [("type", PyStr "Prompt"); ("details", PyStr "{")])
     = Ok None
  /\ extract_prompt_from_event loads
       (PyDict [("type", PyStr "AI_PROMPT"); ("message", PyInt 7)])
     = Ok (Some "7")
  /\ extract_prompt_from_event loads
       (PyDict [("type", PyStr "edit"); ("text", PyStr "hello")])
     = Ok None.
Proof. vm_compute. repeat split. Qed.
